(** * run_quantization.py: a shallow embedding of [main] and its validation logic

    The script [llm/run_quantization.py] is a single sequential procedure
    [main()]: it parses five argument groups, validates flag combinations,
    builds a model and a tokenizer, resolves three datasets (train, dev and
    PTQ calibration), prepares them, creates a trainer and then branches into
    QAT, PTQ, GPTQ, prediction, quantized-model loading and evaluation.

    Embedding.
    - Python exceptions are values of [PyExn]; a computation is a pair of the
      trace of library calls it made (in program order) and either a value or
      the exception that ended it ([M], a writer/error monad).
    - Every call into the external framework (paddle, paddlenlp, the utils package) is
      an [Event] of the trace.  What the framework returns is either a
      symbolic value ([Dataset] terms) or supplied by the environment record
      [Env] (file system, parser, model and tokenizer factories).  Library
      calls are taken to return normally: the exceptions studied here are the
      ones raised by the script itself.
    - Objects the script mutates ([data_args], [training_args],
      [model.config], [tokenizer]) are threaded explicitly through the
      stages. *)

From Stdlib Require Import String Ascii List ZArith Bool Lia.
Import ListNotations.
Local Open Scope string_scope.
Local Open Scope Z_scope.

(** ** Python built-ins used by the script *)

(** [s.endswith(suffix)] *)
Definition endswith (s suffix : string) : bool :=
  let n := String.length s in
  let k := String.length suffix in
  (k <=? n)%nat && String.eqb (substring (n - k) k s) suffix.

(** [s.startswith(prefix)] *)
Definition startswith (s pre : string) : bool := String.prefix pre s.

(** One step of [posixpath.join]: an absolute component restarts the path, a
    path that is empty or already ends with the separator takes the component
    as is, otherwise a separator is inserted. *)
Definition join_step (path b : string) : string :=
  if startswith b "/" then b
  else if (String.eqb path "" || endswith path "/")%bool then path ++ b
  else path ++ "/" ++ b.

(** [os.path.join(a, *p)] *)
Definition os_path_join (a : string) (p : list string) : string :=
  fold_left join_step p a.

(** [sum(flags)] over Python booleans ([True] counts 1, [False] counts 0). *)
Definition py_sum (flags : list bool) : Z :=
  fold_left Z.add (map Z.b2z flags) 0.

(** [key in d] followed by [d[key]] on a dict with string keys. *)
Fixpoint dict_get {A : Type} (key : string) (d : list (string * A)) : option A :=
  match d with
  | [] => None
  | (k, v) :: d' => if String.eqb k key then Some v else dict_get key d'
  end.

(** ** Exceptions and the trace/error monad *)

Inductive PyExn : Type :=
| ValueError (msg : string)
| NotImplementedError (msg : string)
| AttributeError (msg : string)
| TypeError (msg : string)
| UnboundLocalError (msg : string).

Inductive result (A : Type) : Type :=
| Ok (a : A)
| Raise (e : PyExn).
Arguments Ok {A} a.
Arguments Raise {A} e.

(** Classes the script imports and tests with [isinstance]. *)
Inductive PyClass : Type :=
| LlamaForCausalLM
| LlamaForCausalLMPipe
| Qwen2ForCausalLM
| Qwen2ForCausalLMPipe
| LoRAModel
| LlamaTokenizer
| Llama3Tokenizer
| OtherClass (qualname : string).

Definition class_eqb (a b : PyClass) : bool :=
  match a, b with
  | LlamaForCausalLM, LlamaForCausalLM => true
  | LlamaForCausalLMPipe, LlamaForCausalLMPipe => true
  | Qwen2ForCausalLM, Qwen2ForCausalLM => true
  | Qwen2ForCausalLMPipe, Qwen2ForCausalLMPipe => true
  | LoRAModel, LoRAModel => true
  | LlamaTokenizer, LlamaTokenizer => true
  | Llama3Tokenizer, Llama3Tokenizer => true
  | OtherClass x, OtherClass y => String.eqb x y
  | _, _ => false
  end.

(** [isinstance(obj, cls)], where [mro] lists the classes [obj] is an
    instance of (its class and all base classes). *)
Definition isinstance (mro : list PyClass) (cls : PyClass) : bool :=
  existsb (class_eqb cls) mro.

(** line 65 *)
Definition flash_mask_support_list : list PyClass :=
  [LlamaForCausalLM; LlamaForCausalLMPipe; Qwen2ForCausalLM; Qwen2ForCausalLMPipe].

(** The two loader classes [model_class] ranges over (lines 146-151). *)
Inductive ModelClass : Type :=
| AutoModelForCausalLM
| AutoModelForCausalLMPipe.

(** The dataclasses handed to [PdArgumentParser] (line 69), in order. *)
Inductive ArgGroup : Type :=
| GenerateArgumentCls
| QuantArgumentCls
| ModelArgumentCls
| DataArgumentCls
| TrainingArgumentsCls.

(** ** Datasets as symbolic terms over the library's dataset operations *)

Inductive DataSource : Type :=
| JsonFile (data_files : string)
    (* load_dataset("json", data_files=<one path>) *)
| JsonFiles (data_files : list string)
    (* load_dataset("json", data_files=glob.glob(...)) *)
| Registered (name : string) (split : string).
    (* load_dataset(name, splits=[split]) *)

Inductive ConvertFn : Type :=
| ConvertExampleCommon     (* utils.data.convert_example_common *)
| GetConvertExample.       (* get_convert_example(model) *)

(** Keyword arguments bound by [partial(trans_func, ...)]; [None] for a
    keyword the call site does not pass. *)
Record MapCall : Type := mkMapCall {
  map_fn : ConvertFn;
  map_is_test : bool;
  map_zero_padding : option bool;
  map_flash_mask : option bool
}.

Inductive Dataset : Type :=
| Loaded (src : DataSource) (lazy_kw : option bool)
| Skipped (consumed_samples : Z) (ds : Dataset)
| Mapped (call : MapCall) (ds : Dataset)
| ZeroPaddingIterableDataset (ds : Dataset) (max_len : Z) (greedy : option bool)
| ZeroPaddingMapDataset (ds : Dataset) (max_len : Z) (greedy : option bool).

(** ** The five argument groups

    The dataclasses live in [utils/argument.py]; each record lists the fields
    [main] reads or writes, under the names the script uses. *)

(** A Python float the script passes along without computing on it. *)
Inductive PyFloat : Type := FloatLit (repr : string).

(** [main] reads no field of [gen_args]: it prints the group and hands it to
    the trainer. *)
Record GenerateArgument : Type := mkGenerateArgument {
  gen_fields : list (string * string)
}.

Record QuantArgument : Type := mkQuantArgument {
  do_ptq : bool;
  do_qat : bool;
  do_gptq : bool;
  load_quant_model : bool;
  quant_type : string;
  smooth : bool;
  shift : bool;
  smooth_all_linears : bool;
  shift_all_linears : bool;
  auto_clip : bool
}.

Record ModelArgument : Type := mkModelArgument {
  model_name_or_path : string;
  from_aistudio : bool;
  weight_quantize_algo : option string;
  weight_blocksize : Z;
  weight_double_quant : bool;
  weight_double_quant_block_size : Z;
  use_fast_layer_norm : bool;
  hidden_dropout_prob : PyFloat;
  attention_probs_dropout_prob : PyFloat;
  fuse_attention_qkv : option bool;
  fuse_attention_ffn : option bool;
  continue_training : bool;
  flash_mask : bool
}.

Record DataArgument : Type := mkDataArgument {
  dataset_name_or_path : option string;
  max_length : Z;
  zero_padding : bool;
  greedy_zero_padding : bool;
  eval_with_do_generation : bool;
  lazy_ : bool;                        (* data_args.lazy *)
  chat_template : option string;
  pad_to_max_length : bool;
  pad_to_multiple_of : option Z
}.

Record TrainingArguments : Type := mkTrainingArguments {
  device : string;
  fp16 : bool;
  bf16 : bool;
  fp16_opt_level : string;
  gradient_accumulation_steps : Z;
  pipeline_parallel_degree : Z;
  tensor_parallel_degree : Z;
  do_eval : bool;
  do_predict : bool;
  autotuner_benchmark : bool;
  sequence_parallel : bool;
  fuse_sequence_parallel_allreduce : bool;
  resume_from_checkpoint : option string;
  per_device_train_batch_size : Z;
  dataset_world_size : Z;
  output_dir : string;
  ignore_data_skip : bool
}.

(** The 5-tuple both parser methods return (lines 71 and 73). *)
Record Args : Type := mkArgs {
  gen_args : GenerateArgument;
  quant_args : QuantArgument;
  model_args : ModelArgument;
  data_args : DataArgument;
  training_args : TrainingArguments
}.

(** Attribute assignments on the argument objects. *)
Definition set_zero_padding (d : DataArgument) (v : bool) : DataArgument :=
  mkDataArgument (dataset_name_or_path d) (max_length d) v (greedy_zero_padding d)
    (eval_with_do_generation d) (lazy_ d) (chat_template d) (pad_to_max_length d)
    (pad_to_multiple_of d).

Definition set_eval_with_do_generation (d : DataArgument) (v : bool) : DataArgument :=
  mkDataArgument (dataset_name_or_path d) (max_length d) (zero_padding d)
    (greedy_zero_padding d) v (lazy_ d) (chat_template d) (pad_to_max_length d)
    (pad_to_multiple_of d).

Definition set_ignore_data_skip (t : TrainingArguments) (v : bool) : TrainingArguments :=
  mkTrainingArguments (device t) (fp16 t) (bf16 t) (fp16_opt_level t)
    (gradient_accumulation_steps t) (pipeline_parallel_degree t)
    (tensor_parallel_degree t) (do_eval t) (do_predict t) (autotuner_benchmark t)
    (sequence_parallel t) (fuse_sequence_parallel_allreduce t)
    (resume_from_checkpoint t) (per_device_train_batch_size t)
    (dataset_world_size t) (output_dir t) v.

(** ** Framework objects *)

(** The [quantization_config] dict of lines 112-117. *)
Record QuantizationConfig : Type := mkQuantizationConfig {
  qc_weight_quantize_algo : option string;
  qc_weight_blocksize : Z;
  qc_weight_double_quant : bool;
  qc_weight_double_quant_block_size : Z
}.

(** The attributes of a model config that [main] touches.  An attribute
    tested with [hasattr] is [None] when the config class does not have it. *)
Record ModelConfig : Type := mkModelConfig {
  cfg_dtype : string;
  cfg_use_fast_layer_norm : bool;
  cfg_hidden_dropout_prob : option PyFloat;
  cfg_attention_probs_dropout_prob : option PyFloat;
  cfg_ignore_index : option Z;
  cfg_fuse_attention_qkv : option bool;
  cfg_fuse_attention_ffn : option bool;
  cfg_seq_length : Z;
  cfg_use_flash_attention : bool
}.

Record Model : Type := mkModel {
  model_mro : list PyClass;      (* classes the model is an instance of *)
  model_class_repr : string;     (* str(model.__class__) *)
  model_config : ModelConfig     (* model.config *)
}.

Record Tokenizer : Type := mkTokenizer {
  tokenizer_mro : list PyClass;
  tok_chat_template : option string;   (* tokenizer.chat_template *)
  pad_token_id : option Z;
  eos_token_id : option Z
}.

(** [TrainerState.load_from_json] result, as far as lines 292-300 read it. *)
Record TrainerState : Type := mkTrainerState {
  global_step : Z;
  trial_params : option (list (string * Z))
}.

Definition set_use_flash_attention (m : Model) (v : bool) : Model :=
  let c := model_config m in
  mkModel (model_mro m) (model_class_repr m)
    (mkModelConfig (cfg_dtype c) (cfg_use_fast_layer_norm c)
       (cfg_hidden_dropout_prob c) (cfg_attention_probs_dropout_prob c)
       (cfg_ignore_index c) (cfg_fuse_attention_qkv c) (cfg_fuse_attention_ffn c)
       (cfg_seq_length c) v).

Definition set_pad_token_id (tk : Tokenizer) (v : option Z) : Tokenizer :=
  mkTokenizer (tokenizer_mro tk) (tok_chat_template tk) v (eos_token_id tk).

(** ** Library calls observed in the trace *)

Inductive LogLevel : Type := Info | Warning.

(** Which [logger] call was made; the interpolated text is not modelled. *)
Inductive LogMsg : Type :=
| LogProcessRank                 (* lines 87-90 *)
| LogFinalModelConfig            (* line 144 *)
| LogFlashMaskMustUse            (* line 164 *)
| LogNotFoundQuantSetTrain       (* lines 223 and 265 *)
| LogSetTrainAsCalibration       (* line 282 *)
| LogLoadingFromCheckpoint       (* line 287 *)
| LogSkippingSamples             (* line 301 *)
| LogZeroPaddingConflicts        (* line 329 *)
| LogCreatingZeroPadding         (* line 350 *)
| LogEvaluateResult.             (* line 573 *)

Inductive Padding : Type := PadTrue | PadMaxLength.

Inductive Metrics : Type :=
| NoMetrics                      (* compute_metrics=None *)
| ComputeMetricsDoGeneration     (* the local function of lines 383-411 *)
| ComputeMetrics.                (* paddlenlp.trl.llm_utils.compute_metrics *)

(** The keyword arguments of [SFTTrainer(...)] and of its data collator
    (lines 436-456) that depend on the configuration. *)
Record TrainerSpec : Type := mkTrainerSpec {
  tr_train_dataset : option Dataset;
  tr_eval_dataset : option Dataset;
  tr_compute_metrics : Metrics;
  dc_max_length : option Z;
  dc_padding : Padding;
  dc_max_label_length : option Z;
  dc_return_attention_mask : bool;
  dc_pad_to_multiple_of : option Z;
  tr_do_generation : bool;
  tr_zero_padding_callback : bool   (* callbacks=[ZeroPaddingIterDatasetCallback()] *)
}.

Inductive Event : Type :=
| EvParser (groups : list ArgGroup)
| EvParseJsonFileAndCmdLines (argv : list string)
| EvParseArgsIntoDataclasses (argv : list string)
| EvPrintConfig (group : ArgGroup) (title : string)
| EvSetDevice (dev : string)
| EvLog (lvl : LogLevel) (msg : LogMsg)
| EvXpuAccumulateSteps (steps : Z)
| EvAutoConfigFromPretrained (name dtype : string) (aistudio : bool)
    (qc : QuantizationConfig)
| EvSetLlmConfig
| EvModelFromPretrained (cls : ModelClass) (name : string) (aistudio : bool)
| EvModelFromConfig (cls : ModelClass) (dtype : string)
| EvRegisterSequenceParallelHooks (steps : Z) (fuse : bool)
| EvTokenizerFromPretrained (name : string) (aistudio : bool)
| EvInitChatTemplate (name : string) (template : option string)
| EvLoadDataset (src : DataSource) (lazy_kw : option bool)
| EvLoadTrainerState (path : string)
| EvCreateTrainer (spec : TrainerSpec)
| EvSetOptimizerGroupedParameters
| EvCreateQatModel (dtype : string)
| EvTrain (resume : option string)
| EvSaveModel (merge_tensor_parallel : bool)
| EvLogMetrics (split : string)
| EvSaveMetrics (split : string)
| EvSaveState
| EvModelEval
| EvSetQuantizationConfig (qtype : string) (smooth_ shift_ all_linears : bool)
| EvGetPtqDataloader (ds : option Dataset)
| EvGetPtqModelConfig
| EvApplyShift
| EvApplySmooth
| EvApplyAutoclip
| EvApplyPtq
| EvApplyGptq
| EvPredict (ds : Dataset)
| EvLoadQuantModel (out_dir : string)
| EvEvaluate (ds : option Dataset).

(** What the world outside the script answers. *)
Record Env : Type := mkEnv {
  parse_json_file_and_cmd_lines : list string -> Args;
  parse_args_into_dataclasses : list string -> Args;
  get_env_device : string;
  paddle_xpu_importable : bool;
  AutoConfig_from_pretrained :
    string -> string -> bool -> QuantizationConfig -> ModelConfig;
  set_llm_config : ModelConfig -> TrainingArguments -> ModelConfig;
  from_pretrained : ModelClass -> string -> ModelConfig -> bool -> Model;
  from_config : ModelClass -> ModelConfig -> string -> Model;
  AutoTokenizer_from_pretrained : string -> bool -> Tokenizer;
  init_chat_template : Tokenizer -> string -> option string -> Tokenizer;
  os_path_exists : string -> bool;
  glob_glob : string -> list string;
  load_from_json : string -> TrainerState
}.

(** A computation: the trace of library calls made, then its outcome. *)
Definition M (A : Type) : Type := (list Event * result A)%type.

Definition ret {A : Type} (a : A) : M A := ([], Ok a).

Definition raise {A : Type} (e : PyExn) : M A := ([], Raise e).

Definition emit (e : Event) : M unit := ([e], Ok tt).

Definition bind {A B : Type} (m : M A) (k : A -> M B) : M B :=
  match m with
  | (t, Ok a) => let '(t', r) := k a in ((t ++ t')%list, r)
  | (t, Raise e) => (t, Raise e)
  end.

Notation "x <- c ;; k" := (bind c (fun x => k))
  (at level 61, c at next level, right associativity).
Notation "c ;; k" := (bind c (fun _ => k))
  (at level 61, right associativity).

(** [when b c]: the statement [if b: c] with no [else]. *)
Definition when (b : bool) (c : M unit) : M unit := if b then c else ret tt.

Definition trace_of {A : Type} (m : M A) : list Event := fst m.
Definition outcome {A : Type} (m : M A) : result A := snd m.

(** ** [main], lines 69-186: arguments, validation, model and tokenizer *)

(** line 69 *)
Definition parser_groups : list ArgGroup :=
  [GenerateArgumentCls; QuantArgumentCls; ModelArgumentCls; DataArgumentCls;
   TrainingArgumentsCls].

(** line 70: [len(sys.argv) >= 2 and sys.argv[1].endswith(".json")] *)
Definition config_file_given (argv : list string) : bool :=
  (2 <=? length argv)%nat && endswith (nth 1 argv "") ".json".

(** lines 69-73 *)
Definition parse_arguments (env : Env) (argv : list string) : M Args :=
  emit (EvParser parser_groups) ;;
  if config_file_given argv then
    emit (EvParseJsonFileAndCmdLines argv) ;;
    ret (parse_json_file_and_cmd_lines env argv)
  else
    emit (EvParseArgsIntoDataclasses argv) ;;
    ret (parse_args_into_dataclasses env argv).

(** lines 75-78 *)
Definition print_configs : M unit :=
  emit (EvPrintConfig ModelArgumentCls "Model") ;;
  emit (EvPrintConfig DataArgumentCls "Data") ;;
  emit (EvPrintConfig QuantArgumentCls "Quant") ;;
  emit (EvPrintConfig GenerateArgumentCls "Generation").

Definition quant_conflict_msg : string :=
  "--do_ptq, --do_gptq and --do_qat cannot work at the same time. Please choose only one at a time".

(** lines 80-83 *)
Definition check_quant_strategy (q : QuantArgument) : M unit :=
  if 1 <? py_sum [do_ptq q; do_qat q; do_gptq q] then
    raise (ValueError quant_conflict_msg)
  else ret tt.

(** lines 86-100 *)
Definition setup_device (env : Env) (t : TrainingArguments) : M unit :=
  emit (EvSetDevice (device t)) ;;
  emit (EvLog Warning LogProcessRank) ;;
  when (String.eqb (get_env_device env) "xpu" && (1 <? gradient_accumulation_steps t))
    (when (paddle_xpu_importable env)
       (emit (EvXpuAccumulateSteps (gradient_accumulation_steps t)))).

Definition dtype_msg : string := "Please specific dtype: --fp16 or --bf16".

(** lines 103-111 *)
Definition select_dtype (t : TrainingArguments) : M string :=
  if String.eqb (fp16_opt_level t) "O2" then
    if fp16 t then ret "float16"
    else if bf16 t then ret "bfloat16"
    else raise (ValueError dtype_msg)
  else ret "float32".

(** lines 112-144 *)
Definition build_model_config (env : Env) (m : ModelArgument) (d : DataArgument)
    (t : TrainingArguments) (dtype : string) : M ModelConfig :=
  let quantization_config :=
    mkQuantizationConfig (weight_quantize_algo m) (weight_blocksize m)
      (weight_double_quant m) (weight_double_quant_block_size m) in
  emit (EvAutoConfigFromPretrained (model_name_or_path m) dtype (from_aistudio m)
          quantization_config) ;;
  let c0 := AutoConfig_from_pretrained env (model_name_or_path m) dtype
              (from_aistudio m) quantization_config in
  emit EvSetLlmConfig ;;
  let c := set_llm_config env c0 t in
  let model_config :=
    mkModelConfig (cfg_dtype c)
      (use_fast_layer_norm m)
      (match cfg_hidden_dropout_prob c with
       | Some _ => Some (hidden_dropout_prob m)
       | None => None
       end)
      (match cfg_attention_probs_dropout_prob c with
       | Some _ => Some (attention_probs_dropout_prob m)
       | None => None
       end)
      (match cfg_ignore_index c with
       | Some _ => Some (-100)
       | None => None
       end)
      (match fuse_attention_qkv m with
       | Some v => Some v
       | None => cfg_fuse_attention_qkv c
       end)
      (match fuse_attention_ffn m with
       | Some v => Some v
       | None => cfg_fuse_attention_ffn c
       end)
      (max_length d)
      (cfg_use_flash_attention c) in
  emit (EvLog Info LogFinalModelConfig) ;;
  ret model_config.

Definition pipeline_generation_msg : string :=
  "Plese set eval_with_do_generation to false in pipeline parallel mode.".

(** lines 146-151 *)
Definition select_model_class (t : TrainingArguments) (d : DataArgument)
    : M ModelClass :=
  if 1 <? pipeline_parallel_degree t then
    if eval_with_do_generation d && do_eval t then
      raise (ValueError pipeline_generation_msg)
    else ret AutoModelForCausalLMPipe
  else ret AutoModelForCausalLM.

(** lines 153-161 *)
Definition build_model (env : Env) (m : ModelArgument) (t : TrainingArguments)
    (model_class : ModelClass) (model_config : ModelConfig) (dtype : string)
    : M Model :=
  if continue_training m && negb (autotuner_benchmark t) then
    emit (EvModelFromPretrained model_class (model_name_or_path m) (from_aistudio m)) ;;
    ret (from_pretrained env model_class (model_name_or_path m) model_config
           (from_aistudio m))
  else
    emit (EvModelFromConfig model_class dtype) ;;
    ret (from_config env model_class model_config dtype).

(** lines 163-166: the data arguments and the model after the assignments *)
Definition force_flash_mask (m : ModelArgument) (d : DataArgument) (model : Model)
    : M (DataArgument * Model) :=
  if flash_mask m
     && (negb (zero_padding d) || negb (cfg_use_flash_attention (model_config model)))
  then
    emit (EvLog Warning LogFlashMaskMustUse) ;;
    ret (set_zero_padding d true, set_use_flash_attention model true)
  else ret (d, model).

(** f"{model.__class__} not support flash mask." *)
Definition flash_mask_msg (model : Model) : string :=
  model_class_repr model ++ " not support flash mask.".

(** lines 168-169 *)
Definition check_flash_mask_support (m : ModelArgument) (model : Model) : M unit :=
  if flash_mask m
     && negb (existsb (fun cls => isinstance (model_mro model) cls)
                flash_mask_support_list)
  then raise (NotImplementedError (flash_mask_msg model))
  else ret tt.

(** lines 171-174 *)
Definition register_hooks (t : TrainingArguments) : M unit :=
  when (sequence_parallel t)
    (emit (EvRegisterSequenceParallelHooks (gradient_accumulation_steps t)
             (fuse_sequence_parallel_allreduce t))).

(** lines 176-185: the tokenizer and the data arguments after line 182 *)
Definition load_tokenizer (env : Env) (m : ModelArgument) (d : DataArgument)
    : M (Tokenizer * DataArgument) :=
  emit (EvTokenizerFromPretrained (model_name_or_path m) (from_aistudio m)) ;;
  let tk0 := AutoTokenizer_from_pretrained env (model_name_or_path m)
               (from_aistudio m) in
  emit (EvInitChatTemplate (model_name_or_path m) (chat_template d)) ;;
  let tokenizer := init_chat_template env tk0 (model_name_or_path m)
                     (chat_template d) in
  let d' := match tok_chat_template tokenizer with
            | Some _ => set_eval_with_do_generation d false
            | None => d
            end in
  let tokenizer' :=
    if isinstance (tokenizer_mro tokenizer) LlamaTokenizer
       || isinstance (tokenizer_mro tokenizer) Llama3Tokenizer
    then set_pad_token_id tokenizer (eos_token_id tokenizer)
    else tokenizer in
  ret (tokenizer', d').

(** ** [main], lines 187-304: dataset resolution and checkpoint skipping *)

Record Datasets : Type := mkDatasets {
  train_ds : option Dataset;
  dev_ds : option Dataset;
  ptq_ds : option Dataset
}.

(** [load_dataset(...)[0]] *)
Definition load_dataset (src : DataSource) (lazy_kw : option bool) : M Dataset :=
  emit (EvLoadDataset src lazy_kw) ;;
  ret (Loaded src lazy_kw).

(** [load_dataset(...)[0] if b else None] *)
Definition load_dataset_if (b : bool) (src : DataSource) (lazy_kw : option bool)
    : M (option Dataset) :=
  if b then (ds <- load_dataset src lazy_kw ;; ret (Some ds)) else ret None.

(** f"Please specific dataset name or path (got {data_args.dataset_name_or_path})"
    with the value [None] *)
Definition dataset_none_msg : string :=
  "Please specific dataset name or path (got None)".

Definition quant_json_msg (path : string) : string :=
  "Quant strategy requires quant.json or train.json in " ++ path.

Definition quant_folder_msg (path : string) : string :=
  "Quant strategy requires quant or train folder in " ++ path.

(** The test of lines 189-193. *)
Definition single_file_layout (env : Env) (path : string) : bool :=
  os_path_exists env (os_path_join path ["train.json"])
  || os_path_exists env (os_path_join path ["dev.json"])
  || os_path_exists env (os_path_join path ["quant.json"]).

(** The test of lines 229-233. *)
Definition directory_layout (env : Env) (path : string) : bool :=
  os_path_exists env (os_path_join path ["train"])
  || os_path_exists env (os_path_join path ["dev"])
  || os_path_exists env (os_path_join path ["quant"]).

(** lines 194-227 *)
Definition load_single_files (env : Env) (q : QuantArgument) (t : TrainingArguments)
    (d : DataArgument) (path : string) : M Datasets :=
  let lz := Some (lazy_ d) in
  train <- load_dataset_if (do_qat q) (JsonFile (os_path_join path ["train.json"])) lz ;;
  dev <- load_dataset_if (do_eval t) (JsonFile (os_path_join path ["dev.json"])) lz ;;
  ptq <- (if os_path_exists env (os_path_join path ["quant.json"]) then
            load_dataset (JsonFile (os_path_join path ["quant.json"])) lz
          else if os_path_exists env (os_path_join path ["train.json"]) then
            ds <- load_dataset (JsonFile (os_path_join path ["train.json"])) lz ;;
            emit (EvLog Info LogNotFoundQuantSetTrain) ;;
            ret ds
          else raise (ValueError (quant_json_msg path))) ;;
  ret (mkDatasets train dev (Some ptq)).

(** [glob.glob(os.path.join(path, sub, "*.json"))] *)
Definition json_files_in (env : Env) (path sub : string) : DataSource :=
  JsonFiles (glob_glob env (os_path_join path [sub; "*.json"])).

(** lines 234-269 *)
Definition load_directories (env : Env) (q : QuantArgument) (t : TrainingArguments)
    (d : DataArgument) (path : string) : M Datasets :=
  let lz := Some (lazy_ d) in
  train <- load_dataset_if (do_qat q) (json_files_in env path "train") lz ;;
  dev <- load_dataset_if (do_eval t) (json_files_in env path "dev") lz ;;
  ptq <- (if os_path_exists env (os_path_join path ["quant"]) then
            load_dataset (json_files_in env path "quant") lz
          else if os_path_exists env (os_path_join path ["train"]) then
            ds <- load_dataset (json_files_in env path "train") lz ;;
            emit (EvLog Info LogNotFoundQuantSetTrain) ;;
            ret ds
          else raise (ValueError (quant_folder_msg path))) ;;
  ret (mkDatasets train dev (Some ptq)).

(** lines 271-284 *)
Definition load_registered (q : QuantArgument) (t : TrainingArguments)
    (name : string) : M Datasets :=
  train <- load_dataset_if (do_qat q) (Registered name "train") None ;;
  dev <- load_dataset_if (do_eval t) (Registered name "dev") None ;;
  ptq <- (if do_ptq q || do_gptq q || load_quant_model q then
            ds <- load_dataset (Registered name "train") None ;;
            emit (EvLog Info LogSetTrainAsCalibration) ;;
            ret (Some ds)
          else ret None) ;;
  ret (mkDatasets train dev ptq).

(** lines 187-284 *)
Definition resolve_datasets (env : Env) (q : QuantArgument) (t : TrainingArguments)
    (d : DataArgument) : M Datasets :=
  match dataset_name_or_path d with
  | None => raise (ValueError dataset_none_msg)
  | Some path =>
      if single_file_layout env path then load_single_files env q t d path
      else if directory_layout env path then load_directories env q t d path
      else load_registered q t path
  end.

(** lines 292-300 *)
Definition consumed_samples (t : TrainingArguments) (state : TrainerState) : Z :=
  let by_step := global_step state * per_device_train_batch_size t
                 * gradient_accumulation_steps t * dataset_world_size t in
  match trial_params state with
  | Some params =>
      match dict_get "zero_padding_global_step" params with
      | Some v => v
      | None => by_step
      end
  | None => by_step
  end.

(** What Python reports for [train_ds.skip(...)] when [train_ds] is [None]. *)
Definition none_skip_msg : string := "'NoneType' object has no attribute 'skip'".

(** lines 286-304: the training arguments and the train dataset afterwards. *)
Definition skip_consumed (env : Env) (t : TrainingArguments) (d : DataArgument)
    (train : option Dataset) : M (TrainingArguments * option Dataset) :=
  match resume_from_checkpoint t with
  | Some ckpt =>
      if lazy_ d then
        emit (EvLog Info LogLoadingFromCheckpoint) ;;
        let t' := set_ignore_data_skip t true in
        emit (EvLoadTrainerState (os_path_join ckpt ["trainer_state.json"])) ;;
        let state := load_from_json env (os_path_join ckpt ["trainer_state.json"]) in
        emit (EvLog Info LogSkippingSamples) ;;
        match train with
        | Some ds => ret (t', Some (Skipped (consumed_samples t' state) ds))
        | None => raise (AttributeError none_skip_msg)
        end
      else ret (t, train)
  | None => ret (t, train)
  end.

(** ** [main], lines 306-381: conversion and zero padding *)

(** The local variable [intoken_dataset] (lines 346-349). *)
Inductive ZeroPaddingKind : Type := IterableKind | MapKind.

(** [intoken_dataset(ds, tokenizer=..., max_length=..., greedy_zero_padding=...)] *)
Definition intoken_dataset (kind : ZeroPaddingKind) (ds : Dataset) (max_len : Z)
    (greedy : option bool) : Dataset :=
  match kind with
  | IterableKind => ZeroPaddingIterableDataset ds max_len greedy
  | MapKind => ZeroPaddingMapDataset ds max_len greedy
  end.

(** What lines 306-381 leave behind for the rest of [main]. *)
Record Prepared : Type := mkPrepared {
  p_datasets : Datasets;
  p_trans_func : ConvertFn;
  p_eval_zero_padding : bool;
  p_intoken_dataset : option ZeroPaddingKind   (* [None]: the name is unbound *)
}.

(** lines 306-311 *)
Definition select_trans_func (t : TrainingArguments) : ConvertFn :=
  if 1 <? pipeline_parallel_degree t then ConvertExampleCommon
  else GetConvertExample.

(** [ds.map(partial(trans_func, ...)) if ds is not None else None] *)
Definition map_dataset (call : MapCall) (ds : option Dataset) : option Dataset :=
  option_map (Mapped call) ds.

(** lines 306-381 *)
Definition prepare_datasets (m : ModelArgument) (d : DataArgument)
    (t : TrainingArguments) (dss : Datasets) : M Prepared :=
  let trans_func := select_trans_func t in
  let train_call := mkMapCall trans_func false (Some (zero_padding d))
                      (Some (flash_mask m)) in
  let train := map_dataset train_call (train_ds dss) in
  let ptq := map_dataset train_call (ptq_ds dss) in
  eval_zero_padding <-
    (if zero_padding d && eval_with_do_generation d then
       emit (EvLog Warning LogZeroPaddingConflicts) ;; ret false
     else ret (zero_padding d)) ;;
  let dev := map_dataset
               (mkMapCall trans_func (eval_with_do_generation d)
                  (Some eval_zero_padding) (Some (flash_mask m)))
               (dev_ds dss) in
  if zero_padding d then
    let kind := if lazy_ d then IterableKind else MapKind in
    emit (EvLog Info LogCreatingZeroPadding) ;;
    let wrap ds := intoken_dataset kind ds (max_length d)
                     (Some (greedy_zero_padding d)) in
    let train' := option_map wrap train in
    let ptq' := option_map wrap ptq in
    let dev' := if eval_zero_padding
                then option_map (fun ds => intoken_dataset kind ds (max_length d) None) dev
                else dev in
    ret (mkPrepared (mkDatasets train' dev' ptq') trans_func eval_zero_padding
           (Some kind))
  else
    ret (mkPrepared (mkDatasets train dev ptq) trans_func eval_zero_padding None).

(** ** [main], lines 413-458: the trainer *)

(** [isinstance(train_ds, ZeroPaddingIterableDataset)] *)
Definition is_zero_padding_iterable (ds : option Dataset) : bool :=
  match ds with
  | Some (ZeroPaddingIterableDataset _ _ _) => true
  | _ => false
  end.

(** lines 415-458 *)
Definition create_trainer (m : ModelArgument) (d : DataArgument)
    (t : TrainingArguments) (dss : Datasets) : M unit :=
  let '(max_len, padding) :=
    if (1 <? pipeline_parallel_degree t) || sequence_parallel t
       || autotuner_benchmark t || zero_padding d || pad_to_max_length d
    then (Some (max_length d), PadMaxLength)
    else (None, PadTrue) in
  let metrics :=
    if 1 <? pipeline_parallel_degree t then NoMetrics
    else if eval_with_do_generation d then ComputeMetricsDoGeneration
    else ComputeMetrics in
  emit (EvCreateTrainer
          (mkTrainerSpec (train_ds dss) (dev_ds dss) metrics max_len padding max_len
             (negb (flash_mask m)) (pad_to_multiple_of d)
             (eval_with_do_generation d)
             (is_zero_padding_iterable (train_ds dss)))) ;;
  emit EvSetOptimizerGroupedParameters.

(** ** [main], lines 460-575: QAT, PTQ, GPTQ, prediction, evaluation *)

Definition lora_msg : string :=
  "PTQ strategy not supported for LoRA model. Please merge lora parameters to pretrain model first.".

(** lines 473-476, 509-512 and 538-541 *)
Definition check_not_lora (model : Model) : M unit :=
  if isinstance (model_mro model) LoRAModel then
    raise (NotImplementedError lora_msg)
  else ret tt.

(** [trainer.save_model(merge_tensor_parallel=tensor_parallel_degree > 1)] *)
Definition save_model (t : TrainingArguments) : M unit :=
  emit (EvSaveModel (1 <? tensor_parallel_degree t)).

(** lines 461-469 *)
Definition run_qat (q : QuantArgument) (t : TrainingArguments) (dtype : string)
    : M unit :=
  when (do_qat q)
    (emit (EvCreateQatModel dtype) ;;
     emit (EvTrain (resume_from_checkpoint t)) ;;
     save_model t ;;
     emit (EvLogMetrics "qat") ;;
     emit (EvSaveMetrics "qat") ;;
     emit EvSaveState).

(** lines 485-500, repeated as lines 551-566 *)
Definition calibrate (q : QuantArgument) (ptq : option Dataset) : M unit :=
  emit EvModelEval ;;
  emit (EvSetQuantizationConfig (quant_type q) (smooth q) (shift q)
          (smooth_all_linears q || shift_all_linears q)) ;;
  emit (EvGetPtqDataloader ptq) ;;
  when (shift q || smooth q) (emit EvGetPtqModelConfig) ;;
  when (shift q) (emit EvApplyShift) ;;
  when (smooth q) (emit EvApplySmooth).

(** lines 472-506 *)
Definition run_ptq (q : QuantArgument) (t : TrainingArguments) (model : Model)
    (ptq : option Dataset) : M unit :=
  when (do_ptq q)
    (check_not_lora model ;;
     calibrate q ptq ;;
     when (auto_clip q) (emit EvApplyAutoclip) ;;
     emit EvApplyPtq ;;
     save_model t).

(** lines 508-517 *)
Definition run_gptq (q : QuantArgument) (t : TrainingArguments) (model : Model)
    (ptq : option Dataset) : M unit :=
  when (do_gptq q)
    (check_not_lora model ;;
     emit (EvGetPtqDataloader ptq) ;;
     emit EvApplyGptq ;;
     save_model t).

(** lines 520-535 *)
Definition run_predict (d : DataArgument) (t : TrainingArguments) (p : Prepared)
    : M unit :=
  when (do_predict t)
    (match dataset_name_or_path d with
     | None =>
         raise (TypeError "expected str, bytes or os.PathLike object, not NoneType")
     | Some path =>
         test_ds <- load_dataset (JsonFile (os_path_join path ["test.json"]))
                      (Some (lazy_ d)) ;;
         let test_ds := Mapped (mkMapCall (p_trans_func p)
                                  (eval_with_do_generation d) None None) test_ds in
         test_ds <- (if p_eval_zero_padding p then
                       match p_intoken_dataset p with
                       | Some kind => ret (intoken_dataset kind test_ds (max_length d) None)
                       | None =>
                           raise (UnboundLocalError
                                    "local variable 'intoken_dataset' referenced before assignment")
                       end
                     else ret test_ds) ;;
         emit (EvPredict test_ds) ;;
         emit (EvLogMetrics "test")
     end).

(** lines 537-568 *)
Definition run_load_quant_model (q : QuantArgument) (t : TrainingArguments)
    (model : Model) (ptq : option Dataset) : M unit :=
  when (load_quant_model q && negb (do_ptq q))
    (check_not_lora model ;;
     calibrate q ptq ;;
     emit (EvLoadQuantModel (output_dir t))).

(** lines 571-575 *)
Definition run_evaluate (t : TrainingArguments) (dev : option Dataset) : M unit :=
  when (do_eval t)
    (emit (EvLog Info LogEvaluateResult) ;;
     emit (EvEvaluate dev) ;;
     emit (EvLogMetrics "eval")).

(** ** [main] assembled *)

(** The local state after line 185. *)
Record Startup : Type := mkStartup {
  su_dtype : string;
  su_model : Model;
  su_tokenizer : Tokenizer;
  su_data_args : DataArgument     (* after lines 165 and 182 *)
}.

(** lines 146-185 *)
Definition construct (env : Env) (a : Args) (dtype : string)
    (model_config : ModelConfig) : M Startup :=
  model_class <- select_model_class (training_args a) (data_args a) ;;
  model <- build_model env (model_args a) (training_args a) model_class
             model_config dtype ;;
  forced <- force_flash_mask (model_args a) (data_args a) model ;;
  check_flash_mask_support (model_args a) (snd forced) ;;
  register_hooks (training_args a) ;;
  tok <- load_tokenizer env (model_args a) (fst forced) ;;
  ret (mkStartup dtype (snd forced) (fst tok) (snd tok)).

(** lines 75-185 *)
Definition startup (env : Env) (a : Args) : M Startup :=
  print_configs ;;
  check_quant_strategy (quant_args a) ;;
  setup_device env (training_args a) ;;
  dtype <- select_dtype (training_args a) ;;
  model_config <- build_model_config env (model_args a) (data_args a)
                    (training_args a) dtype ;;
  construct env a dtype model_config.

(** The local state after line 458. *)
Record Session : Type := mkSession {
  se_startup : Startup;
  se_training_args : TrainingArguments;   (* after line 290 *)
  se_prepared : Prepared
}.

(** lines 187-458 *)
Definition build_session (env : Env) (a : Args) (su : Startup) : M Session :=
  dss <- resolve_datasets env (quant_args a) (training_args a) (su_data_args su) ;;
  skipped <- skip_consumed env (training_args a) (su_data_args su) (train_ds dss) ;;
  p <- prepare_datasets (model_args a) (su_data_args su) (fst skipped)
         (mkDatasets (snd skipped) (dev_ds dss) (ptq_ds dss)) ;;
  create_trainer (model_args a) (su_data_args su) (fst skipped) (p_datasets p) ;;
  ret (mkSession su (fst skipped) p).

(** lines 75-458 *)
Definition setup (env : Env) (a : Args) : M Session :=
  su <- startup env a ;;
  build_session env a su.

(** lines 460-575 *)
Definition quantize_and_evaluate (a : Args) (s : Session) : M unit :=
  let q := quant_args a in
  let t := se_training_args s in
  let d := su_data_args (se_startup s) in
  let model := su_model (se_startup s) in
  let dss := p_datasets (se_prepared s) in
  run_qat q t (su_dtype (se_startup s)) ;;
  run_ptq q t model (ptq_ds dss) ;;
  run_gptq q t model (ptq_ds dss) ;;
  run_predict d t (se_prepared s) ;;
  run_load_quant_model q t model (ptq_ds dss) ;;
  run_evaluate t (dev_ds dss).

(** [main] from line 75 on, for the parsed argument groups [a]. *)
Definition run (env : Env) (a : Args) : M unit :=
  s <- setup env a ;;
  quantize_and_evaluate a s.

(** [main()], with [argv] the value of [sys.argv]. *)
Definition main (env : Env) (argv : list string) : M unit :=
  a <- parse_arguments env argv ;;
  run env a.

(** ** Observations on traces *)

(** A model (or its config) is loaded. *)
Definition loads_model (e : Event) : bool :=
  match e with
  | EvAutoConfigFromPretrained _ _ _ _ => true
  | EvModelFromPretrained _ _ _ => true
  | EvModelFromConfig _ _ => true
  | _ => false
  end.

(** A dataset is loaded. *)
Definition loads_dataset (e : Event) : bool :=
  match e with
  | EvLoadDataset _ _ => true
  | _ => false
  end.

(** A quantization step is applied to the model. *)
Definition applies_quantization (e : Event) : bool :=
  match e with
  | EvCreateQatModel _ => true
  | EvTrain _ => true
  | EvSetQuantizationConfig _ _ _ _ => true
  | EvApplyShift => true
  | EvApplySmooth => true
  | EvApplyAutoclip => true
  | EvApplyPtq => true
  | EvApplyGptq => true
  | EvLoadQuantModel _ => true
  | _ => false
  end.

(** The model class an event constructs a model with, if it constructs one. *)
Definition constructed_with (e : Event) : option ModelClass :=
  match e with
  | EvModelFromPretrained cls _ _ => Some cls
  | EvModelFromConfig cls _ => Some cls
  | _ => None
  end.

(** The source of a [load_dataset] event. *)
Definition loaded_source (e : Event) : option DataSource :=
  match e with
  | EvLoadDataset src _ => Some src
  | _ => None
  end.

(** The library calls lines 75-185 can make. *)
Definition startup_event (e : Event) : bool :=
  match e with
  | EvPrintConfig _ _ | EvSetDevice _ | EvLog _ _ | EvXpuAccumulateSteps _
  | EvAutoConfigFromPretrained _ _ _ _ | EvSetLlmConfig
  | EvModelFromPretrained _ _ _ | EvModelFromConfig _ _
  | EvRegisterSequenceParallelHooks _ _ | EvTokenizerFromPretrained _ _
  | EvInitChatTemplate _ _ => true
  | _ => false
  end.

(** The library calls lines 187-458 can make. *)
Definition session_event (e : Event) : bool :=
  match e with
  | EvLoadDataset _ _ | EvLog _ _ | EvLoadTrainerState _ | EvCreateTrainer _
  | EvSetOptimizerGroupedParameters => true
  | _ => false
  end.

(** The library calls lines 460-575 can make. *)
Definition closing_event (e : Event) : bool :=
  match e with
  | EvCreateQatModel _ | EvTrain _ | EvSaveModel _ | EvLogMetrics _
  | EvSaveMetrics _ | EvSaveState | EvModelEval | EvSetQuantizationConfig _ _ _ _
  | EvGetPtqDataloader _ | EvGetPtqModelConfig | EvApplyShift | EvApplySmooth
  | EvApplyAutoclip | EvApplyPtq | EvApplyGptq | EvLoadDataset _ _ | EvPredict _
  | EvLoadQuantModel _ | EvLog _ _ | EvEvaluate _ => true
  | _ => false
  end.

(** No [AutoConfig.from_pretrained] call. *)
Definition not_config_event (e : Event) : bool :=
  match e with
  | EvAutoConfigFromPretrained _ _ _ _ => false
  | _ => true
  end.

(** The class [model_class] holds at lines 153-161. *)
Definition expected_model_class (t : TrainingArguments) : ModelClass :=
  if 1 <? pipeline_parallel_degree t then AutoModelForCausalLMPipe
  else AutoModelForCausalLM.

Definition model_class_eqb (a b : ModelClass) : bool :=
  match a, b with
  | AutoModelForCausalLM, AutoModelForCausalLM => true
  | AutoModelForCausalLMPipe, AutoModelForCausalLMPipe => true
  | _, _ => false
  end.

(** Every model the event constructs is constructed with class [cls]. *)
Definition constructs_only_with (cls : ModelClass) (e : Event) : bool :=
  match constructed_with e with
  | Some c => model_class_eqb c cls
  | None => true
  end.

(** The [dtype] arguments of the [AutoConfig.from_pretrained] calls in a trace. *)
Definition config_dtypes (tr : list Event) : list string :=
  flat_map (fun e => match e with
                     | EvAutoConfigFromPretrained _ dtype _ _ => [dtype]
                     | _ => []
                     end) tr.

(** The zero-padding wrapper of lines 351-370 around a train or calibration
    dataset [raw]: the mapped dataset inside ZeroPaddingIterableDataset when
    [lazy], inside ZeroPaddingMapDataset otherwise. *)
Definition padded_for_training (m : ModelArgument) (d : DataArgument)
    (t : TrainingArguments) (raw : Dataset) : Dataset :=
  let mapped := Mapped (mkMapCall (select_trans_func t) false (Some true)
                          (Some (flash_mask m))) raw in
  if lazy_ d
  then ZeroPaddingIterableDataset mapped (max_length d) (Some (greedy_zero_padding d))
  else ZeroPaddingMapDataset mapped (max_length d) (Some (greedy_zero_padding d)).

(** The state [p] left from the datasets [dss] when zero padding is switched
    off for the evaluation dataset only: dev is mapped with
    [zero_padding=False] and has no wrapper, train and calibration are
    wrapped. *)
Definition padded_except_eval (m : ModelArgument) (d : DataArgument)
    (t : TrainingArguments) (dss : Datasets) (p : Prepared) : Prop :=
  p_eval_zero_padding p = false /\
  dev_ds (p_datasets p) =
    option_map
      (Mapped (mkMapCall (select_trans_func t) true (Some false) (Some (flash_mask m))))
      (dev_ds dss) /\
  train_ds (p_datasets p) = option_map (padded_for_training m d t) (train_ds dss) /\
  ptq_ds (p_datasets p) = option_map (padded_for_training m d t) (ptq_ds dss).

(** The argument groups [main] works on: what the parser method chosen at
    line 70 returns. *)
Definition parsed_args (env : Env) (argv : list string) : Args :=
  if config_file_given argv then parse_json_file_and_cmd_lines env argv
  else parse_args_into_dataclasses env argv.

(** The two parser calls of lines 69-73. *)
Definition parse_trace (argv : list string) : list Event :=
  [EvParser parser_groups;
   if config_file_given argv then EvParseJsonFileAndCmdLines argv
   else EvParseArgsIntoDataclasses argv].

(** ** Sample configurations and environments *)

Module Sample.

Definition quant (ptq qat gptq : bool) : QuantArgument :=
  mkQuantArgument ptq qat gptq false "a8w8" false false false false false.

Definition model (mask : bool) : ModelArgument :=
  mkModelArgument "meta-llama/Llama-2-7b" false None (-1) false 256 false
    (FloatLit "0.1") (FloatLit "0.1") None None true mask.

Definition data (path : option string) (zp gen lz : bool) : DataArgument :=
  mkDataArgument path 2048 zp false gen lz None false None.

Definition training (level : string) (half bhalf : bool) (pp : Z) (ev : bool)
    : TrainingArguments :=
  mkTrainingArguments "gpu" half bhalf level 1 pp 1 ev false false false false
    None 1 1 "./checkpoints" false.

Definition args (q : QuantArgument) (m : ModelArgument) (d : DataArgument)
    (t : TrainingArguments) : Args :=
  mkArgs (mkGenerateArgument []) q m d t.

Definition config (dtype : string) (flash : bool) : ModelConfig :=
  mkModelConfig dtype false None None (Some 0) None None 4096 flash.

Definition tokenizer : Tokenizer :=
  mkTokenizer [LlamaTokenizer] None None (Some 2).

(** An environment: the parser returns [a], every model is an instance of
    the classes [mro], and exactly the paths [files] exist. *)
Definition env (a : Args) (mro : list PyClass) (class_repr : string)
    (files : list string) : Env :=
  mkEnv (fun _ => a) (fun _ => a) "gpu" false
    (fun _ dtype _ _ => config dtype false)
    (fun c _ => c)
    (fun _ _ c _ => mkModel mro class_repr c)
    (fun _ c _ => mkModel mro class_repr c)
    (fun _ _ => tokenizer)
    (fun tk _ _ => tk)
    (fun p => existsb (String.eqb p) files)
    (fun _ => [])
    (fun _ => mkTrainerState 0 None).

Definition llama_repr : string :=
  "<class 'paddlenlp.transformers.llama.modeling.LlamaForCausalLM'>".

Definition gpt_repr : string :=
  "<class 'paddlenlp.transformers.gpt.modeling.GPTForCausalLM'>".

(** --do_ptq and --do_qat together. *)
Definition ptq_and_qat : Args :=
  args (quant true true false) (model false)
    (data (Some "./data") false false false) (training "O1" false false 1 false).

Definition plain_env (a : Args) : Env :=
  env a [LlamaForCausalLM] llama_repr ["./data/train.json"; "./data/dev.json"].

(** --do_ptq alone. *)
Definition ptq_only : Args :=
  args (quant true false false) (model false)
    (data (Some "./data") false false false) (training "O1" false false 1 false).

(** No dataset path, and --flash_mask on a model class outside the support
    list. *)
Definition no_path_flash_mask : Args :=
  args (quant true false false) (model true)
    (data None false false false) (training "O1" false false 1 false).

Definition gpt_env (a : Args) : Env :=
  env a [OtherClass "GPTForCausalLM"] gpt_repr [].

(** No dataset path, everything else in order. *)
Definition no_path : Args :=
  args (quant true false false) (model false)
    (data None false false false) (training "O1" false false 1 false).

(** A LoRA-wrapped model (only the environment can produce one). *)
Definition lora_env (a : Args) : Env :=
  env a [LoRAModel] "<class 'paddlenlp.peft.lora.lora_model.LoRAModel'>"
    ["./data/train.json"; "./data/dev.json"].

(** --do_gptq alone. *)
Definition gptq_only : Args :=
  args (quant false false true) (model false)
    (data (Some "./data") false false false) (training "O1" false false 1 false).

(** A dataset directory that holds dev.json only. *)
Definition dev_only_env (a : Args) : Env :=
  env a [LlamaForCausalLM] llama_repr ["./data/dev.json"].

(** Evaluation only: no quantization flag, --do_eval. *)
Definition eval_only : Args :=
  args (quant false false false) (model false)
    (data (Some "./data") false false false) (training "O1" false false 1 true).

(** --fp16_opt_level O2 with the given --fp16 and --bf16. *)
Definition level_o2 (half bhalf : bool) : Args :=
  args (quant true false false) (model false)
    (data (Some "./data") false false false) (training "O2" half bhalf 1 false).

(** --do_ptq and --do_qat together, O2 and no half-precision flag. *)
Definition conflict_o2 : Args :=
  args (quant true true false) (model false)
    (data (Some "./data") false false false) (training "O2" false false 1 false).

(** Pipeline parallelism of degree [pp], with or without generation at
    evaluation time, --do_eval set. *)
Definition pipeline (pp : Z) (gen : bool) : Args :=
  args (quant true false false) (model false)
    (data (Some "./data") false gen false) (training "O1" false false pp true).

(** --flash_mask without --zero_padding, on a Llama model whose config has
    flash attention off. *)
Definition flash_mask_alone : Args :=
  args (quant true false false) (model true)
    (data (Some "./data") false false false) (training "O1" false false 1 false).

(** dev.json only, --flash_mask, and a model class outside the support list. *)
Definition gpt_dev_only_env (a : Args) : Env :=
  env a [OtherClass "GPTForCausalLM"] gpt_repr ["./data/dev.json"].

Definition eval_only_flash_mask : Args :=
  args (quant false false false) (model true)
    (data (Some "./data") false false false) (training "O1" false false 1 true).

(** Raw datasets, as [load_dataset] returns them. *)
Definition raw (file : string) : Dataset :=
  Loaded (JsonFile file) (Some false).

Definition raw_datasets : Datasets :=
  mkDatasets (Some (raw "./data/train.json")) (Some (raw "./data/dev.json"))
    (Some (raw "./data/quant.json")).

(** --zero_padding with --eval_with_do_generation and --do_eval. *)
Definition padded_generation : Args :=
  args (quant true false false) (model false)
    (data (Some "./data") true true false) (training "O1" false false 1 true).

Definition argv_json : list string := ["run_quantization.py"; "ptq_argument.json"].

Definition argv_flags : list string :=
  ["run_quantization.py"; "--do_ptq"; "--model_name_or_path"; "meta-llama/Llama-2-7b"].

End Sample.

(** ** The metric function of lines 383-411

    [compute_metrics_do_generation] is the local function handed to the
    trainer when generation is used at evaluation time.  Its closure holds
    [tokenizer], [data_args.save_generation_output] and
    [training_args.output_dir]; the tokenizer, [json.dumps] and the four
    metric classes are library code, taken from [MetricLibrary]. *)

(** [eval_preds]: one row of token ids per example. *)
Record EvalPrediction : Type := mkEvalPrediction {
  predictions : list (list Z);
  label_ids : list (list Z)
}.

Record MetricLibrary : Type := mkMetricLibrary {
  (* tokenizer.batch_decode(rows, skip_special_tokens=True,
                            clean_up_tokenization_spaces=False) *)
  batch_decode : list (list Z) -> list string;
  (* json.dumps({"output": pred, "tgt": ref}, ensure_ascii=False) *)
  json_dumps : string -> string -> string;
  (* Rouge1().score(predictions, references) *)
  rouge1_score : list string -> list string -> PyFloat;
  (* Rouge2().score(predictions, references) *)
  rouge2_score : list string -> list string -> PyFloat;
  (* RougeL().score() after the given add_inst(pred, refs) calls *)
  rougel_score : list (string * list string) -> PyFloat;
  (* BLEU(n_size=4).score() after the given add_inst(pred, refs) calls *)
  bleu4_score : list (string * list string) -> PyFloat
}.

(** [x[x != -100].tolist()] *)
Definition drop_ignored (row : list Z) : list Z :=
  filter (fun v => negb (v =? -100)) row.

Definition newline : string := String (ascii_of_nat 10) EmptyString.

(** What one call leaves behind: the file written (path and lines, [None]
    when no file is opened), the [add_inst] calls made on the two
    accumulating metrics, and the returned dict. *)
Record MetricsRun : Type := mkMetricsRun {
  mr_written : option (string * list string);
  mr_rougel_insts : list (string * list string);
  mr_bleu4_insts : list (string * list string);
  mr_result : list (string * PyFloat)
}.

(** lines 383-411 *)
Definition compute_metrics_do_generation (lib : MetricLibrary)
    (save_generation_output : bool) (out_dir : string)
    (eval_preds : EvalPrediction) : MetricsRun :=
  let preds := batch_decode lib (map drop_ignored (predictions eval_preds)) in
  let refs := batch_decode lib (map drop_ignored (label_ids eval_preds)) in
  let written :=
    if save_generation_output then
      Some (os_path_join out_dir ["generated_output.json"],
            map (fun pr => json_dumps lib (fst pr) (snd pr) ++ newline)
              (combine preds refs))
    else None in
  let insts := map (fun pr => (fst pr, [snd pr])) (combine preds refs) in
  mkMetricsRun written insts insts
    [("rouge1", rouge1_score lib preds refs);
     ("rouge2", rouge2_score lib preds refs);
     ("rougel", rougel_score lib insts);
     ("bleu4", bleu4_score lib insts)].


(** ** Order of library calls *)

(** Every event satisfying [needs] comes after an event satisfying
    [provides] ([seen]: one has already occurred). *)
Fixpoint preceded_by (provides needs : Event -> bool) (seen : bool)
    (tr : list Event) : bool :=
  match tr with
  | [] => true
  | e :: tr' =>
      (if needs e then seen else true)
      && preceded_by provides needs (seen || provides e) tr'
  end.

Definition is_get_ptq_dataloader (e : Event) : bool :=
  match e with EvGetPtqDataloader _ => true | _ => false end.

Definition is_get_ptq_model_config (e : Event) : bool :=
  match e with EvGetPtqModelConfig => true | _ => false end.

Definition is_shift_or_smooth (e : Event) : bool :=
  match e with EvApplyShift | EvApplySmooth => true | _ => false end.

(** A call that needs the calibration dataloader. *)
Definition uses_ptq_dataloader (e : Event) : bool :=
  match e with
  | EvApplyShift | EvApplySmooth | EvApplyAutoclip | EvApplyPtq | EvApplyGptq => true
  | _ => false
  end.

(** The tokenizer as lines 176-178 leave it. *)
Definition loaded_tokenizer (env : Env) (a : Args) : Tokenizer :=
  init_chat_template env
    (AutoTokenizer_from_pretrained env (model_name_or_path (model_args a))
       (from_aistudio (model_args a)))
    (model_name_or_path (model_args a)) (chat_template (data_args a)).

(** The test of lines 415-421. *)
Definition pads_to_max_length (d : DataArgument) (t : TrainingArguments) : bool :=
  (1 <? pipeline_parallel_degree t) || sequence_parallel t || autotuner_benchmark t
  || zero_padding d || pad_to_max_length d.

Definition not_evaluate (e : Event) : bool :=
  match e with EvEvaluate _ => false | _ => true end.

Definition not_create_trainer (e : Event) : bool :=
  match e with EvCreateTrainer _ => false | _ => true end.

(** The library calls lines 69-73 make. *)
Definition parser_event (e : Event) : bool :=
  match e with
  | EvParser _ | EvParseJsonFileAndCmdLines _ | EvParseArgsIntoDataclasses _ => true
  | _ => false
  end.

(** The dataset an outer wrapper was built from, down to the loaded one. *)
Fixpoint loaded_from (ds : Dataset) : DataSource * option bool :=
  match ds with
  | Loaded src lz => (src, lz)
  | Skipped _ ds' => loaded_from ds'
  | Mapped _ ds' => loaded_from ds'
  | ZeroPaddingIterableDataset ds' _ _ => loaded_from ds'
  | ZeroPaddingMapDataset ds' _ _ => loaded_from ds'
  end.

(** The [is_test] argument of the conversion a dataset was mapped with
    (the outermost [map] under any zero-padding wrapper). *)
Fixpoint mapped_is_test (ds : Dataset) : option bool :=
  match ds with
  | Mapped call _ => Some (map_is_test call)
  | ZeroPaddingIterableDataset ds' _ _ => mapped_is_test ds'
  | ZeroPaddingMapDataset ds' _ _ => mapped_is_test ds'
  | Skipped _ _ | Loaded _ _ => None
  end.

(** The number of samples skipped in the dataset a wrapper was built from
    ([None]: [skip] was not called). *)
Fixpoint skipped_samples (ds : Dataset) : option Z :=
  match ds with
  | Loaded _ _ => None
  | Skipped n _ => Some n
  | Mapped _ ds' => skipped_samples ds'
  | ZeroPaddingIterableDataset ds' _ _ => skipped_samples ds'
  | ZeroPaddingMapDataset ds' _ _ => skipped_samples ds'
  end.

(** [isinstance(ds, (ZeroPaddingIterableDataset, ZeroPaddingMapDataset))] *)
Definition is_zero_padded (ds : Dataset) : bool :=
  match ds with
  | ZeroPaddingIterableDataset _ _ _ | ZeroPaddingMapDataset _ _ _ => true
  | _ => false
  end.

(** What a library call made after line 458 tells about the run it occurs
    in: the flags that guard the block it belongs to, and the dataset it is
    given. *)
Definition closing_origin (a : Args) (s : Session) (e : Event) : Prop :=
  let q := quant_args a in
  let t := se_training_args s in
  let d := su_data_args (se_startup s) in
  let dss := p_datasets (se_prepared s) in
  match e with
  | EvCreateQatModel _ | EvTrain _ | EvSaveMetrics _ | EvSaveState =>
      do_qat q = true
  | EvApplyPtq => do_ptq q = true
  | EvApplyAutoclip => do_ptq q = true /\ auto_clip q = true
  | EvApplyGptq => do_gptq q = true
  | EvLoadQuantModel out => load_quant_model q = true /\ do_ptq q = false
                            /\ out = output_dir t
  | EvGetPtqDataloader ds =>
      ds = ptq_ds dss /\ do_ptq q || do_gptq q || load_quant_model q = true
  | EvModelEval | EvSetQuantizationConfig _ _ _ _ =>
      do_ptq q || load_quant_model q = true
  | EvGetPtqModelConfig =>
      do_ptq q || load_quant_model q = true /\ shift q || smooth q = true
  | EvApplyShift => do_ptq q || load_quant_model q = true /\ shift q = true
  | EvApplySmooth => do_ptq q || load_quant_model q = true /\ smooth q = true
  | EvEvaluate ds => ds = dev_ds dss /\ do_eval t = true
  | EvSaveModel merge => merge = (1 <? tensor_parallel_degree t)
  | EvPredict ds =>
      do_predict t = true /\
      exists path, dataset_name_or_path d = Some path /\
                   loaded_from ds = (JsonFile (os_path_join path ["test.json"]),
                                     Some (lazy_ d))
  | _ => True
  end.

(** ** Further sample configurations *)

Module Scenario.

(** --do_ptq, resuming from a checkpoint with lazy datasets. *)
Definition resume_lazy_ptq : Args :=
  mkArgs (mkGenerateArgument []) (Sample.quant true false false) (Sample.model false)
    (Sample.data (Some "./data") false false true)
    (mkTrainingArguments "gpu" false false "O1" 1 1 1 false false false false false
       (Some "./checkpoints/checkpoint-100") 1 1 "./checkpoints" false).

(** --do_qat with --do_eval. *)
Definition qat_eval : Args :=
  Sample.args (Sample.quant false true false) (Sample.model false)
    (Sample.data (Some "./data") false false false)
    (Sample.training "O1" false false 1 true).

(** --do_ptq with --do_eval. *)
Definition ptq_eval : Args :=
  Sample.args (Sample.quant true false false) (Sample.model false)
    (Sample.data (Some "./data") false false false)
    (Sample.training "O1" false false 1 true).

(** --do_predict on a registered dataset name (no such directory). *)
Definition predict_registered : Args :=
  mkArgs (mkGenerateArgument []) (Sample.quant true false false) (Sample.model false)
    (Sample.data (Some "squad") false false false)
    (mkTrainingArguments "gpu" false false "O1" 1 1 1 false true false false false
       None 1 1 "./checkpoints" false).

Definition no_files_env (a : Args) : Env :=
  Sample.env a [LlamaForCausalLM] Sample.llama_repr [].

(** A tokenizer that comes with a chat template. *)
Definition chat_env (a : Args) : Env :=
  mkEnv (fun _ => a) (fun _ => a) "gpu" false
    (fun _ dtype _ _ => Sample.config dtype false)
    (fun c _ => c)
    (fun _ _ c _ => mkModel [LlamaForCausalLM] Sample.llama_repr c)
    (fun _ c _ => mkModel [LlamaForCausalLM] Sample.llama_repr c)
    (fun _ _ => mkTokenizer [LlamaTokenizer] (Some "{{ messages }}") None (Some 2))
    (fun tk _ _ => tk)
    (fun p => existsb (String.eqb p) ["./data/train.json"; "./data/dev.json"])
    (fun _ => [])
    (fun _ => mkTrainerState 0 None).

(** --eval_with_do_generation with --do_eval. *)
Definition generation_eval : Args :=
  Sample.args (Sample.quant true false false) (Sample.model false)
    (Sample.data (Some "./data") false true false)
    (Sample.training "O1" false false 1 true).

(** --do_qat with --zero_padding and lazy datasets. *)
Definition qat_lazy_padded : Args :=
  Sample.args (Sample.quant false true false) (Sample.model false)
    (Sample.data (Some "./data") true false true)
    (Sample.training "O1" false false 1 false).

(** --do_qat, resuming from a checkpoint with lazy datasets; the trainer
    state records 100 steps and no zero-padding step count. *)
Definition resume_lazy_qat : Args :=
  mkArgs (mkGenerateArgument []) (Sample.quant false true false) (Sample.model false)
    (Sample.data (Some "./data") false false true)
    (mkTrainingArguments "gpu" false false "O1" 4 1 1 false false false false false
       (Some "./checkpoints/checkpoint-100") 2 8 "./checkpoints" false).

Definition resume_env (a : Args) : Env :=
  mkEnv (fun _ => a) (fun _ => a) "gpu" false
    (fun _ dtype _ _ => Sample.config dtype false)
    (fun c _ => c)
    (fun _ _ c _ => mkModel [LlamaForCausalLM] Sample.llama_repr c)
    (fun _ c _ => mkModel [LlamaForCausalLM] Sample.llama_repr c)
    (fun _ _ => Sample.tokenizer)
    (fun tk _ _ => tk)
    (fun p => existsb (String.eqb p) ["./data/train.json"; "./data/dev.json"])
    (fun _ => [])
    (fun _ => mkTrainerState 100 None).

(** An XPU device with paddle_xpu installed, and 4 accumulation steps. *)
Definition xpu_env (a : Args) : Env :=
  mkEnv (fun _ => a) (fun _ => a) "xpu" true
    (fun _ dtype _ _ => Sample.config dtype false)
    (fun c _ => c)
    (fun _ _ c _ => mkModel [LlamaForCausalLM] Sample.llama_repr c)
    (fun _ c _ => mkModel [LlamaForCausalLM] Sample.llama_repr c)
    (fun _ _ => Sample.tokenizer)
    (fun tk _ _ => tk)
    (fun p => existsb (String.eqb p) ["./data/train.json"; "./data/dev.json"])
    (fun _ => [])
    (fun _ => mkTrainerState 0 None).

(** A toy metric library: token rows are decoded to their length in unary,
    records are dumped as "pred|ref", every score is the same literal. *)
Definition toy_metrics : MetricLibrary :=
  mkMetricLibrary
    (map (fun row => string_of_list_ascii (repeat "x"%char (length row))))
    (fun pred ref => pred ++ "|" ++ ref)
    (fun _ _ => FloatLit "0.5") (fun _ _ => FloatLit "0.5")
    (fun _ => FloatLit "0.5") (fun _ => FloatLit "0.5").

(** Two predictions, one reference; -100 marks ignored positions. *)
Definition unbalanced_preds : EvalPrediction :=
  mkEvalPrediction [[5; 6; -100]; [-100; 7]] [[-100; 8; 9; -100]].

End Scenario.

(** * Properties *)

(** ** Strings *)

Lemma substring_all (s : string) : substring 0 (String.length s) s = s.
Proof. induction s as [| c s IH]; simpl; [| rewrite IH]; reflexivity. Qed.

Lemma substring_skip (pre s : string) (m : nat) :
  substring (String.length pre) m (pre ++ s) = substring 0 m s.
Proof. induction pre as [| c pre IH]; simpl; [reflexivity | exact IH]. Qed.

Lemma length_append (s1 s2 : string) :
  String.length (s1 ++ s2) = (String.length s1 + String.length s2)%nat.
Proof. induction s1 as [| c s1 IH]; simpl; [| rewrite IH]; reflexivity. Qed.

Lemma substring_split (s : string) (n m : nat) :
  (n + m = String.length s)%nat ->
  s = substring 0 n s ++ substring n m s.
Proof.
  revert n. induction s as [| c s IH]; intros n H; simpl in H.
  - destruct n; destruct m; try discriminate. reflexivity.
  - destruct n as [| n].
    + simpl in H. subst m. simpl. rewrite substring_all. reflexivity.
    + simpl. f_equal. apply IH. simpl in H. lia.
Qed.

(** [endswith] is the suffix relation. *)
Lemma endswith_spec (s suffix : string) :
  endswith s suffix = true <-> exists pre, s = pre ++ suffix.
Proof.
  unfold endswith. split.
  - intros H. apply andb_true_iff in H as [Hle Heq].
    apply Nat.leb_le in Hle. apply String.eqb_eq in Heq.
    exists (substring 0 (String.length s - String.length suffix) s).
    rewrite <- Heq at 2. apply substring_split. lia.
  - intros [pre ->]. rewrite length_append. apply andb_true_iff. split.
    + apply Nat.leb_le. lia.
    + replace (String.length pre + String.length suffix - String.length suffix)%nat
        with (String.length pre) by lia.
      rewrite substring_skip, substring_all. apply String.eqb_refl.
Qed.

(** No flash-mask message is the LoRA message. *)
Lemma flash_mask_msg_not_lora (model : Model) : flash_mask_msg model <> lora_msg.
Proof.
  unfold flash_mask_msg. intros H.
  assert (E : endswith lora_msg " not support flash mask." = true).
  { apply endswith_spec. exists (model_class_repr model). symmetry. exact H. }
  vm_compute in E. discriminate.
Qed.

(** ** The monad *)

Lemma outcome_bind {A B : Type} (m : M A) (k : A -> M B) :
  outcome (bind m k) =
  match outcome m with
  | Ok a => outcome (k a)
  | Raise e => Raise e
  end.
Proof.
  destruct m as [t [a | e]]; unfold outcome; simpl; [destruct (k a) |]; reflexivity.
Qed.

Lemma trace_bind {A B : Type} (m : M A) (k : A -> M B) :
  trace_of (bind m k) =
  match outcome m with
  | Ok a => (trace_of m ++ trace_of (k a))%list
  | Raise e => trace_of m
  end.
Proof.
  destruct m as [t [a | e]]; unfold outcome, trace_of; simpl;
    [destruct (k a) |]; reflexivity.
Qed.

(** [main] is the two parser calls followed by [run] on the parsed groups. *)
Lemma main_run (env : Env) (argv : list string) :
  main env argv =
  ((parse_trace argv ++ trace_of (run env (parsed_args env argv)))%list,
   outcome (run env (parsed_args env argv))).
Proof.
  unfold main, parse_arguments, parsed_args, parse_trace.
  destruct (config_file_given argv); simpl;
    match goal with |- context [run ?e ?a] => destruct (run e a) end; reflexivity.
Qed.

Lemma outcome_main (env : Env) (argv : list string) :
  outcome (main env argv) = outcome (run env (parsed_args env argv)).
Proof. rewrite main_run. reflexivity. Qed.

Lemma trace_main (env : Env) (argv : list string) :
  trace_of (main env argv) =
  (parse_trace argv ++ trace_of (run env (parsed_args env argv)))%list.
Proof. rewrite main_run. reflexivity. Qed.

Lemma parse_trace_loads_nothing (argv : list string) :
  existsb loads_model (parse_trace argv) = false /\
  existsb loads_dataset (parse_trace argv) = false /\
  existsb applies_quantization (parse_trace argv) = false.
Proof. unfold parse_trace. destruct (config_file_given argv); repeat split. Qed.

Lemma bind_raises {A B : Type} (m : M A) (k : A -> M B) (e : PyExn) :
  outcome (bind m k) = Raise e ->
  outcome m = Raise e \/ exists a, outcome m = Ok a /\ outcome (k a) = Raise e.
Proof.
  rewrite outcome_bind. destruct (outcome m) as [a | e'].
  - intros H. right. exists a. split; [reflexivity | exact H].
  - intros H. left. congruence.
Qed.

Lemma bind_returns {A B : Type} (m : M A) (k : A -> M B) (b : B) :
  outcome (bind m k) = Ok b ->
  exists a, outcome m = Ok a /\ outcome (k a) = Ok b.
Proof.
  rewrite outcome_bind. destruct (outcome m) as [a | e'].
  - intros H. exists a. split; [reflexivity | exact H].
  - discriminate.
Qed.

Lemma outcome_when_emit (b : bool) (ev : Event) :
  outcome (when b (emit ev)) = Ok tt.
Proof. destruct b; reflexivity. Qed.

(** ** Which exception each stage can raise, and when *)

Lemma check_quant_strategy_conflict (q : QuantArgument) :
  1 < py_sum [do_ptq q; do_qat q; do_gptq q] ->
  check_quant_strategy q = ([], Raise (ValueError quant_conflict_msg)).
Proof.
  intros H. unfold check_quant_strategy.
  apply Z.ltb_lt in H. rewrite H. reflexivity.
Qed.

Lemma check_quant_strategy_pass (q : QuantArgument) :
  py_sum [do_ptq q; do_qat q; do_gptq q] <= 1 ->
  check_quant_strategy q = ([], Ok tt).
Proof.
  intros H. unfold check_quant_strategy.
  destruct (1 <? py_sum [do_ptq q; do_qat q; do_gptq q]) eqn:E;
    [apply Z.ltb_lt in E; lia | reflexivity].
Qed.

Lemma check_quant_strategy_raises (q : QuantArgument) (e : PyExn) :
  outcome (check_quant_strategy q) = Raise e ->
  e = ValueError quant_conflict_msg /\ 1 < py_sum [do_ptq q; do_qat q; do_gptq q].
Proof.
  unfold check_quant_strategy.
  destruct (1 <? py_sum [do_ptq q; do_qat q; do_gptq q]) eqn:E; simpl; intros H.
  - apply Z.ltb_lt in E. split; congruence.
  - discriminate.
Qed.

Lemma setup_device_returns (env : Env) (t : TrainingArguments) :
  outcome (setup_device env t) = Ok tt.
Proof.
  unfold setup_device, when.
  destruct (String.eqb (get_env_device env) "xpu" && (1 <? gradient_accumulation_steps t));
    [destruct (paddle_xpu_importable env) |]; reflexivity.
Qed.

Lemma select_dtype_raises (t : TrainingArguments) (e : PyExn) :
  outcome (select_dtype t) = Raise e ->
  e = ValueError dtype_msg /\
  fp16_opt_level t = "O2" /\ fp16 t = false /\ bf16 t = false.
Proof.
  unfold select_dtype.
  destruct (String.eqb_spec (fp16_opt_level t) "O2") as [E | E];
    [destruct (fp16 t), (bf16 t) |]; simpl; intros H;
    try discriminate.
  repeat split; congruence.
Qed.

Lemma build_model_config_returns (env : Env) (m : ModelArgument) (d : DataArgument)
    (t : TrainingArguments) (dtype : string) :
  exists c, outcome (build_model_config env m d t dtype) = Ok c.
Proof. eexists. reflexivity. Qed.

Lemma select_model_class_raises (t : TrainingArguments) (d : DataArgument)
    (e : PyExn) :
  outcome (select_model_class t d) = Raise e ->
  e = ValueError pipeline_generation_msg /\
  1 < pipeline_parallel_degree t /\
  eval_with_do_generation d = true /\ do_eval t = true.
Proof.
  unfold select_model_class.
  destruct (1 <? pipeline_parallel_degree t) eqn:E;
    [destruct (eval_with_do_generation d), (do_eval t) |]; simpl; intros H;
    try discriminate.
  apply Z.ltb_lt in E. repeat split; congruence.
Qed.

Lemma build_model_returns (env : Env) (m : ModelArgument) (t : TrainingArguments)
    (cls : ModelClass) (c : ModelConfig) (dtype : string) :
  exists model, outcome (build_model env m t cls c dtype) = Ok model.
Proof.
  unfold build_model.
  destruct (continue_training m && negb (autotuner_benchmark t));
    eexists; reflexivity.
Qed.

Lemma force_flash_mask_returns (m : ModelArgument) (d : DataArgument) (model : Model) :
  exists r, outcome (force_flash_mask m d model) = Ok r.
Proof.
  unfold force_flash_mask.
  destruct (flash_mask m
            && (negb (zero_padding d)
                || negb (cfg_use_flash_attention (model_config model))));
    eexists; reflexivity.
Qed.

Lemma check_flash_mask_support_raises (m : ModelArgument) (model : Model)
    (e : PyExn) :
  outcome (check_flash_mask_support m model) = Raise e ->
  e = NotImplementedError (flash_mask_msg model) /\
  flash_mask m = true /\
  existsb (fun cls => isinstance (model_mro model) cls) flash_mask_support_list = false.
Proof.
  unfold check_flash_mask_support.
  destruct (flash_mask m);
    [destruct (existsb _ flash_mask_support_list) eqn:E |]; simpl; intros H;
    try discriminate.
  repeat split; congruence.
Qed.

Lemma register_hooks_returns (t : TrainingArguments) :
  outcome (register_hooks t) = Ok tt.
Proof. unfold register_hooks. apply outcome_when_emit. Qed.

Lemma load_single_files_raises (env : Env) (q : QuantArgument)
    (t : TrainingArguments) (d : DataArgument) (path : string) (e : PyExn) :
  outcome (load_single_files env q t d path) = Raise e ->
  e = ValueError (quant_json_msg path) /\
  os_path_exists env (os_path_join path ["quant.json"]) = false /\
  os_path_exists env (os_path_join path ["train.json"]) = false.
Proof.
  unfold load_single_files, load_dataset_if.
  destruct (do_qat q), (do_eval t),
    (os_path_exists env (os_path_join path ["quant.json"])),
    (os_path_exists env (os_path_join path ["train.json"]));
    simpl; intros H; try discriminate; repeat split; congruence.
Qed.

Lemma load_directories_raises (env : Env) (q : QuantArgument)
    (t : TrainingArguments) (d : DataArgument) (path : string) (e : PyExn) :
  outcome (load_directories env q t d path) = Raise e ->
  e = ValueError (quant_folder_msg path) /\
  os_path_exists env (os_path_join path ["quant"]) = false /\
  os_path_exists env (os_path_join path ["train"]) = false.
Proof.
  unfold load_directories, load_dataset_if.
  destruct (do_qat q), (do_eval t),
    (os_path_exists env (os_path_join path ["quant"])),
    (os_path_exists env (os_path_join path ["train"]));
    simpl; intros H; try discriminate; repeat split; congruence.
Qed.

Lemma load_registered_returns (q : QuantArgument) (t : TrainingArguments)
    (name : string) :
  exists dss, outcome (load_registered q t name) = Ok dss.
Proof.
  unfold load_registered, load_dataset_if.
  destruct (do_qat q), (do_eval t), (do_ptq q || do_gptq q || load_quant_model q);
    eexists; reflexivity.
Qed.

Lemma resolve_datasets_raises (env : Env) (q : QuantArgument)
    (t : TrainingArguments) (d : DataArgument) (e : PyExn) :
  outcome (resolve_datasets env q t d) = Raise e ->
  (dataset_name_or_path d = None /\ e = ValueError dataset_none_msg) \/
  (exists path, dataset_name_or_path d = Some path /\
     (e = ValueError (quant_json_msg path) \/ e = ValueError (quant_folder_msg path))).
Proof.
  unfold resolve_datasets.
  destruct (dataset_name_or_path d) as [path |].
  - intros H. right. exists path. split; [reflexivity |].
    destruct (single_file_layout env path).
    + left. apply load_single_files_raises in H. tauto.
    + destruct (directory_layout env path).
      * right. apply load_directories_raises in H. tauto.
      * destruct (load_registered_returns q t path) as [dss E]. congruence.
  - simpl. intros H. left. split; congruence.
Qed.

Lemma resolve_datasets_returns (env : Env) (q : QuantArgument)
    (t : TrainingArguments) (d : DataArgument) (dss : Datasets) :
  outcome (resolve_datasets env q t d) = Ok dss ->
  exists path, dataset_name_or_path d = Some path.
Proof.
  unfold resolve_datasets.
  destruct (dataset_name_or_path d) as [path |]; [eauto | discriminate].
Qed.

Lemma skip_consumed_raises (env : Env) (t : TrainingArguments) (d : DataArgument)
    (train : option Dataset) (e : PyExn) :
  outcome (skip_consumed env t d train) = Raise e ->
  e = AttributeError none_skip_msg /\ train = None /\
  resume_from_checkpoint t <> None /\ lazy_ d = true.
Proof.
  unfold skip_consumed.
  destruct (resume_from_checkpoint t) as [ckpt |], (lazy_ d), train as [ds |];
    simpl; intros H; try discriminate.
  repeat split; congruence.
Qed.

Lemma prepare_datasets_returns (m : ModelArgument) (d : DataArgument)
    (t : TrainingArguments) (dss : Datasets) :
  exists p, outcome (prepare_datasets m d t dss) = Ok p /\
    (p_eval_zero_padding p = true -> p_intoken_dataset p <> None).
Proof.
  unfold prepare_datasets.
  destruct (zero_padding d), (eval_with_do_generation d);
    eexists; (split; [reflexivity |]); simpl; congruence.
Qed.

Lemma create_trainer_returns (m : ModelArgument) (d : DataArgument)
    (t : TrainingArguments) (dss : Datasets) :
  outcome (create_trainer m d t dss) = Ok tt.
Proof.
  unfold create_trainer.
  destruct ((1 <? pipeline_parallel_degree t) || sequence_parallel t
            || autotuner_benchmark t || zero_padding d || pad_to_max_length d);
    reflexivity.
Qed.

Lemma run_qat_returns (q : QuantArgument) (t : TrainingArguments) (dtype : string) :
  outcome (run_qat q t dtype) = Ok tt.
Proof. unfold run_qat, when. destruct (do_qat q); reflexivity. Qed.

Lemma run_evaluate_returns (t : TrainingArguments) (dev : option Dataset) :
  outcome (run_evaluate t dev) = Ok tt.
Proof. unfold run_evaluate, when. destruct (do_eval t); reflexivity. Qed.

Lemma run_ptq_raises (q : QuantArgument) (t : TrainingArguments) (model : Model)
    (ptq : option Dataset) (e : PyExn) :
  outcome (run_ptq q t model ptq) = Raise e ->
  e = NotImplementedError lora_msg /\ isinstance (model_mro model) LoRAModel = true.
Proof.
  unfold run_ptq, calibrate, save_model, when, check_not_lora.
  destruct (do_ptq q); [| simpl; intros H; discriminate].
  destruct (isinstance (model_mro model) LoRAModel).
  - simpl. intros H. split; congruence.
  - destruct (shift q), (smooth q), (auto_clip q); simpl; intros H; discriminate.
Qed.

Lemma run_gptq_raises (q : QuantArgument) (t : TrainingArguments) (model : Model)
    (ptq : option Dataset) (e : PyExn) :
  outcome (run_gptq q t model ptq) = Raise e ->
  e = NotImplementedError lora_msg /\ isinstance (model_mro model) LoRAModel = true.
Proof.
  unfold run_gptq, save_model, when, check_not_lora.
  destruct (do_gptq q); [| simpl; intros H; discriminate].
  destruct (isinstance (model_mro model) LoRAModel);
    simpl; intros H; [split; congruence | discriminate].
Qed.

Lemma run_load_quant_model_raises (q : QuantArgument) (t : TrainingArguments)
    (model : Model) (ptq : option Dataset) (e : PyExn) :
  outcome (run_load_quant_model q t model ptq) = Raise e ->
  e = NotImplementedError lora_msg /\ isinstance (model_mro model) LoRAModel = true.
Proof.
  unfold run_load_quant_model, calibrate, when, check_not_lora.
  destruct (load_quant_model q && negb (do_ptq q)); [| simpl; intros H; discriminate].
  destruct (isinstance (model_mro model) LoRAModel).
  - simpl. intros H. split; congruence.
  - destruct (shift q), (smooth q); simpl; intros H; discriminate.
Qed.

(** With a dataset path and [intoken_dataset] bound whenever it is used, the
    prediction block raises nothing. *)
Lemma run_predict_returns (d : DataArgument) (t : TrainingArguments) (p : Prepared) :
  dataset_name_or_path d <> None ->
  (p_eval_zero_padding p = true -> p_intoken_dataset p <> None) ->
  outcome (run_predict d t p) = Ok tt.
Proof.
  unfold run_predict, when. intros Hd Hk.
  destruct (do_predict t); [| reflexivity].
  destruct (dataset_name_or_path d) as [path |]; [| congruence].
  destruct (p_eval_zero_padding p).
  - destruct (p_intoken_dataset p) as [kind |]; [reflexivity |].
    exfalso. apply Hk; reflexivity.
  - reflexivity.
Qed.

Ltac bind_inv H :=
  apply bind_raises in H;
  let a := fresh "a" in
  let Ha := fresh "Ha" in
  destruct H as [H | [a [Ha H]]].

(** The four ways lines 75-185 can end in an exception. *)
Lemma startup_raises (env : Env) (a : Args) (e : PyExn) :
  outcome (startup env a) = Raise e ->
  (e = ValueError quant_conflict_msg /\
   1 < py_sum [do_ptq (quant_args a); do_qat (quant_args a); do_gptq (quant_args a)])
  \/ (e = ValueError dtype_msg /\ fp16_opt_level (training_args a) = "O2" /\
      fp16 (training_args a) = false /\ bf16 (training_args a) = false)
  \/ (e = ValueError pipeline_generation_msg /\
      1 < pipeline_parallel_degree (training_args a) /\
      eval_with_do_generation (data_args a) = true /\
      do_eval (training_args a) = true)
  \/ (exists model, e = NotImplementedError (flash_mask_msg model) /\
      flash_mask (model_args a) = true /\
      existsb (fun cls => isinstance (model_mro model) cls) flash_mask_support_list
      = false).
Proof.
  unfold startup, construct. intros H.
  bind_inv H; [discriminate |].
  bind_inv H; [apply check_quant_strategy_raises in H; tauto |].
  bind_inv H; [rewrite setup_device_returns in H; discriminate |].
  bind_inv H; [apply select_dtype_raises in H; tauto |].
  bind_inv H; [discriminate |].
  bind_inv H; [apply select_model_class_raises in H; tauto |].
  bind_inv H.
  { match type of H with
    | outcome (build_model ?e ?m ?t ?cls ?c ?dt) = _ =>
        destruct (build_model_returns e m t cls c dt) as [model E]
    end. congruence. }
  bind_inv H.
  { match type of H with
    | outcome (force_flash_mask ?m ?d ?model) = _ =>
        destruct (force_flash_mask_returns m d model) as [r E]
    end. congruence. }
  bind_inv H.
  { apply check_flash_mask_support_raises in H. right. right. right.
    eexists. exact H. }
  bind_inv H; [rewrite register_hooks_returns in H; discriminate |].
  bind_inv H; discriminate.
Qed.

(** Lines 75-185 complete only when the quantization flags do not conflict. *)
Lemma startup_returns (env : Env) (a : Args) (su : Startup) :
  outcome (startup env a) = Ok su ->
  py_sum [do_ptq (quant_args a); do_qat (quant_args a); do_gptq (quant_args a)] <= 1.
Proof.
  unfold startup. intros H.
  apply bind_returns in H as [u [_ H]].
  apply bind_returns in H as [u' [Hq _]].
  unfold check_quant_strategy in Hq.
  destruct (1 <? py_sum _) eqn:E; [discriminate | apply Z.ltb_ge in E; exact E].
Qed.

(** ** Traces, stage by stage *)

Lemma forallb_trace_bind {A B : Type} (Q : Event -> bool) (m : M A) (k : A -> M B) :
  forallb Q (trace_of m) = true ->
  (forall a, outcome m = Ok a -> forallb Q (trace_of (k a)) = true) ->
  forallb Q (trace_of (bind m k)) = true.
Proof.
  intros Hm Hk. rewrite trace_bind.
  destruct (outcome m) as [a | e]; [| exact Hm].
  rewrite forallb_app, Hm. simpl. apply Hk. reflexivity.
Qed.

Lemma forallb_excludes (Q P : Event -> bool) (tr : list Event) :
  forallb Q tr = true ->
  (forall e, Q e = true -> P e = false) ->
  existsb P tr = false.
Proof.
  intros HQ HP. induction tr as [| e tr IH]; [reflexivity |].
  simpl in *. apply andb_true_iff in HQ as [He Htr].
  rewrite (HP e He), (IH Htr). reflexivity.
Qed.

Lemma existsb_app_false (P : Event -> bool) (l1 l2 : list Event) :
  existsb P l1 = false -> existsb P l2 = false -> existsb P (l1 ++ l2) = false.
Proof. intros H1 H2. rewrite existsb_app, H1, H2. reflexivity. Qed.

(** Decide a goal about a stage by cases on the tests it branches on. *)
Ltac by_cases_on_tests :=
  repeat first
    [ reflexivity
    | match goal with
      | |- context [if ?b then _ else _] => destruct b
      | |- context [match ?o with Some _ => _ | None => _ end] => destruct o
      end ].

Lemma startup_events (env : Env) (a : Args) :
  forallb startup_event (trace_of (startup env a)) = true.
Proof.
  unfold startup, construct.
  repeat (apply forallb_trace_bind; [| intros ? _]);
    unfold check_quant_strategy, setup_device, select_dtype, select_model_class,
      build_model, force_flash_mask, check_flash_mask_support, register_hooks, when;
    by_cases_on_tests.
Qed.

Lemma build_session_events (env : Env) (a : Args) (su : Startup) :
  forallb session_event (trace_of (build_session env a su)) = true.
Proof.
  unfold build_session.
  repeat (apply forallb_trace_bind; [| intros ? _]);
    unfold resolve_datasets, load_single_files, load_directories, load_registered,
      load_dataset_if, skip_consumed, prepare_datasets, create_trainer;
    by_cases_on_tests.
Qed.

Lemma quantize_and_evaluate_events (a : Args) (s : Session) :
  forallb closing_event (trace_of (quantize_and_evaluate a s)) = true.
Proof.
  unfold quantize_and_evaluate.
  repeat (apply forallb_trace_bind; [| intros ? _]);
    unfold run_qat, run_ptq, run_gptq, run_predict, run_load_quant_model,
      run_evaluate, calibrate, check_not_lora, save_model, when;
    by_cases_on_tests.
Qed.

Lemma forallb_weaken (Q Q' : Event -> bool) (tr : list Event) :
  forallb Q tr = true ->
  (forall e, Q e = true -> Q' e = true) ->
  forallb Q' tr = true.
Proof.
  intros HQ HP. induction tr as [| e tr IH]; [reflexivity |].
  simpl in *. apply andb_true_iff in HQ as [He Htr].
  rewrite (HP e He), (IH Htr). reflexivity.
Qed.

(** After line 185 no library call loads a config or constructs a model. *)
Lemma after_startup_events (env : Env) (a : Args) (su : Startup)
    (Q : Event -> bool) :
  (forall e, session_event e = true -> Q e = true) ->
  (forall e, closing_event e = true -> Q e = true) ->
  forallb Q (trace_of (s <- build_session env a su ;; quantize_and_evaluate a s))
  = true.
Proof.
  intros Hs Hc. apply forallb_trace_bind.
  - apply (forallb_weaken session_event); [apply build_session_events | exact Hs].
  - intros s _.
    apply (forallb_weaken closing_event);
      [apply quantize_and_evaluate_events | exact Hc].
Qed.

(** [run] is lines 75-185 followed by the rest. *)
Lemma run_startup (env : Env) (a : Args) :
  run env a =
  (su <- startup env a ;;
   s <- build_session env a su ;;
   quantize_and_evaluate a s).
Proof.
  unfold run, setup.
  destruct (startup env a) as [t [su | e]]; simpl; [| reflexivity].
  destruct (build_session env a su) as [t' [s | e]]; simpl; [| reflexivity].
  destruct (quantize_and_evaluate a s) as [t'' r]. rewrite app_assoc. reflexivity.
Qed.

Lemma run_startup_raises (env : Env) (a : Args) (e : PyExn) :
  outcome (startup env a) = Raise e ->
  run env a = (trace_of (startup env a), Raise e).
Proof.
  intros H. rewrite run_startup.
  destruct (startup env a) as [t r]. unfold outcome in H. simpl in *. subst r.
  reflexivity.
Qed.

Lemma force_flash_mask_spec (m : ModelArgument) (d : DataArgument) (model : Model)
    (r : DataArgument * Model) :
  outcome (force_flash_mask m d model) = Ok r ->
  dataset_name_or_path (fst r) = dataset_name_or_path d /\
  eval_with_do_generation (fst r) = eval_with_do_generation d /\
  model_mro (snd r) = model_mro model /\
  (flash_mask m = true ->
   zero_padding (fst r) = true /\
   cfg_use_flash_attention (model_config (snd r)) = true) /\
  (flash_mask m = false -> r = (d, model)).
Proof.
  unfold force_flash_mask.
  destruct (flash_mask m), (zero_padding d) eqn:Ez,
    (cfg_use_flash_attention (model_config model)) eqn:Ef;
    simpl; intros H; injection H as <-; simpl; repeat split;
    try assumption; try reflexivity; try discriminate.
Qed.

Lemma load_tokenizer_spec (env : Env) (m : ModelArgument) (d : DataArgument)
    (r : Tokenizer * DataArgument) :
  outcome (load_tokenizer env m d) = Ok r ->
  dataset_name_or_path (snd r) = dataset_name_or_path d /\
  zero_padding (snd r) = zero_padding d.
Proof.
  unfold load_tokenizer. simpl. intros H. injection H as <-. simpl.
  destruct (tok_chat_template _); split; reflexivity.
Qed.

(** What lines 75-185 leave of the data arguments and of the model. *)
Lemma startup_spec (env : Env) (a : Args) (su : Startup) :
  outcome (startup env a) = Ok su ->
  dataset_name_or_path (su_data_args su) = dataset_name_or_path (data_args a) /\
  (flash_mask (model_args a) = true ->
   zero_padding (su_data_args su) = true /\
   cfg_use_flash_attention (model_config (su_model su)) = true /\
   existsb (fun cls => isinstance (model_mro (su_model su)) cls)
     flash_mask_support_list = true).
Proof.
  unfold startup, construct. intros H.
  repeat (apply bind_returns in H; destruct H as [? [? H]]).
  injection H as <-. cbn [su_data_args su_model].
  match goal with
  | Hf : outcome (force_flash_mask _ _ _) = Ok _ |- _ =>
      apply force_flash_mask_spec in Hf; destruct Hf as (Hp & _ & _ & Hm & _)
  end.
  match goal with
  | Ht : outcome (load_tokenizer _ _ _) = Ok _ |- _ =>
      apply load_tokenizer_spec in Ht; destruct Ht as (Hp' & Hz)
  end.
  split; [congruence |].
  intros Hfm. destruct (Hm Hfm) as (Hz1 & Hu1).
  repeat split; [congruence | exact Hu1 |].
  match goal with
  | Hc : outcome (check_flash_mask_support _ _) = Ok _ |- _ =>
      unfold check_flash_mask_support in Hc; rewrite Hfm in Hc;
      destruct (existsb _ flash_mask_support_list); [reflexivity | discriminate]
  end.
Qed.

(** Every exception [main] can end with. *)
Lemma run_raises (env : Env) (a : Args) (e : PyExn) :
  outcome (run env a) = Raise e ->
  outcome (startup env a) = Raise e
  \/ e = ValueError dataset_none_msg
  \/ (exists path, e = ValueError (quant_json_msg path))
  \/ (exists path, e = ValueError (quant_folder_msg path))
  \/ e = AttributeError none_skip_msg
  \/ (e = NotImplementedError lora_msg /\
      exists su, outcome (startup env a) = Ok su /\
                 isinstance (model_mro (su_model su)) LoRAModel = true).
Proof.
  rewrite run_startup. intros H.
  bind_inv H; [left; exact H |]. right.
  bind_inv H.
  - unfold build_session in H.
    bind_inv H.
    { apply resolve_datasets_raises in H.
      destruct H as [[_ ->] | [path [_ [-> | ->]]]]; eauto 6. }
    bind_inv H; [apply skip_consumed_raises in H; tauto |].
    bind_inv H.
    { match type of H with
      | outcome (prepare_datasets ?m ?d ?t ?dss) = _ =>
          destruct (prepare_datasets_returns m d t dss) as [p [E _]]
      end. congruence. }
    bind_inv H; [rewrite create_trainer_returns in H; discriminate |].
    discriminate.
  - rename a0 into su. rename Ha into Hsu. rename a1 into s. rename Ha0 into Hs.
    assert (Hpath : se_startup s = su /\
                    dataset_name_or_path (su_data_args (se_startup s)) <> None /\
                    (p_eval_zero_padding (se_prepared s) = true ->
                     p_intoken_dataset (se_prepared s) <> None)).
    { unfold build_session in Hs.
      repeat (apply bind_returns in Hs; destruct Hs as [? [? Hs]]).
      injection Hs as <-. simpl.
      match goal with
      | Hr : outcome (resolve_datasets _ _ _ _) = Ok _,
        Hp : outcome (prepare_datasets ?m ?d ?t ?dss) = Ok _ |- _ =>
          apply resolve_datasets_returns in Hr; destruct Hr as [path Hr];
          destruct (prepare_datasets_returns m d t dss) as [p [E Hk]];
          split; [reflexivity |]; split; [congruence |];
          rewrite E in Hp; injection Hp as <-; exact Hk
      end. }
    destruct Hpath as (Hst & Hd & Hk).
    assert (Hlora : forall e',
               e' = NotImplementedError lora_msg /\
               isinstance (model_mro (su_model (se_startup s))) LoRAModel = true ->
               e' = NotImplementedError lora_msg /\
               exists su', outcome (startup env a) = Ok su' /\
                           isinstance (model_mro (su_model su')) LoRAModel = true).
    { intros e' [-> Hi]. split; [reflexivity |].
      exists su. rewrite <- Hst. split; [rewrite Hst; exact Hsu | exact Hi]. }
    unfold quantize_and_evaluate in H.
    bind_inv H; [rewrite run_qat_returns in H; discriminate |].
    bind_inv H; [apply run_ptq_raises, Hlora in H; tauto |].
    bind_inv H; [apply run_gptq_raises, Hlora in H; tauto |].
    bind_inv H; [rewrite (run_predict_returns _ _ _ Hd Hk) in H; discriminate |].
    bind_inv H; [apply run_load_quant_model_raises, Hlora in H; tauto |].
    rewrite run_evaluate_returns in H. discriminate.
Qed.

(** ** Conflicting quantization strategies (lines 80-83) *)

Lemma run_quant_conflict (env : Env) (a : Args) :
  1 < py_sum [do_ptq (quant_args a); do_qat (quant_args a); do_gptq (quant_args a)] ->
  run env a = (trace_of print_configs, Raise (ValueError quant_conflict_msg)).
Proof.
  intros H. unfold run, setup, startup.
  rewrite (check_quant_strategy_conflict _ H). reflexivity.
Qed.

(** C1. Whenever more than one of [do_ptq], [do_qat], [do_gptq] is set in the
    parsed configuration, [main] ends with the ValueError of line 81 and its
    trace holds no model load and no dataset load.  Whenever at most one of
    them is set, the check of line 80 returns normally, and [main] does not
    end with that ValueError. *)
Theorem conflicting_quant_flags_raise (env : Env) (argv : list string) :
  let q := quant_args (parsed_args env argv) in
  (1 < py_sum [do_ptq q; do_qat q; do_gptq q] ->
   outcome (main env argv) = Raise (ValueError quant_conflict_msg) /\
   existsb loads_model (trace_of (main env argv)) = false /\
   existsb loads_dataset (trace_of (main env argv)) = false) /\
  (py_sum [do_ptq q; do_qat q; do_gptq q] <= 1 ->
   check_quant_strategy q = ([], Ok tt) /\
   outcome (main env argv) <> Raise (ValueError quant_conflict_msg)).
Proof.
  intros q. split.
  - intros H. rewrite outcome_main, trace_main.
    rewrite (run_quant_conflict env _ H).
    destruct (parse_trace_loads_nothing argv) as (Hm & Hd & _).
    repeat split; apply existsb_app_false; auto.
  - intros H. split; [apply check_quant_strategy_pass; exact H |].
    rewrite outcome_main. intros Hr.
    apply run_raises in Hr.
    destruct Hr as [Hr | [Hr | [[path Hr] | [[path Hr] | [Hr | [Hr _]]]]]];
      try discriminate.
    apply startup_raises in Hr.
    destruct Hr as [[_ Hr] | [[Hr _] | [[Hr _] | [model [Hr _]]]]];
      try discriminate.
    fold q in Hr. lia.
Qed.

Lemma conflicting_quant_flags_raise_witness :
  (outcome (main (Sample.plain_env Sample.ptq_and_qat) Sample.argv_json)
   = Raise (ValueError quant_conflict_msg)) /\
  (outcome (main (Sample.plain_env Sample.ptq_only) Sample.argv_json)
   <> Raise (ValueError quant_conflict_msg)).
Proof.
  split.
  - apply (proj1 (conflicting_quant_flags_raise
                    (Sample.plain_env Sample.ptq_and_qat) Sample.argv_json)).
    vm_compute. reflexivity.
  - apply (proj2 (conflicting_quant_flags_raise
                    (Sample.plain_env Sample.ptq_only) Sample.argv_json)).
    vm_compute. discriminate.
Defined.

(** ** The missing dataset path (lines 187-188) *)

Lemma build_session_no_path (env : Env) (a : Args) (su : Startup) :
  dataset_name_or_path (su_data_args su) = None ->
  build_session env a su = ([], Raise (ValueError dataset_none_msg)).
Proof.
  intros H. unfold build_session, resolve_datasets. rewrite H. reflexivity.
Qed.

Lemma run_no_path (env : Env) (a : Args) :
  dataset_name_or_path (data_args a) = None ->
  run env a =
  (trace_of (startup env a),
   match outcome (startup env a) with
   | Ok _ => Raise (ValueError dataset_none_msg)
   | Raise e => Raise e
   end).
Proof.
  intros H. rewrite run_startup.
  pose proof (startup_spec env a) as Hsu.
  destruct (startup env a) as [t [su | e]]; simpl; [| reflexivity].
  destruct (Hsu su eq_refl) as [Hp _].
  rewrite build_session_no_path by congruence.
  simpl. rewrite app_nil_r. reflexivity.
Qed.

(** C2, as amended.  When [dataset_name_or_path] is [None], [main] always
    ends with an exception, loads no dataset, and makes no library call after
    line 185.  The exception is the ValueError naming the missing path unless
    one of the earlier validations (lines 80, 109, 149, 169) has already
    raised, in which case it is that earlier exception. *)
Theorem missing_dataset_path_raises (env : Env) (argv : list string) :
  let a := parsed_args env argv in
  dataset_name_or_path (data_args a) = None ->
  outcome (main env argv) =
    match outcome (startup env a) with
    | Ok _ => Raise (ValueError dataset_none_msg)
    | Raise e => Raise e
    end /\
  (exists e, outcome (main env argv) = Raise e) /\
  trace_of (main env argv) = (parse_trace argv ++ trace_of (startup env a))%list /\
  existsb loads_dataset (trace_of (main env argv)) = false.
Proof.
  intros a H. pose proof (run_no_path env a H) as Hr.
  assert (Ho : outcome (run env a) =
               match outcome (startup env a) with
               | Ok _ => Raise (ValueError dataset_none_msg)
               | Raise e => Raise e
               end) by (rewrite Hr; reflexivity).
  assert (Ht : trace_of (run env a) = trace_of (startup env a))
    by (rewrite Hr; reflexivity).
  rewrite outcome_main, trace_main. fold a. rewrite Ho, Ht.
  repeat split.
  - destruct (outcome (startup env a)); eexists; reflexivity.
  - apply existsb_app_false; [apply parse_trace_loads_nothing |].
    apply (forallb_excludes startup_event); [apply startup_events |].
    intros [] He; simpl in *; congruence.
Qed.

Lemma missing_dataset_path_raises_witness :
  outcome (main (Sample.plain_env Sample.no_path) Sample.argv_json)
  = Raise (ValueError dataset_none_msg) /\
  existsb loads_dataset
    (trace_of (main (Sample.plain_env Sample.no_path) Sample.argv_json)) = false.
Proof.
  pose proof (missing_dataset_path_raises
                (Sample.plain_env Sample.no_path) Sample.argv_json eq_refl)
    as (H & _ & _ & Hd).
  split; [exact H | exact Hd].
Defined.

(** C2 as stated fails: with no dataset path, --flash_mask and a model class
    outside [flash_mask_support_list], line 169 raises NotImplementedError
    before line 187 is reached. *)
Lemma missing_dataset_path_counterexample :
  let env := Sample.gpt_env Sample.no_path_flash_mask in
  dataset_name_or_path (data_args (parsed_args env Sample.argv_json)) = None /\
  outcome (main env Sample.argv_json)
  = Raise (NotImplementedError
             "<class 'paddlenlp.transformers.gpt.modeling.GPTForCausalLM'> not support flash mask.") /\
  ~ (exists msg, outcome (main env Sample.argv_json) = Raise (ValueError msg)).
Proof.
  cbv zeta. split; [reflexivity |]. split; [reflexivity |].
  intros [msg H]. vm_compute in H. discriminate.
Qed.

(** ** PTQ and GPTQ on a LoRA model (lines 472-476 and 508-512) *)

Lemma setup_events (env : Env) (a : Args) :
  forallb (fun e => startup_event e || session_event e) (trace_of (setup env a))
  = true.
Proof.
  unfold setup. apply forallb_trace_bind.
  - apply (forallb_weaken startup_event); [apply startup_events |].
    intros e ->. reflexivity.
  - intros su _. apply (forallb_weaken session_event);
      [apply build_session_events |].
    intros e ->. apply orb_true_r.
Qed.

Lemma setup_returns (env : Env) (a : Args) (s : Session) :
  outcome (setup env a) = Ok s ->
  py_sum [do_ptq (quant_args a); do_qat (quant_args a); do_gptq (quant_args a)] <= 1.
Proof.
  unfold setup. intros H. apply bind_returns in H as [su [Hsu _]].
  exact (startup_returns env a su Hsu).
Qed.

Lemma quantize_lora (a : Args) (s : Session) :
  py_sum [do_ptq (quant_args a); do_qat (quant_args a); do_gptq (quant_args a)] <= 1 ->
  do_ptq (quant_args a) || do_gptq (quant_args a) = true ->
  isinstance (model_mro (su_model (se_startup s))) LoRAModel = true ->
  quantize_and_evaluate a s = ([], Raise (NotImplementedError lora_msg)).
Proof.
  unfold quantize_and_evaluate, run_qat, run_ptq, run_gptq, check_not_lora, when,
    py_sum.
  intros Hsum Hflag Hlora. rewrite Hlora.
  destruct (do_ptq (quant_args a)), (do_qat (quant_args a)),
    (do_gptq (quant_args a)); simpl in *; try lia; try discriminate; reflexivity.
Qed.

(** C3, as amended.  When [main] gets as far as the quantization blocks
    (lines 75-458 complete), [do_ptq] or [do_gptq] is set and the loaded model
    is a LoRAModel, [main] ends with the NotImplementedError of lines 474 and
    510 and no quantization step is in its trace.  When the model is not a
    LoRAModel, the compatibility check returns normally, and [main] does not
    end with that NotImplementedError. *)
Theorem lora_model_rejected (env : Env) (argv : list string) :
  let a := parsed_args env argv in
  (forall s,
     outcome (setup env a) = Ok s ->
     do_ptq (quant_args a) || do_gptq (quant_args a) = true ->
     isinstance (model_mro (su_model (se_startup s))) LoRAModel = true ->
     outcome (main env argv) = Raise (NotImplementedError lora_msg) /\
     existsb applies_quantization (trace_of (main env argv)) = false) /\
  (forall model,
     isinstance (model_mro model) LoRAModel = false ->
     check_not_lora model = ([], Ok tt)) /\
  ((forall su, outcome (startup env a) = Ok su ->
               isinstance (model_mro (su_model su)) LoRAModel = false) ->
   outcome (main env argv) <> Raise (NotImplementedError lora_msg)).
Proof.
  intros a. split; [| split].
  - intros s Hs Hflag Hlora.
    pose proof (setup_returns env a s Hs) as Hsum.
    pose proof (setup_events env a) as Hev.
    rewrite outcome_main, trace_main. fold a. unfold run.
    rewrite outcome_bind, trace_bind, Hs.
    rewrite (quantize_lora a s Hsum Hflag Hlora).
    split; [reflexivity |].
    apply existsb_app_false; [apply parse_trace_loads_nothing |].
    apply existsb_app_false; [| reflexivity].
    apply (forallb_excludes _ _ _ Hev).
    intros [] He; simpl in *; congruence.
  - intros model H. unfold check_not_lora. rewrite H. reflexivity.
  - intros Hnot. rewrite outcome_main. fold a. intros Hr.
    apply run_raises in Hr.
    destruct Hr as [Hr | [Hr | [[path Hr] | [[path Hr] | [Hr | [_ Hr]]]]]];
      try discriminate.
    + apply startup_raises in Hr.
      destruct Hr as [[Hr _] | [[Hr _] | [[Hr _] | [model [Hr _]]]]];
        try discriminate.
      injection Hr as Hr. symmetry in Hr.
      exact (flash_mask_msg_not_lora model Hr).
    + destruct Hr as (su & Hsu & Hi). rewrite (Hnot su Hsu) in Hi. discriminate.
Qed.

Lemma lora_model_rejected_witness :
  outcome (main (Sample.lora_env Sample.ptq_only) Sample.argv_json)
  = Raise (NotImplementedError lora_msg) /\
  outcome (main (Sample.lora_env Sample.gptq_only) Sample.argv_json)
  = Raise (NotImplementedError lora_msg) /\
  check_not_lora (mkModel [LlamaForCausalLM] Sample.llama_repr
                    (Sample.config "float32" false)) = ([], Ok tt) /\
  outcome (main (Sample.plain_env Sample.ptq_only) Sample.argv_json)
  <> Raise (NotImplementedError lora_msg).
Proof.
  pose proof (proj1 (lora_model_rejected
                       (Sample.lora_env Sample.ptq_only) Sample.argv_json)) as Hp.
  pose proof (proj1 (lora_model_rejected
                       (Sample.lora_env Sample.gptq_only) Sample.argv_json)) as Hg.
  pose proof (proj1 (proj2 (lora_model_rejected
                              (Sample.lora_env Sample.ptq_only) Sample.argv_json)))
    as Hn.
  cbv zeta in Hp, Hg.
  split; [| split; [| split]].
  - eapply Hp; vm_compute; reflexivity.
  - eapply Hg; vm_compute; reflexivity.
  - apply Hn. vm_compute. reflexivity.
  - apply (proj2 (proj2 (lora_model_rejected
                           (Sample.plain_env Sample.ptq_only) Sample.argv_json))).
    intros su Hsu. vm_compute in Hsu. injection Hsu as <-. reflexivity.
Defined.

(** C3 as stated fails: with --do_ptq and a LoRA model but no dataset path,
    [main] ends with the ValueError of line 188, not a NotImplementedError. *)
Lemma lora_model_rejected_counterexample :
  let env := Sample.lora_env Sample.no_path in
  let su := startup env (parsed_args env Sample.argv_json) in
  do_ptq (quant_args (parsed_args env Sample.argv_json)) = true /\
  (exists s, outcome su = Ok s /\
             isinstance (model_mro (su_model s)) LoRAModel = true) /\
  outcome (main env Sample.argv_json) = Raise (ValueError dataset_none_msg) /\
  ~ (exists msg, outcome (main env Sample.argv_json)
                 = Raise (NotImplementedError msg)).
Proof.
  cbv zeta. split; [reflexivity |]. split.
  - eexists. split; vm_compute; reflexivity.
  - split; [reflexivity |]. intros [msg H]. vm_compute in H. discriminate.
Qed.

(** ** Dataset resolution (lines 189-284) *)

Ltac split_loads :=
  repeat match goal with
         | H : _ \/ _ |- _ => destruct H
         | H : False |- _ => destruct H
         | H : In _ _ |- _ => simpl in H
         | H : EvLoadDataset _ _ = EvLoadDataset _ _ |- _ => injection H as <- <-
         | H : EvLog _ _ = EvLoadDataset _ _ |- _ => discriminate H
         end.

Lemma load_single_files_sources (env : Env) (q : QuantArgument)
    (t : TrainingArguments) (d : DataArgument) (path : string)
    (src : DataSource) (lz : option bool) :
  In (EvLoadDataset src lz) (trace_of (load_single_files env q t d path)) ->
  (src = JsonFile (os_path_join path ["train.json"])
   \/ src = JsonFile (os_path_join path ["dev.json"])
   \/ src = JsonFile (os_path_join path ["quant.json"]))
  /\ lz = Some (lazy_ d).
Proof.
  unfold load_single_files, load_dataset_if.
  set (ptrain := os_path_join path ["train.json"]).
  set (pdev := os_path_join path ["dev.json"]).
  set (pquant := os_path_join path ["quant.json"]).
  destruct (do_qat q), (do_eval t), (os_path_exists env pquant),
    (os_path_exists env ptrain); intros H; split_loads; auto.
Qed.

Lemma load_directories_sources (env : Env) (q : QuantArgument)
    (t : TrainingArguments) (d : DataArgument) (path : string)
    (src : DataSource) (lz : option bool) :
  In (EvLoadDataset src lz) (trace_of (load_directories env q t d path)) ->
  (src = json_files_in env path "train"
   \/ src = json_files_in env path "dev"
   \/ src = json_files_in env path "quant")
  /\ lz = Some (lazy_ d).
Proof.
  unfold load_directories, load_dataset_if.
  set (strain := json_files_in env path "train").
  set (sdev := json_files_in env path "dev").
  set (squant := json_files_in env path "quant").
  destruct (do_qat q), (do_eval t), (os_path_exists env (os_path_join path ["quant"])),
    (os_path_exists env (os_path_join path ["train"])); intros H; split_loads; auto.
Qed.

Lemma load_registered_sources (q : QuantArgument) (t : TrainingArguments)
    (name : string) (src : DataSource) (lz : option bool) :
  In (EvLoadDataset src lz) (trace_of (load_registered q t name)) ->
  (src = Registered name "train" \/ src = Registered name "dev") /\ lz = None.
Proof.
  unfold load_registered, load_dataset_if.
  destruct (do_qat q), (do_eval t), (do_ptq q || do_gptq q || load_quant_model q);
    intros H; split_loads; auto.
Qed.

Lemma load_single_files_calibration (env : Env) (q : QuantArgument)
    (t : TrainingArguments) (d : DataArgument) (path : string) :
  let quant := os_path_join path ["quant.json"] in
  let train := os_path_join path ["train.json"] in
  outcome (load_single_files env q t d path) =
  if os_path_exists env quant then
    Ok (mkDatasets
          (if do_qat q then Some (Loaded (JsonFile train) (Some (lazy_ d))) else None)
          (if do_eval t
           then Some (Loaded (JsonFile (os_path_join path ["dev.json"])) (Some (lazy_ d)))
           else None)
          (Some (Loaded (JsonFile quant) (Some (lazy_ d)))))
  else if os_path_exists env train then
    Ok (mkDatasets
          (if do_qat q then Some (Loaded (JsonFile train) (Some (lazy_ d))) else None)
          (if do_eval t
           then Some (Loaded (JsonFile (os_path_join path ["dev.json"])) (Some (lazy_ d)))
           else None)
          (Some (Loaded (JsonFile train) (Some (lazy_ d)))))
  else Raise (ValueError (quant_json_msg path)).
Proof.
  unfold load_single_files, load_dataset_if.
  set (ptrain := os_path_join path ["train.json"]).
  set (pdev := os_path_join path ["dev.json"]).
  set (pquant := os_path_join path ["quant.json"]).
  cbv zeta.
  destruct (do_qat q), (do_eval t), (os_path_exists env pquant),
    (os_path_exists env ptrain); reflexivity.
Qed.

Lemma load_directories_calibration (env : Env) (q : QuantArgument)
    (t : TrainingArguments) (d : DataArgument) (path : string) :
  outcome (load_directories env q t d path) =
  if os_path_exists env (os_path_join path ["quant"]) then
    Ok (mkDatasets
          (if do_qat q then Some (Loaded (json_files_in env path "train") (Some (lazy_ d)))
           else None)
          (if do_eval t then Some (Loaded (json_files_in env path "dev") (Some (lazy_ d)))
           else None)
          (Some (Loaded (json_files_in env path "quant") (Some (lazy_ d)))))
  else if os_path_exists env (os_path_join path ["train"]) then
    Ok (mkDatasets
          (if do_qat q then Some (Loaded (json_files_in env path "train") (Some (lazy_ d)))
           else None)
          (if do_eval t then Some (Loaded (json_files_in env path "dev") (Some (lazy_ d)))
           else None)
          (Some (Loaded (json_files_in env path "train") (Some (lazy_ d)))))
  else Raise (ValueError (quant_folder_msg path)).
Proof.
  unfold load_directories, load_dataset_if.
  set (strain := json_files_in env path "train").
  set (sdev := json_files_in env path "dev").
  set (squant := json_files_in env path "quant").
  destruct (do_qat q), (do_eval t), (os_path_exists env (os_path_join path ["quant"])),
    (os_path_exists env (os_path_join path ["train"])); reflexivity.
Qed.

(** C4, as amended.  With a dataset path given, resolution tries the layouts
    in a fixed order.  If train.json, dev.json or quant.json exists under the
    path, every dataset is loaded from one of these three files; otherwise,
    if train/, dev/ or quant/ exists, every dataset is loaded from the
    *.json files of one of these three directories; otherwise every dataset
    is loaded by registered name.  In both file-system layouts the
    calibration set is loaded from quant.json (quant/) when that exists, from
    train.json (train/) when quant.json (quant/) is missing and train.json
    (train/) exists, and a ValueError is raised when both are missing. *)
Theorem dataset_layouts_in_order (env : Env) (q : QuantArgument)
    (t : TrainingArguments) (d : DataArgument) (path : string) :
  dataset_name_or_path d = Some path ->
  let r := resolve_datasets env q t d in
  let calibration (src : DataSource) :=
    exists dss, outcome r = Ok dss /\
                ptq_ds dss = Some (Loaded src (Some (lazy_ d))) in
  let loads_only (allowed : DataSource -> Prop) :=
    forall src lz, In (EvLoadDataset src lz) (trace_of r) -> allowed src in
  (single_file_layout env path = true ->
   loads_only (fun src =>
     exists f, In f ["train.json"; "dev.json"; "quant.json"] /\
               src = JsonFile (os_path_join path [f])) /\
   (os_path_exists env (os_path_join path ["quant.json"]) = true ->
    calibration (JsonFile (os_path_join path ["quant.json"]))) /\
   (os_path_exists env (os_path_join path ["quant.json"]) = false ->
    os_path_exists env (os_path_join path ["train.json"]) = true ->
    calibration (JsonFile (os_path_join path ["train.json"]))) /\
   (os_path_exists env (os_path_join path ["quant.json"]) = false ->
    os_path_exists env (os_path_join path ["train.json"]) = false ->
    outcome r = Raise (ValueError (quant_json_msg path)))) /\
  (single_file_layout env path = false -> directory_layout env path = true ->
   loads_only (fun src =>
     exists sub, In sub ["train"; "dev"; "quant"] /\
                 src = json_files_in env path sub) /\
   (os_path_exists env (os_path_join path ["quant"]) = true ->
    calibration (json_files_in env path "quant")) /\
   (os_path_exists env (os_path_join path ["quant"]) = false ->
    os_path_exists env (os_path_join path ["train"]) = true ->
    calibration (json_files_in env path "train")) /\
   (os_path_exists env (os_path_join path ["quant"]) = false ->
    os_path_exists env (os_path_join path ["train"]) = false ->
    outcome r = Raise (ValueError (quant_folder_msg path)))) /\
  (single_file_layout env path = false -> directory_layout env path = false ->
   loads_only (fun src => exists split, src = Registered path split) /\
   exists dss, outcome r = Ok dss).
Proof.
  intros Hpath. cbv zeta. unfold resolve_datasets. rewrite Hpath.
  split; [| split].
  - intros ->.
    pose proof (load_single_files_calibration env q t d path) as Hc.
    cbv zeta in Hc.
    split; [| split; [| split]].
    + intros src lz H. apply load_single_files_sources in H.
      destruct H as [[-> | [-> | ->]] _]; eexists; (split; [| reflexivity]);
        simpl; auto.
    + intros Hq. rewrite Hq in Hc. eexists. split; [exact Hc | reflexivity].
    + intros Hq Ht. rewrite Hq, Ht in Hc. eexists. split; [exact Hc | reflexivity].
    + intros Hq Ht. rewrite Hq, Ht in Hc. exact Hc.
  - intros -> ->.
    pose proof (load_directories_calibration env q t d path) as Hc.
    split; [| split; [| split]].
    + intros src lz H. apply load_directories_sources in H.
      destruct H as [[-> | [-> | ->]] _]; eexists; (split; [| reflexivity]);
        simpl; auto.
    + intros Hq. rewrite Hq in Hc. eexists. split; [exact Hc | reflexivity].
    + intros Hq Ht. rewrite Hq, Ht in Hc. eexists. split; [exact Hc | reflexivity].
    + intros Hq Ht. rewrite Hq, Ht in Hc. exact Hc.
  - intros -> ->. split.
    + intros src lz H. apply load_registered_sources in H.
      destruct H as [[-> | ->] _]; eexists; reflexivity.
    + apply load_registered_returns.
Qed.

Lemma dataset_layouts_in_order_witness :
  let d := Sample.data (Some "./data") false false false in
  exists dss,
    outcome (resolve_datasets (Sample.plain_env Sample.ptq_only)
               (Sample.quant true false false)
               (Sample.training "O1" false false 1 true) d) = Ok dss /\
    ptq_ds dss = Some (Loaded (JsonFile "./data/train.json") (Some false)).
Proof.
  cbv zeta.
  pose proof (dataset_layouts_in_order (Sample.plain_env Sample.ptq_only)
                (Sample.quant true false false)
                (Sample.training "O1" false false 1 true)
                (Sample.data (Some "./data") false false false) "./data" eq_refl)
    as [Hsingle _].
  destruct (Hsingle eq_refl) as (_ & _ & Htrain & _).
  exact (Htrain eq_refl eq_refl).
Defined.

(** C4 as stated fails: when the directory holds dev.json only, the
    calibration set is not taken from train.json; resolution raises. *)
Lemma dataset_layouts_in_order_counterexample :
  let env := Sample.dev_only_env Sample.ptq_only in
  let d := Sample.data (Some "./data") false false false in
  let r := resolve_datasets env (Sample.quant true false false)
             (Sample.training "O1" false false 1 true) d in
  single_file_layout env "./data" = true /\
  os_path_exists env (os_path_join "./data" ["quant.json"]) = false /\
  outcome r
  = Raise (ValueError "Quant strategy requires quant.json or train.json in ./data") /\
  ~ (exists dss, outcome r = Ok dss /\
       ptq_ds dss = Some (Loaded (JsonFile "./data/train.json") (Some false))).
Proof.
  cbv zeta. repeat split; try reflexivity.
  intros [dss [H _]]. vm_compute in H. discriminate.
Qed.

(** ** The model dtype (lines 103-111) *)

Lemma config_dtypes_bind {A B : Type} (m : M A) (k : A -> M B) :
  config_dtypes (trace_of (bind m k)) =
  (config_dtypes (trace_of m) ++
   match outcome m with
   | Ok a => config_dtypes (trace_of (k a))
   | Raise _ => []
   end)%list.
Proof.
  rewrite trace_bind. unfold config_dtypes.
  destruct (outcome m); [apply flat_map_app | rewrite app_nil_r; reflexivity].
Qed.

Lemma config_dtypes_none (tr : list Event) :
  forallb not_config_event tr = true -> config_dtypes tr = [].
Proof.
  induction tr as [| e tr IH]; [reflexivity |].
  simpl. intros H. apply andb_true_iff in H as [He Htr].
  unfold config_dtypes in *. simpl. rewrite (IH Htr).
  destruct e; try reflexivity. discriminate.
Qed.

Lemma select_dtype_trace (t : TrainingArguments) :
  trace_of (select_dtype t) = [].
Proof.
  unfold select_dtype.
  destruct (String.eqb _ _); [destruct (fp16 t), (bf16 t) |]; reflexivity.
Qed.

(** Once the flag check has passed and a dtype is chosen, that dtype is the
    one [AutoConfig.from_pretrained] is called with, and it is called once. *)
Lemma config_dtypes_run (env : Env) (a : Args) (dtype : string) :
  py_sum [do_ptq (quant_args a); do_qat (quant_args a); do_gptq (quant_args a)] <= 1 ->
  outcome (select_dtype (training_args a)) = Ok dtype ->
  config_dtypes (trace_of (run env a)) = [dtype].
Proof.
  intros Hsum Hdt. rewrite run_startup, config_dtypes_bind.
  assert (Hrest : match outcome (startup env a) with
                  | Ok su => config_dtypes
                               (trace_of (s <- build_session env a su ;;
                                          quantize_and_evaluate a s))
                  | Raise _ => []
                  end = []).
  { destruct (outcome (startup env a)) as [su |]; [| reflexivity].
    apply config_dtypes_none, after_startup_events; intros []; simpl; congruence. }
  rewrite Hrest, app_nil_r. clear Hrest.
  unfold startup.
  rewrite config_dtypes_bind. change (outcome print_configs) with (Ok tt).
  rewrite config_dtypes_bind, (check_quant_strategy_pass _ Hsum).
  change (outcome ([], Ok tt)) with (@Ok unit tt).
  rewrite config_dtypes_bind, setup_device_returns.
  rewrite (config_dtypes_none (trace_of (setup_device _ _))).
  2:{ unfold setup_device, when. by_cases_on_tests. }
  rewrite config_dtypes_bind, select_dtype_trace, Hdt.
  rewrite config_dtypes_bind.
  change (config_dtypes (trace_of print_configs)) with (@nil string).
  destruct (build_model_config_returns env (model_args a) (data_args a)
              (training_args a) dtype) as [c Hc].
  rewrite Hc.
  rewrite (config_dtypes_none (trace_of (construct env a dtype c))).
  - reflexivity.
  - unfold construct.
    repeat (apply forallb_trace_bind; [| intros ? _]);
      unfold select_model_class, build_model, force_flash_mask,
        check_flash_mask_support, register_hooks, when;
      by_cases_on_tests.
Qed.

Lemma select_dtype_cases (t : TrainingArguments) :
  (fp16_opt_level t = "O2" -> fp16 t = false -> bf16 t = false ->
   select_dtype t = ([], Raise (ValueError dtype_msg))) /\
  (fp16_opt_level t = "O2" -> fp16 t = true ->
   select_dtype t = ([], Ok "float16")) /\
  (fp16_opt_level t = "O2" -> fp16 t = false -> bf16 t = true ->
   select_dtype t = ([], Ok "bfloat16")) /\
  (fp16_opt_level t <> "O2" -> select_dtype t = ([], Ok "float32")).
Proof.
  unfold select_dtype.
  destruct (String.eqb_spec (fp16_opt_level t) "O2") as [E | E];
    repeat split; intros; try congruence;
    repeat match goal with H : _ = _ |- _ => rewrite H end; reflexivity.
Qed.

Lemma run_dtype_missing (env : Env) (a : Args) :
  py_sum [do_ptq (quant_args a); do_qat (quant_args a); do_gptq (quant_args a)] <= 1 ->
  select_dtype (training_args a) = ([], Raise (ValueError dtype_msg)) ->
  outcome (run env a) = Raise (ValueError dtype_msg) /\
  existsb loads_model (trace_of (run env a)) = false.
Proof.
  intros Hsum Hdt.
  assert (Hs : outcome (startup env a) = Raise (ValueError dtype_msg)
               /\ existsb loads_model (trace_of (startup env a)) = false).
  { unfold startup. rewrite (check_quant_strategy_pass _ Hsum), Hdt.
    pose proof (setup_device_returns env (training_args a)) as Hd.
    assert (Hq : existsb loads_model (trace_of (setup_device env (training_args a)))
                 = false).
    { unfold setup_device, when. by_cases_on_tests. }
    destruct (setup_device env (training_args a)) as [tr [[] | e]];
      [| discriminate].
    unfold trace_of in Hq. simpl in Hq.
    split; [reflexivity |].
    unfold trace_of. simpl. rewrite app_nil_r. exact Hq. }
  destruct Hs as [Ho Ht].
  rewrite (run_startup_raises env a _ Ho). split; [reflexivity | exact Ht].
Qed.

(** C5, as amended.  For every configuration that passes the quantization
    flag check: with [fp16_opt_level] "O2" and neither [fp16] nor [bf16] set,
    [main] ends with the ValueError asking for a dtype, before any model is
    loaded; otherwise the model config is requested exactly once, with dtype
    "float16" when O2 with [fp16], "bfloat16" when O2 with [bf16] and without
    [fp16], and "float32" whenever [fp16_opt_level] is not "O2". *)
Theorem dtype_selection (env : Env) (argv : list string) :
  let a := parsed_args env argv in
  let t := training_args a in
  py_sum [do_ptq (quant_args a); do_qat (quant_args a); do_gptq (quant_args a)] <= 1 ->
  (fp16_opt_level t = "O2" -> fp16 t = false -> bf16 t = false ->
   outcome (main env argv) = Raise (ValueError dtype_msg) /\
   existsb loads_model (trace_of (main env argv)) = false) /\
  (fp16_opt_level t = "O2" -> fp16 t = true ->
   config_dtypes (trace_of (main env argv)) = ["float16"]) /\
  (fp16_opt_level t = "O2" -> fp16 t = false -> bf16 t = true ->
   config_dtypes (trace_of (main env argv)) = ["bfloat16"]) /\
  (fp16_opt_level t <> "O2" ->
   config_dtypes (trace_of (main env argv)) = ["float32"]).
Proof.
  intros a t Hsum.
  destruct (select_dtype_cases t) as (Hnone & Hhalf & Hbhalf & Hfull).
  assert (Hparse : forall tr, config_dtypes (parse_trace argv ++ tr) = config_dtypes tr).
  { intros tr. unfold parse_trace. destruct (config_file_given argv); reflexivity. }
  rewrite outcome_main, trace_main, Hparse. fold a.
  repeat split.
  - apply run_dtype_missing; auto.
  - apply existsb_app_false; [apply parse_trace_loads_nothing |].
    apply run_dtype_missing; auto.
  - intros H1 H2. apply config_dtypes_run; [exact Hsum |].
    fold t. rewrite (Hhalf H1 H2). reflexivity.
  - intros H1 H2 H3. apply config_dtypes_run; [exact Hsum |].
    fold t. rewrite (Hbhalf H1 H2 H3). reflexivity.
  - intros H1. apply config_dtypes_run; [exact Hsum |].
    fold t. rewrite (Hfull H1). reflexivity.
Qed.

Lemma dtype_selection_witness :
  outcome (main (Sample.plain_env (Sample.level_o2 false false)) Sample.argv_json)
  = Raise (ValueError dtype_msg) /\
  config_dtypes
    (trace_of (main (Sample.plain_env (Sample.level_o2 true false)) Sample.argv_json))
  = ["float16"] /\
  config_dtypes
    (trace_of (main (Sample.plain_env (Sample.level_o2 false true)) Sample.argv_json))
  = ["bfloat16"] /\
  config_dtypes
    (trace_of (main (Sample.plain_env Sample.ptq_only) Sample.argv_json))
  = ["float32"].
Proof.
  assert (Hle : forall a,
             a = Sample.level_o2 false false \/ a = Sample.level_o2 true false \/
             a = Sample.level_o2 false true \/ a = Sample.ptq_only ->
             py_sum [do_ptq (quant_args a); do_qat (quant_args a);
                     do_gptq (quant_args a)] <= 1).
  { intros a [-> | [-> | [-> | ->]]]; vm_compute; discriminate. }
  split; [| split; [| split]].
  - apply (dtype_selection (Sample.plain_env (Sample.level_o2 false false))
             Sample.argv_json); [apply Hle; auto | reflexivity ..].
  - apply (dtype_selection (Sample.plain_env (Sample.level_o2 true false))
             Sample.argv_json); [apply Hle; auto | reflexivity ..].
  - apply (dtype_selection (Sample.plain_env (Sample.level_o2 false true))
             Sample.argv_json); [apply Hle; auto | reflexivity ..].
  - apply (dtype_selection (Sample.plain_env Sample.ptq_only) Sample.argv_json);
      [apply Hle; auto |].
    vm_compute. discriminate.
Defined.

(** C5 as stated fails in two places.  With O2 and both [fp16] and [bf16]
    set the dtype is "float16", not "bfloat16"; and with O2, no
    half-precision flag and two quantization flags, the ValueError raised is
    the one of line 81, not the one asking for a dtype. *)
Lemma dtype_selection_counterexample :
  (let a := Sample.level_o2 true true in
   fp16_opt_level (training_args a) = "O2" /\ bf16 (training_args a) = true /\
   config_dtypes (trace_of (main (Sample.plain_env a) Sample.argv_json))
   = ["float16"]) /\
  (let a := Sample.conflict_o2 in
   fp16_opt_level (training_args a) = "O2" /\
   fp16 (training_args a) = false /\ bf16 (training_args a) = false /\
   outcome (main (Sample.plain_env a) Sample.argv_json)
   = Raise (ValueError quant_conflict_msg) /\
   outcome (main (Sample.plain_env a) Sample.argv_json)
   <> Raise (ValueError dtype_msg)).
Proof.
  cbv zeta. repeat split; try reflexivity.
  vm_compute. discriminate.
Qed.

(** ** Pipeline parallelism (lines 146-151) *)

(** The result of lines 75-185 is decided by the two checks before the model
    config is built and by lines 146-185. *)
Lemma startup_construct (env : Env) (a : Args) (dtype : string) :
  py_sum [do_ptq (quant_args a); do_qat (quant_args a); do_gptq (quant_args a)] <= 1 ->
  outcome (select_dtype (training_args a)) = Ok dtype ->
  exists pre c,
    startup env a =
    ((pre ++ trace_of (construct env a dtype c))%list,
     outcome (construct env a dtype c)).
Proof.
  intros Hsum Hdt. unfold startup.
  rewrite (check_quant_strategy_pass _ Hsum).
  pose proof (setup_device_returns env (training_args a)) as Hd.
  pose proof (select_dtype_trace (training_args a)) as Ht.
  destruct (setup_device env (training_args a)) as [tr [[] | e]]; [| discriminate].
  destruct (select_dtype (training_args a)) as [tr' [dt | e]]; [| discriminate].
  unfold outcome, trace_of in *. simpl in Hdt, Ht. injection Hdt as ->. subst tr'.
  unfold build_model_config. simpl.
  match goal with
  | |- context [construct env a dtype ?c] =>
      destruct (construct env a dtype c) as [tc rc] eqn:Ec
  end.
  eexists (_ :: _ :: _ :: _ :: tr ++ [_; _; _])%list. eexists.
  rewrite Ec. simpl. rewrite <- app_assoc. reflexivity.
Qed.

Lemma select_model_class_returns (t : TrainingArguments) (d : DataArgument)
    (cls : ModelClass) :
  outcome (select_model_class t d) = Ok cls -> cls = expected_model_class t.
Proof.
  unfold select_model_class, expected_model_class.
  destruct (1 <? pipeline_parallel_degree t);
    [destruct (eval_with_do_generation d && do_eval t) |];
    simpl; intros H; congruence.
Qed.

Lemma construct_model_class (env : Env) (a : Args) (dtype : string)
    (c : ModelConfig) :
  forallb (constructs_only_with (expected_model_class (training_args a)))
    (trace_of (construct env a dtype c)) = true.
Proof.
  unfold construct. apply forallb_trace_bind.
  - unfold select_model_class. by_cases_on_tests.
  - intros cls Hcls. apply select_model_class_returns in Hcls. subst cls.
    repeat (apply forallb_trace_bind; [| intros ? _]);
      unfold build_model, force_flash_mask, check_flash_mask_support,
        register_hooks, when, constructs_only_with, expected_model_class;
      by_cases_on_tests.
Qed.

Lemma startup_model_class (env : Env) (a : Args) :
  forallb (constructs_only_with (expected_model_class (training_args a)))
    (trace_of (startup env a)) = true.
Proof.
  unfold startup.
  do 5 (apply forallb_trace_bind;
        [ unfold check_quant_strategy, setup_device, select_dtype, when;
          by_cases_on_tests
        | intros ? _ ]).
  apply construct_model_class.
Qed.

Lemma run_model_class (env : Env) (a : Args) :
  forallb (constructs_only_with (expected_model_class (training_args a)))
    (trace_of (run env a)) = true.
Proof.
  rewrite run_startup. apply forallb_trace_bind.
  - apply startup_model_class.
  - intros su _.
    apply after_startup_events; intros [] H; try discriminate H; reflexivity.
Qed.

Lemma construct_pipeline_conflict (env : Env) (a : Args) (dtype : string)
    (c : ModelConfig) :
  1 < pipeline_parallel_degree (training_args a) ->
  eval_with_do_generation (data_args a) = true ->
  do_eval (training_args a) = true ->
  construct env a dtype c = ([], Raise (ValueError pipeline_generation_msg)).
Proof.
  intros Hpp Hgen Heval. unfold construct, select_model_class.
  apply Z.ltb_lt in Hpp. rewrite Hpp, Hgen, Heval. reflexivity.
Qed.

(** In pipeline mode, once the generation check has passed, a model is
    constructed, by one of the two constructors of lines 154 and 161. *)
Lemma construct_pipeline_model (env : Env) (a : Args) (dtype : string)
    (c : ModelConfig) :
  1 < pipeline_parallel_degree (training_args a) ->
  eval_with_do_generation (data_args a) && do_eval (training_args a) = false ->
  exists e, In e (trace_of (construct env a dtype c)) /\
            constructed_with e = Some AutoModelForCausalLMPipe.
Proof.
  intros Hpp Hgen. unfold construct, select_model_class, build_model.
  apply Z.ltb_lt in Hpp. rewrite Hpp, Hgen.
  rewrite trace_bind. cbn [outcome ret snd fst trace_of app].
  destruct (continue_training (model_args a) && negb (autotuner_benchmark (training_args a))).
  - exists (EvModelFromPretrained AutoModelForCausalLMPipe
              (model_name_or_path (model_args a)) (from_aistudio (model_args a))).
    split; [| reflexivity].
    fold (trace_of (A:=Startup)). rewrite trace_bind.
    cbn [outcome ret emit bind snd fst trace_of app]. left. reflexivity.
  - exists (EvModelFromConfig AutoModelForCausalLMPipe dtype).
    split; [| reflexivity].
    fold (trace_of (A:=Startup)). rewrite trace_bind.
    cbn [outcome ret emit bind snd fst trace_of app]. left. reflexivity.
Qed.

Lemma in_trace_run (env : Env) (a : Args) (e : Event) :
  In e (trace_of (startup env a)) -> In e (trace_of (run env a)).
Proof.
  rewrite run_startup, trace_bind. intros H.
  destruct (outcome (startup env a)); [apply in_or_app; left |]; exact H.
Qed.

Lemma select_dtype_given (t : TrainingArguments) :
  (fp16_opt_level t = "O2" -> fp16 t = true \/ bf16 t = true) ->
  exists dtype, outcome (select_dtype t) = Ok dtype.
Proof.
  unfold select_dtype. intros H.
  destruct (String.eqb_spec (fp16_opt_level t) "O2") as [E | E];
    [| eexists; reflexivity].
  destruct (fp16 t), (bf16 t); try (eexists; reflexivity).
  destruct (H E); discriminate.
Qed.

(** C6.  With [pipeline_parallel_degree] above 1: if [eval_with_do_generation]
    and [do_eval] are both set, [main] ends with a ValueError, which is the
    one of line 149 once the two earlier checks (lines 80 and 109) have
    passed; every model [main] constructs is constructed with
    AutoModelForCausalLMPipe; and when the check of line 148 passes (after
    the two earlier ones), [main] does construct a model with it. *)
Theorem pipeline_generation_conflict (env : Env) (argv : list string) :
  let a := parsed_args env argv in
  let t := training_args a in
  let d := data_args a in
  let flags_ok :=
    py_sum [do_ptq (quant_args a); do_qat (quant_args a); do_gptq (quant_args a)] <= 1 in
  let dtype_ok := fp16_opt_level t = "O2" -> fp16 t = true \/ bf16 t = true in
  1 < pipeline_parallel_degree t ->
  (eval_with_do_generation d = true -> do_eval t = true ->
   exists msg, outcome (main env argv) = Raise (ValueError msg) /\
               (flags_ok -> dtype_ok -> msg = pipeline_generation_msg)) /\
  forallb (constructs_only_with AutoModelForCausalLMPipe) (trace_of (main env argv))
  = true /\
  (eval_with_do_generation d && do_eval t = false -> flags_ok -> dtype_ok ->
   exists e, In e (trace_of (main env argv)) /\
             constructed_with e = Some AutoModelForCausalLMPipe).
Proof.
  intros a t d flags_ok dtype_ok Hpp.
  rewrite outcome_main, trace_main. fold a.
  split; [| split].
  - intros Hgen Heval.
    destruct (Z.lt_ge_cases 1 (py_sum [do_ptq (quant_args a); do_qat (quant_args a);
                                       do_gptq (quant_args a)])) as [Hc | Hok].
    { exists quant_conflict_msg. rewrite (run_quant_conflict env a Hc).
      split; [reflexivity |]. unfold flags_ok. intros; lia. }
    destruct (outcome (select_dtype t)) as [dtype | e] eqn:Hdt.
    + destruct (startup_construct env a dtype Hok Hdt) as (pre & c & Hs).
      rewrite (construct_pipeline_conflict env a dtype c Hpp Hgen Heval) in Hs.
      exists pipeline_generation_msg.
      rewrite (run_startup_raises env a (ValueError pipeline_generation_msg));
        [split; reflexivity | rewrite Hs; reflexivity].
    + exists dtype_msg.
      destruct (select_dtype_raises t e Hdt) as (-> & H1 & H2 & H3).
      destruct (select_dtype_cases t) as (Hnone & _).
      destruct (run_dtype_missing env a Hok (Hnone H1 H2 H3)) as [Ho _].
      split; [exact Ho |].
      intros _ Hd. destruct (Hd H1); congruence.
  - rewrite forallb_app. apply andb_true_iff. split.
    + unfold parse_trace. destruct (config_file_given argv); reflexivity.
    + pose proof (run_model_class env a) as H.
      unfold expected_model_class in H. fold t in H.
      apply Z.ltb_lt in Hpp. rewrite Hpp in H. exact H.
  - intros Hgen Hok Hd.
    destruct (select_dtype_given t Hd) as [dtype Hdt].
    destruct (startup_construct env a dtype Hok Hdt) as (pre & c & Hs).
    destruct (construct_pipeline_model env a dtype c Hpp Hgen) as (e & Hin & He).
    exists e. split; [| exact He].
    apply in_or_app. right. apply in_trace_run.
    rewrite Hs. apply in_or_app. right. exact Hin.
Qed.

Lemma pipeline_generation_conflict_witness :
  (exists msg,
     outcome (main (Sample.plain_env (Sample.pipeline 2 true)) Sample.argv_json)
     = Raise (ValueError msg) /\ msg = pipeline_generation_msg) /\
  (exists e,
     In e (trace_of (main (Sample.plain_env (Sample.pipeline 2 false)) Sample.argv_json))
     /\ constructed_with e = Some AutoModelForCausalLMPipe).
Proof.
  assert (Hpp : 1 < 2) by reflexivity.
  split.
  - destruct (proj1 (pipeline_generation_conflict
                       (Sample.plain_env (Sample.pipeline 2 true)) Sample.argv_json
                       Hpp) eq_refl eq_refl) as (msg & Ho & Hm).
    exists msg. split; [exact Ho |]. apply Hm.
    + vm_compute. discriminate.
    + vm_compute. discriminate.
  - apply (proj2 (proj2 (pipeline_generation_conflict
                           (Sample.plain_env (Sample.pipeline 2 false))
                           Sample.argv_json Hpp))).
    + reflexivity.
    + vm_compute. discriminate.
    + vm_compute. discriminate.
Defined.

(** ** Argument parsing (lines 69-73) *)

Lemma config_file_given_spec (argv : list string) :
  config_file_given argv = true <->
  exists prog stem rest, argv = prog :: (stem ++ ".json") :: rest.
Proof.
  unfold config_file_given. split.
  - intros H. apply andb_true_iff in H as [Hlen Hend].
    destruct argv as [| prog [| arg rest]]; try discriminate.
    simpl in Hend. apply endswith_spec in Hend as [stem ->].
    exists prog, stem, rest. reflexivity.
  - intros (prog & stem & rest & ->). apply andb_true_iff. split; [reflexivity |].
    simpl nth. apply endswith_spec. exists stem. reflexivity.
Qed.

(** C7.  The parser is built over the five dataclasses (generation,
    quantization, model, data, training) and parsing returns the five groups.
    When [sys.argv] has a first command-line argument and it ends with
    ".json", the groups come from [parse_json_file_and_cmd_lines]; in every
    other case they come from [parse_args_into_dataclasses].  [main] starts
    with exactly these two parser calls. *)
Theorem argument_parsing (env : Env) (argv : list string) :
  let json_first := exists prog stem rest, argv = prog :: (stem ++ ".json") :: rest in
  parser_groups = [GenerateArgumentCls; QuantArgumentCls; ModelArgumentCls;
                   DataArgumentCls; TrainingArgumentsCls] /\
  (exists g q m d t, outcome (parse_arguments env argv) = Ok (mkArgs g q m d t)) /\
  (json_first ->
   parse_arguments env argv =
   ([EvParser parser_groups; EvParseJsonFileAndCmdLines argv],
    Ok (parse_json_file_and_cmd_lines env argv))) /\
  (~ json_first ->
   parse_arguments env argv =
   ([EvParser parser_groups; EvParseArgsIntoDataclasses argv],
    Ok (parse_args_into_dataclasses env argv))) /\
  main env argv = (a <- parse_arguments env argv ;; run env a).
Proof.
  intros json_first. split; [reflexivity |].
  pose proof (config_file_given_spec argv) as Hspec. fold json_first in Hspec.
  unfold parse_arguments.
  split; [| split; [| split]].
  - destruct (config_file_given argv); simpl;
      match goal with |- context [Ok ?x] => destruct x end;
      repeat eexists.
  - intros H. apply Hspec in H. rewrite H. reflexivity.
  - intros H. destruct (config_file_given argv).
    + exfalso. apply H, Hspec. reflexivity.
    + reflexivity.
  - reflexivity.
Qed.

Lemma argument_parsing_witness :
  trace_of (parse_arguments (Sample.plain_env Sample.ptq_only) Sample.argv_json)
  = [EvParser parser_groups; EvParseJsonFileAndCmdLines Sample.argv_json] /\
  trace_of (parse_arguments (Sample.plain_env Sample.ptq_only) Sample.argv_flags)
  = [EvParser parser_groups; EvParseArgsIntoDataclasses Sample.argv_flags].
Proof.
  split.
  - destruct (argument_parsing (Sample.plain_env Sample.ptq_only) Sample.argv_json)
      as (_ & _ & Hjson & _).
    rewrite Hjson; [reflexivity |].
    exists "run_quantization.py", "ptq_argument", []. reflexivity.
  - destruct (argument_parsing (Sample.plain_env Sample.ptq_only) Sample.argv_flags)
      as (_ & _ & _ & Hflags & _).
    rewrite Hflags; [reflexivity |].
    intros (prog & stem & rest & H). apply (f_equal (fun l => endswith (nth 1 l "") ".json")) in H.
    simpl nth in H.
    assert (E : endswith (stem ++ ".json") ".json" = true)
      by (apply endswith_spec; exists stem; reflexivity).
    rewrite E in H. vm_compute in H. discriminate.
Defined.

(** ** Flash mask (lines 163-169) *)

(** C8.  Lines 163-166 never raise: when [flash_mask] is set while
    [zero_padding] or the model config's [use_flash_attention] is off, they
    log a warning and set both; in every case, [flash_mask] implies both
    afterwards.  The NotImplementedError of line 169 comes from the separate
    check that follows, exactly when [flash_mask] is set and the model is an
    instance of no class of [flash_mask_support_list].  When [main] gets past
    line 185 with [flash_mask] set, both settings hold and the model class is
    supported. *)
Theorem flash_mask_forced (env : Env) (argv : list string) :
  let a := parsed_args env argv in
  (forall m d model,
     flash_mask m = true ->
     zero_padding d = false \/ cfg_use_flash_attention (model_config model) = false ->
     force_flash_mask m d model =
     ([EvLog Warning LogFlashMaskMustUse],
      Ok (set_zero_padding d true, set_use_flash_attention model true))) /\
  (forall m d model,
     exists r, outcome (force_flash_mask m d model) = Ok r /\
               (flash_mask m = true ->
                zero_padding (fst r) = true /\
                cfg_use_flash_attention (model_config (snd r)) = true)) /\
  (forall m model e,
     outcome (check_flash_mask_support m model) = Raise e <->
     e = NotImplementedError (flash_mask_msg model) /\
     flash_mask m = true /\
     existsb (fun cls => isinstance (model_mro model) cls) flash_mask_support_list
     = false) /\
  (forall su,
     outcome (startup env a) = Ok su ->
     flash_mask (model_args a) = true ->
     zero_padding (su_data_args su) = true /\
     cfg_use_flash_attention (model_config (su_model su)) = true /\
     existsb (fun cls => isinstance (model_mro (su_model su)) cls)
       flash_mask_support_list = true).
Proof.
  intros a. split; [| split; [| split]].
  - intros m d model Hm H. unfold force_flash_mask. rewrite Hm.
    destruct H as [-> | ->]; [| rewrite orb_true_r]; reflexivity.
  - intros m d model.
    destruct (force_flash_mask_returns m d model) as [r Hr].
    exists r. split; [exact Hr |].
    apply force_flash_mask_spec in Hr. tauto.
  - intros m model e. split.
    + apply check_flash_mask_support_raises.
    + intros (-> & Hm & Hs). unfold check_flash_mask_support.
      rewrite Hm, Hs. reflexivity.
  - intros su Hsu. apply (startup_spec env a su Hsu).
Qed.

Lemma flash_mask_forced_witness :
  exists su,
    outcome (startup (Sample.plain_env Sample.flash_mask_alone)
               (parsed_args (Sample.plain_env Sample.flash_mask_alone)
                  Sample.argv_json)) = Ok su /\
    zero_padding (data_args Sample.flash_mask_alone) = false /\
    zero_padding (su_data_args su) = true /\
    cfg_use_flash_attention (model_config (su_model su)) = true.
Proof.
  eexists. split; [vm_compute; reflexivity |].
  split; [reflexivity |].
  destruct (flash_mask_forced (Sample.plain_env Sample.flash_mask_alone)
              Sample.argv_json) as (_ & _ & _ & H).
  cbv zeta in H.
  specialize (H _ eq_refl eq_refl). destruct H as (Hz & Hu & _).
  split; [exact Hz | exact Hu].
Defined.

(** ** Zero padding and generation at evaluation time (lines 327-381) *)

Lemma prepare_datasets_generation (m : ModelArgument) (d : DataArgument)
    (t : TrainingArguments) (dss : Datasets) :
  zero_padding d = true ->
  eval_with_do_generation d = true ->
  exists p, prepare_datasets m d t dss =
            ([EvLog Warning LogZeroPaddingConflicts; EvLog Info LogCreatingZeroPadding],
             Ok p) /\
            padded_except_eval m d t dss p.
Proof.
  intros Hz Hg. unfold prepare_datasets, padded_except_eval, padded_for_training.
  rewrite Hz, Hg. simpl. eexists. split; [reflexivity |].
  cbn [p_eval_zero_padding p_datasets dev_ds train_ds ptq_ds]. unfold map_dataset.
  destruct (train_ds dss), (ptq_ds dss), (lazy_ d); repeat split.
Qed.

Lemma in_trace_bind_l {A B : Type} (m : M A) (k : A -> M B) (e : Event) :
  In e (trace_of m) -> In e (trace_of (bind m k)).
Proof.
  rewrite trace_bind. intros H.
  destruct (outcome m); [apply in_or_app; left |]; exact H.
Qed.

Lemma in_trace_bind_r {A B : Type} (m : M A) (k : A -> M B) (a : A) (e : Event) :
  outcome m = Ok a -> In e (trace_of (k a)) -> In e (trace_of (bind m k)).
Proof.
  rewrite trace_bind. intros -> H. apply in_or_app. right. exact H.
Qed.

(** What a run that got past line 458 prepared, and handed to the trainer. *)
Lemma build_session_prepared (env : Env) (a : Args) (su : Startup) (s : Session) :
  outcome (build_session env a su) = Ok s ->
  se_startup s = su /\
  (exists dss,
     outcome (prepare_datasets (model_args a) (su_data_args su)
                (se_training_args s) dss) = Ok (se_prepared s)) /\
  (exists spec,
     In (EvCreateTrainer spec) (trace_of (build_session env a su)) /\
     tr_train_dataset spec = train_ds (p_datasets (se_prepared s)) /\
     tr_eval_dataset spec = dev_ds (p_datasets (se_prepared s))).
Proof.
  unfold build_session. intros H.
  apply bind_returns in H as (dss & Hdss & H).
  apply bind_returns in H as (sk & Hsk & H).
  apply bind_returns in H as (p & Hp & H).
  apply bind_returns in H as (u & Hu & H).
  injection H as <-. cbn [se_startup se_training_args se_prepared].
  split; [reflexivity |]. split; [eexists; exact Hp |].
  assert (Hc : exists spec,
             In (EvCreateTrainer spec)
               (trace_of (create_trainer (model_args a) (su_data_args su) (fst sk)
                            (p_datasets p))) /\
             tr_train_dataset spec = train_ds (p_datasets p) /\
             tr_eval_dataset spec = dev_ds (p_datasets p)).
  { unfold create_trainer.
    destruct ((1 <? pipeline_parallel_degree (fst sk)) || sequence_parallel (fst sk)
              || autotuner_benchmark (fst sk) || zero_padding (su_data_args su)
              || pad_to_max_length (su_data_args su));
      (eexists; split; [simpl; left; reflexivity | split; reflexivity]). }
  destruct Hc as (spec & Hin & Htrain & Hdev).
  exists spec. split; [| split; assumption].
  eapply in_trace_bind_r; [exact Hdss |].
  eapply in_trace_bind_r; [exact Hsk |].
  eapply in_trace_bind_r; [exact Hp |].
  apply in_trace_bind_l. exact Hin.
Qed.

(** C9.  Whenever lines 306-381 run with [zero_padding] and
    [eval_with_do_generation] both set (their values at line 327), they
    complete, with [eval_zero_padding] false; the dev dataset, when present,
    is the dev dataset mapped with [zero_padding=False] and nothing around
    it; the train and calibration datasets, when present, are their mapped
    datasets wrapped in ZeroPaddingIterableDataset if [lazy] and in
    ZeroPaddingMapDataset otherwise, with [max_length] equal to
    [data_args.max_length].  In a run of [main] that gets past line 458 with
    both set, these are the train and evaluation datasets the trainer is
    created with. *)
Theorem zero_padding_off_for_eval_only (env : Env) (argv : list string) :
  let a := parsed_args env argv in
  (forall m d t dss,
     zero_padding d = true ->
     eval_with_do_generation d = true ->
     exists p, outcome (prepare_datasets m d t dss) = Ok p /\
               padded_except_eval m d t dss p) /\
  (forall s,
     outcome (setup env a) = Ok s ->
     let d := su_data_args (se_startup s) in
     zero_padding d = true ->
     eval_with_do_generation d = true ->
     exists dss spec,
       padded_except_eval (model_args a) d (se_training_args s) dss (se_prepared s) /\
       In (EvCreateTrainer spec) (trace_of (main env argv)) /\
       tr_train_dataset spec = train_ds (p_datasets (se_prepared s)) /\
       tr_eval_dataset spec = dev_ds (p_datasets (se_prepared s))).
Proof.
  intros a. split.
  - intros m d t dss Hz Hg.
    destruct (prepare_datasets_generation m d t dss Hz Hg) as (p & Hp & Hpad).
    exists p. split; [rewrite Hp; reflexivity | exact Hpad].
  - intros s Hs d Hz Hg. unfold setup in Hs.
    apply bind_returns in Hs as (su & Hsu & Hs).
    destruct (build_session_prepared env a su s Hs)
      as (Hst & (dss & Hp) & (spec & Hin & Htrain & Hdev)).
    subst d. rewrite Hst in *.
    destruct (prepare_datasets_generation (model_args a) (su_data_args su)
                (se_training_args s) dss Hz Hg) as (p & Hp' & Hpad).
    rewrite Hp' in Hp. injection Hp as Hp. rewrite Hp in Hpad.
    exists dss, spec. split; [exact Hpad |]. split; [| split; assumption].
    rewrite trace_main. fold a. apply in_or_app. right.
    unfold run, setup.
    apply in_trace_bind_l. eapply in_trace_bind_r; [exact Hsu | exact Hin].
Qed.

Lemma zero_padding_off_for_eval_only_witness :
  exists p,
    outcome (prepare_datasets (Sample.model false)
               (Sample.data (Some "./data") true true false)
               (Sample.training "O1" false false 1 true) Sample.raw_datasets)
    = Ok p /\
    dev_ds (p_datasets p)
    = Some (Mapped (mkMapCall GetConvertExample true (Some false) (Some false))
              (Sample.raw "./data/dev.json")) /\
    train_ds (p_datasets p)
    = Some (ZeroPaddingMapDataset
              (Mapped (mkMapCall GetConvertExample false (Some true) (Some false))
                 (Sample.raw "./data/train.json"))
              2048 (Some false)).
Proof.
  destruct (proj1 (zero_padding_off_for_eval_only
                     (Sample.plain_env Sample.ptq_only) Sample.argv_json)
              (Sample.model false)
              (Sample.data (Some "./data") true true false)
              (Sample.training "O1" false false 1 true) Sample.raw_datasets
              eq_refl eq_refl)
    as (p & Hp & _ & Hdev & Htrain & _).
  exists p. split; [exact Hp |]. split; [exact Hdev | exact Htrain].
Defined.

Example padded_generation_trainer :
  let env := Sample.plain_env Sample.padded_generation in
  exists spec,
    In (EvCreateTrainer spec) (trace_of (main env Sample.argv_json)) /\
    tr_eval_dataset spec
    = Some (Mapped (mkMapCall GetConvertExample true (Some false) (Some false))
              (Sample.raw "./data/dev.json")) /\
    tr_train_dataset spec = None.
Proof.
  cbv zeta. eexists. split.
  - vm_compute. repeat (first [left; reflexivity | right]).
  - split; reflexivity.
Qed.

(** ** Calibration files in the single-file layout (lines 189-227) *)

Lemma build_session_no_calibration (env : Env) (a : Args) (su : Startup)
    (path : string) :
  dataset_name_or_path (su_data_args su) = Some path ->
  single_file_layout env path = true ->
  os_path_exists env (os_path_join path ["quant.json"]) = false ->
  os_path_exists env (os_path_join path ["train.json"]) = false ->
  outcome (build_session env a su) = Raise (ValueError (quant_json_msg path)).
Proof.
  intros Hp Hs Hq Ht. unfold build_session. rewrite outcome_bind.
  unfold resolve_datasets. rewrite Hp, Hs.
  rewrite load_single_files_calibration. cbv zeta. rewrite Hq, Ht. reflexivity.
Qed.

(** C10, as amended.  In the single-file layout with neither quant.json nor
    train.json, [main] always ends with an exception, whatever the
    quantization flags: the ValueError of line 227, unless one of the earlier
    validations (lines 80, 109, 149, 169) has already raised, in which case
    it is that earlier exception. *)
Theorem calibration_files_required (env : Env) (argv : list string) (path : string) :
  let a := parsed_args env argv in
  dataset_name_or_path (data_args a) = Some path ->
  single_file_layout env path = true ->
  os_path_exists env (os_path_join path ["quant.json"]) = false ->
  os_path_exists env (os_path_join path ["train.json"]) = false ->
  outcome (main env argv) =
    match outcome (startup env a) with
    | Ok _ => Raise (ValueError (quant_json_msg path))
    | Raise e => Raise e
    end /\
  exists e, outcome (main env argv) = Raise e.
Proof.
  intros a Hp Hs Hq Ht.
  assert (Ho : outcome (main env argv) =
               match outcome (startup env a) with
               | Ok _ => Raise (ValueError (quant_json_msg path))
               | Raise e => Raise e
               end).
  { rewrite outcome_main. fold a. rewrite run_startup, outcome_bind.
    pose proof (startup_spec env a) as Hsu.
    destruct (outcome (startup env a)) as [su | e]; [| reflexivity].
    destruct (Hsu su eq_refl) as [Hpath _].
    rewrite outcome_bind, (build_session_no_calibration env a su path);
      [reflexivity | congruence | assumption ..]. }
  split; [exact Ho |].
  rewrite Ho. destruct (outcome (startup env a)); eexists; reflexivity.
Qed.

Lemma calibration_files_required_witness :
  do_ptq (quant_args Sample.eval_only) || do_qat (quant_args Sample.eval_only)
  || do_gptq (quant_args Sample.eval_only) = false /\
  outcome (main (Sample.dev_only_env Sample.eval_only) Sample.argv_json)
  = Raise (ValueError "Quant strategy requires quant.json or train.json in ./data").
Proof.
  split; [reflexivity |].
  exact (proj1 (calibration_files_required (Sample.dev_only_env Sample.eval_only)
                  Sample.argv_json "./data" eq_refl eq_refl eq_refl eq_refl)).
Defined.

(** C10 as stated fails: with dev.json only, --flash_mask and a model class
    outside [flash_mask_support_list], line 169 raises NotImplementedError
    before the datasets are resolved. *)
Lemma calibration_files_required_counterexample :
  let env := Sample.gpt_dev_only_env Sample.eval_only_flash_mask in
  single_file_layout env "./data" = true /\
  os_path_exists env (os_path_join "./data" ["quant.json"]) = false /\
  os_path_exists env (os_path_join "./data" ["train.json"]) = false /\
  outcome (main env Sample.argv_json)
  = Raise (NotImplementedError
             "<class 'paddlenlp.transformers.gpt.modeling.GPTForCausalLM'> not support flash mask.") /\
  ~ (exists msg, outcome (main env Sample.argv_json) = Raise (ValueError msg)).
Proof.
  cbv zeta. split; [reflexivity |]. split; [reflexivity |].
  split; [reflexivity |]. split; [reflexivity |].
  intros [msg H]. vm_compute in H. discriminate.
Qed.

(** * Further properties of [main] *)

(** ** Where an event of a trace comes from *)

Lemma in_trace_main (env : Env) (argv : list string) (e : Event) :
  let a := parsed_args env argv in
  In e (trace_of (main env argv)) ->
  In e (parse_trace argv)
  \/ In e (trace_of (setup env a))
  \/ exists s, outcome (setup env a) = Ok s /\
               In e (trace_of (quantize_and_evaluate a s)).
Proof.
  intros a. rewrite trace_main. fold a. unfold run. rewrite trace_bind.
  intros H. apply in_app_or in H as [H | H]; [left; exact H | right].
  destruct (outcome (setup env a)) as [s |]; [| left; exact H].
  apply in_app_or in H as [H | H]; [left; exact H | right].
  exists s. split; [reflexivity | exact H].
Qed.

Lemma in_trace_setup (env : Env) (a : Args) (e : Event) :
  In e (trace_of (setup env a)) ->
  In e (trace_of (startup env a))
  \/ exists su, outcome (startup env a) = Ok su /\
                In e (trace_of (build_session env a su)).
Proof.
  unfold setup. rewrite trace_bind. intros H.
  destruct (outcome (startup env a)) as [su |]; [| left; exact H].
  apply in_app_or in H as [H | H]; [left; exact H | right].
  exists su. split; [reflexivity | exact H].
Qed.

Lemma forallb_in (Q : Event -> bool) (tr : list Event) (e : Event) :
  forallb Q tr = true -> In e tr -> Q e = true.
Proof. intros H Hin. rewrite forallb_forall in H. exact (H e Hin). Qed.

Lemma in_parse_trace (argv : list string) (e : Event) :
  In e (parse_trace argv) -> parser_event e = true.
Proof.
  unfold parse_trace. destruct (config_file_given argv); simpl;
    intros [<- | [<- | []]]; reflexivity.
Qed.

(** An event made after line 458 is found in a run that got there. *)
Lemma in_trace_main_closing (env : Env) (argv : list string) (e : Event) :
  let a := parsed_args env argv in
  In e (trace_of (main env argv)) ->
  parser_event e = false -> startup_event e = false -> session_event e = false ->
  exists s, outcome (setup env a) = Ok s /\
            In e (trace_of (quantize_and_evaluate a s)).
Proof.
  intros a Hin Hp Hs Hb. apply in_trace_main in Hin. fold a in Hin.
  destruct Hin as [Hin | [Hin | Hin]]; [| | exact Hin]; exfalso.
  - apply in_parse_trace in Hin. congruence.
  - pose proof (forallb_in _ _ _ (setup_events env a) Hin) as H.
    cbv beta in H. rewrite Hs, Hb in H. discriminate.
Qed.

(** An event made between lines 187 and 458 is found in a run that got past
    line 185. *)
Lemma in_trace_main_session (env : Env) (argv : list string) (e : Event) :
  let a := parsed_args env argv in
  In e (trace_of (main env argv)) ->
  parser_event e = false -> startup_event e = false -> closing_event e = false ->
  exists su, outcome (startup env a) = Ok su /\
             In e (trace_of (build_session env a su)).
Proof.
  intros a Hin Hp Hs Hc. apply in_trace_main in Hin. fold a in Hin.
  destruct Hin as [Hin | [Hin | (s & _ & Hin)]].
  - apply in_parse_trace in Hin. congruence.
  - apply in_trace_setup in Hin. destruct Hin as [Hin | Hin]; [| exact Hin].
    pose proof (forallb_in _ _ _ (startup_events env a) Hin) as H. congruence.
  - pose proof (forallb_in _ _ _ (quantize_and_evaluate_events a s) Hin) as H.
    congruence.
Qed.

(** ** Which datasets exist after lines 187-381 *)

Lemma resolve_datasets_presence (env : Env) (q : QuantArgument)
    (t : TrainingArguments) (d : DataArgument) (dss : Datasets) :
  outcome (resolve_datasets env q t d) = Ok dss ->
  (train_ds dss = None <-> do_qat q = false) /\
  (dev_ds dss = None <-> do_eval t = false) /\
  (do_ptq q || do_gptq q || load_quant_model q = true -> ptq_ds dss <> None).
Proof.
  unfold resolve_datasets, load_single_files, load_directories, load_registered,
    load_dataset_if.
  destruct (dataset_name_or_path d) as [path |]; [| discriminate].
  destruct (single_file_layout env path); [| destruct (directory_layout env path)].
  - destruct (do_qat q), (do_eval t),
      (os_path_exists env (os_path_join path ["quant.json"])),
      (os_path_exists env (os_path_join path ["train.json"]));
      simpl; intros H; try discriminate; injection H as <-; simpl;
      repeat split; intros; congruence.
  - destruct (do_qat q), (do_eval t),
      (os_path_exists env (os_path_join path ["quant"])),
      (os_path_exists env (os_path_join path ["train"]));
      simpl; intros H; try discriminate; injection H as <-; simpl;
      repeat split; intros; congruence.
  - destruct (do_qat q), (do_eval t), (do_ptq q || do_gptq q || load_quant_model q);
      simpl; intros H; injection H as <-; simpl; repeat split; intros; congruence.
Qed.

Lemma skip_consumed_cases (env : Env) (t : TrainingArguments) (d : DataArgument)
    (train : option Dataset) (sk : TrainingArguments * option Dataset) :
  outcome (skip_consumed env t d train) = Ok sk ->
  (sk = (t, train) /\ (resume_from_checkpoint t = None \/ lazy_ d = false))
  \/ (exists ckpt ds,
        resume_from_checkpoint t = Some ckpt /\ lazy_ d = true /\ train = Some ds /\
        sk = (set_ignore_data_skip t true,
              Some (Skipped
                      (consumed_samples t
                         (load_from_json env (os_path_join ckpt ["trainer_state.json"])))
                      ds))).
Proof.
  unfold skip_consumed.
  destruct (resume_from_checkpoint t) as [ckpt |], (lazy_ d), train as [ds |];
    simpl; intros H; try discriminate; injection H as <-; auto.
  right. exists ckpt, ds. auto.
Qed.

Lemma prepare_datasets_presence (m : ModelArgument) (d : DataArgument)
    (t : TrainingArguments) (dss : Datasets) (p : Prepared) :
  outcome (prepare_datasets m d t dss) = Ok p ->
  (train_ds (p_datasets p) = None <-> train_ds dss = None) /\
  (dev_ds (p_datasets p) = None <-> dev_ds dss = None) /\
  (ptq_ds (p_datasets p) = None <-> ptq_ds dss = None).
Proof.
  unfold prepare_datasets, map_dataset.
  destruct (zero_padding d), (eval_with_do_generation d),
    (train_ds dss), (dev_ds dss), (ptq_ds dss);
    simpl; intros H; injection H as <-; simpl; repeat split; intros; congruence.
Qed.

(** The stages a run went through to get past line 458. *)
Lemma build_session_returns (env : Env) (a : Args) (su : Startup) (s : Session) :
  outcome (build_session env a su) = Ok s ->
  se_startup s = su /\
  exists dss sk,
    outcome (resolve_datasets env (quant_args a) (training_args a)
               (su_data_args su)) = Ok dss /\
    outcome (skip_consumed env (training_args a) (su_data_args su) (train_ds dss))
    = Ok sk /\
    se_training_args s = fst sk /\
    outcome (prepare_datasets (model_args a) (su_data_args su) (fst sk)
               (mkDatasets (snd sk) (dev_ds dss) (ptq_ds dss)))
    = Ok (se_prepared s).
Proof.
  unfold build_session. intros H.
  apply bind_returns in H as (dss & Hdss & H).
  apply bind_returns in H as (sk & Hsk & H).
  apply bind_returns in H as (p & Hp & H).
  apply bind_returns in H as (u & Hu & H).
  injection H as <-. split; [reflexivity |].
  exists dss, sk. auto.
Qed.

Lemma setup_session (env : Env) (a : Args) (s : Session) :
  outcome (setup env a) = Ok s ->
  outcome (startup env a) = Ok (se_startup s) /\
  outcome (build_session env a (se_startup s)) = Ok s.
Proof.
  unfold setup. intros H. apply bind_returns in H as (su & Hsu & H).
  destruct (build_session_returns env a su s H) as [-> _]. auto.
Qed.

(** In a run that got past line 458: the train dataset exists exactly when
    QAT is requested, the dev dataset exactly when evaluation is, and the
    calibration dataset whenever a block that uses it is enabled; the
    training arguments are the parsed ones, up to [ignore_data_skip]. *)
Lemma session_presence (env : Env) (a : Args) (s : Session) :
  outcome (setup env a) = Ok s ->
  let dss := p_datasets (se_prepared s) in
  (train_ds dss = None <-> do_qat (quant_args a) = false) /\
  (dev_ds dss = None <-> do_eval (training_args a) = false) /\
  (do_ptq (quant_args a) || do_gptq (quant_args a) || load_quant_model (quant_args a)
   = true -> ptq_ds dss <> None) /\
  (se_training_args s = training_args a
   \/ se_training_args s = set_ignore_data_skip (training_args a) true).
Proof.
  intros H. apply setup_session in H as [_ H].
  apply build_session_returns in H as (_ & dss & sk & Hr & Hsk & Ht & Hp).
  apply resolve_datasets_presence in Hr as (Htr & Hdev & Hptq).
  apply prepare_datasets_presence in Hp as (Ptr & Pdev & Pptq).
  cbn [train_ds dev_ds ptq_ds] in Ptr, Pdev, Pptq.
  apply skip_consumed_cases in Hsk.
  cbv zeta. rewrite Ht.
  assert (Hsn : snd sk = None <-> train_ds dss = None).
  { destruct Hsk as [[-> _] | (ckpt & ds & _ & _ & E & ->)]; simpl;
      [tauto | rewrite E; split; discriminate]. }
  split; [tauto |]. split; [tauto |]. split.
  - intros Hf E. apply Pptq in E. exact (Hptq Hf E).
  - destruct Hsk as [[-> _] | (ckpt & ds & _ & _ & _ & ->)]; simpl; auto.
Qed.

(** ** Library calls after line 458 *)

Lemma in_trace_bind_inv {A B : Type} (m : M A) (k : A -> M B) (e : Event) :
  In e (trace_of (bind m k)) ->
  In e (trace_of m) \/ exists a, outcome m = Ok a /\ In e (trace_of (k a)).
Proof.
  rewrite trace_bind. destruct (outcome m) as [a |]; intros H; [| left; exact H].
  apply in_app_or in H as [H | H]; [left; exact H | right].
  exists a. split; [reflexivity | exact H].
Qed.

(** Settle [closing_origin] for each event of an explicit trace. *)
Ltac each_event H :=
  simpl in H;
  repeat (destruct H as [<- | H];
          [ simpl;
            repeat match goal with
                   | E : ?x = _ |- context [?x] => rewrite E
                   end;
            simpl; auto
          | ]);
  try (exfalso; exact H).

Lemma run_qat_origin (a : Args) (s : Session) (dtype : string) (e : Event) :
  In e (trace_of (run_qat (quant_args a) (se_training_args s) dtype)) ->
  closing_origin a s e.
Proof.
  unfold run_qat, save_model, when.
  destruct (do_qat (quant_args a)) eqn:E; intros H; each_event H.
Qed.

Lemma run_ptq_origin (a : Args) (s : Session) (model : Model) (e : Event) :
  In e (trace_of (run_ptq (quant_args a) (se_training_args s) model
                    (ptq_ds (p_datasets (se_prepared s))))) ->
  closing_origin a s e.
Proof.
  unfold run_ptq, calibrate, check_not_lora, save_model, when.
  destruct (do_ptq (quant_args a)) eqn:E1,
    (isinstance (model_mro model) LoRAModel),
    (shift (quant_args a)) eqn:E2, (smooth (quant_args a)) eqn:E3,
    (auto_clip (quant_args a)) eqn:E4;
    intros H; each_event H.
Qed.

Lemma run_gptq_origin (a : Args) (s : Session) (model : Model) (e : Event) :
  In e (trace_of (run_gptq (quant_args a) (se_training_args s) model
                    (ptq_ds (p_datasets (se_prepared s))))) ->
  closing_origin a s e.
Proof.
  unfold run_gptq, check_not_lora, save_model, when.
  destruct (do_gptq (quant_args a)) eqn:E1,
    (isinstance (model_mro model) LoRAModel);
    intros H; each_event H; rewrite ?orb_true_r; auto.
Qed.

Lemma run_load_quant_model_origin (a : Args) (s : Session) (model : Model)
    (e : Event) :
  In e (trace_of (run_load_quant_model (quant_args a) (se_training_args s) model
                    (ptq_ds (p_datasets (se_prepared s))))) ->
  closing_origin a s e.
Proof.
  unfold run_load_quant_model, calibrate, check_not_lora, when.
  destruct (load_quant_model (quant_args a)) eqn:E1,
    (do_ptq (quant_args a)) eqn:E0,
    (isinstance (model_mro model) LoRAModel),
    (shift (quant_args a)) eqn:E2, (smooth (quant_args a)) eqn:E3;
    intros H; each_event H; rewrite ?orb_true_r; auto.
Qed.

Lemma run_evaluate_origin (a : Args) (s : Session) (e : Event) :
  In e (trace_of (run_evaluate (se_training_args s)
                    (dev_ds (p_datasets (se_prepared s))))) ->
  closing_origin a s e.
Proof.
  unfold run_evaluate, when.
  destruct (do_eval (se_training_args s)) eqn:E; intros H; each_event H.
Qed.

Lemma run_predict_origin (a : Args) (s : Session) (e : Event) :
  In e (trace_of (run_predict (su_data_args (se_startup s)) (se_training_args s)
                    (se_prepared s))) ->
  closing_origin a s e.
Proof.
  unfold run_predict, when.
  destruct (do_predict (se_training_args s)) eqn:E1;
    [| intros H; each_event H].
  destruct (dataset_name_or_path (su_data_args (se_startup s))) as [path |] eqn:E2;
    [| intros H; each_event H].
  destruct (p_eval_zero_padding (se_prepared s));
    [destruct (p_intoken_dataset (se_prepared s)) as [[|] |] |];
    intros H; each_event H;
    (split; [reflexivity | exists path; split; reflexivity]).
Qed.

(** Every library call made after line 458 belongs to an enabled block and
    is given the session's datasets. *)
Lemma quantize_and_evaluate_origin (a : Args) (s : Session) (e : Event) :
  In e (trace_of (quantize_and_evaluate a s)) -> closing_origin a s e.
Proof.
  unfold quantize_and_evaluate. intros H.
  apply in_trace_bind_inv in H as [H | (? & _ & H)];
    [exact (run_qat_origin a s _ e H) |].
  apply in_trace_bind_inv in H as [H | (? & _ & H)];
    [exact (run_ptq_origin a s _ e H) |].
  apply in_trace_bind_inv in H as [H | (? & _ & H)];
    [exact (run_gptq_origin a s _ e H) |].
  apply in_trace_bind_inv in H as [H | (? & _ & H)];
    [exact (run_predict_origin a s e H) |].
  apply in_trace_bind_inv in H as [H | (? & _ & H)];
    [exact (run_load_quant_model_origin a s _ e H) |].
  exact (run_evaluate_origin a s e H).
Qed.

Lemma in_main_of_session (env : Env) (argv : list string) (su : Startup)
    (e : Event) :
  let a := parsed_args env argv in
  outcome (startup env a) = Ok su ->
  In e (trace_of (build_session env a su)) ->
  In e (trace_of (main env argv)).
Proof.
  intros a Hsu Hin. rewrite trace_main. fold a. apply in_or_app. right.
  unfold run, setup. apply in_trace_bind_l.
  eapply in_trace_bind_r; [exact Hsu | exact Hin].
Qed.

Lemma do_eval_frame (t t' : TrainingArguments) :
  t' = t \/ t' = set_ignore_data_skip t true -> do_eval t' = do_eval t.
Proof. intros [-> | ->]; reflexivity. Qed.

(** X1.  Whenever [main] builds the calibration dataloader
    ([trainer.get_ptq_dataloader], lines 492, 515 and 558), the dataset it
    passes is the prepared calibration dataset of the run, and it is not
    [None]. *)
Theorem calibration_dataloader_has_dataset (env : Env) (argv : list string)
    (ds : option Dataset) :
  let a := parsed_args env argv in
  In (EvGetPtqDataloader ds) (trace_of (main env argv)) ->
  exists s raw,
    outcome (setup env a) = Ok s /\
    ds = ptq_ds (p_datasets (se_prepared s)) /\
    ds = Some raw.
Proof.
  intros a Hin.
  apply in_trace_main_closing in Hin; try reflexivity. fold a in Hin.
  destruct Hin as (s & Hs & Hin).
  apply quantize_and_evaluate_origin in Hin. destruct Hin as [-> Hflags].
  destruct (session_presence env a s Hs) as (_ & _ & Hptq & _).
  specialize (Hptq Hflags).
  destruct (ptq_ds (p_datasets (se_prepared s))) as [raw |] eqn:E; [| congruence].
  exists s, raw. auto.
Qed.

Lemma calibration_dataloader_has_dataset_witness :
  exists raw,
    In (EvGetPtqDataloader (Some raw))
      (trace_of (main (Sample.plain_env Sample.ptq_only) Sample.argv_json)) /\
    loaded_from raw = (JsonFile "./data/train.json", Some false).
Proof.
  assert (Hin : In (EvGetPtqDataloader
                      (Some (Mapped (mkMapCall GetConvertExample false (Some false)
                                       (Some false))
                               (Sample.raw "./data/train.json"))))
                  (trace_of (main (Sample.plain_env Sample.ptq_only) Sample.argv_json))).
  { vm_compute. repeat (first [left; reflexivity | right]). }
  destruct (calibration_dataloader_has_dataset _ _ _ Hin) as (s & raw & _ & _ & E).
  exists raw. injection E as <-. split; [exact Hin | reflexivity].
Defined.

(** X2.  [trainer.evaluate] (line 574) is never called with [None]: the dev
    dataset exists whenever evaluation runs.  [trainer.train] (line 465) is
    only called on a trainer that was created with a train dataset. *)
Theorem train_and_evaluate_have_datasets (env : Env) (argv : list string) :
  (forall ds, In (EvEvaluate ds) (trace_of (main env argv)) ->
              exists dev, ds = Some dev) /\
  (forall resume, In (EvTrain resume) (trace_of (main env argv)) ->
     exists spec train,
       In (EvCreateTrainer spec) (trace_of (main env argv)) /\
       tr_train_dataset spec = Some train).
Proof.
  set (a := parsed_args env argv). split.
  - intros ds Hin.
    apply in_trace_main_closing in Hin; try reflexivity. fold a in Hin.
    destruct Hin as (s & Hs & Hin).
    apply quantize_and_evaluate_origin in Hin. destruct Hin as [-> Heval].
    destruct (session_presence env a s Hs) as (_ & Hdev & _ & Hframe).
    rewrite (do_eval_frame _ _ Hframe) in Heval.
    destruct (dev_ds (p_datasets (se_prepared s))) as [dev |]; [eauto |].
    destruct Hdev as [Hdev _]. rewrite (Hdev eq_refl) in Heval. discriminate.
  - intros resume Hin.
    apply in_trace_main_closing in Hin; try reflexivity. fold a in Hin.
    destruct Hin as (s & Hs & Hin).
    apply quantize_and_evaluate_origin in Hin. simpl in Hin.
    destruct (session_presence env a s Hs) as (Htrain & _).
    destruct (setup_session env a s Hs) as [Hsu Hb].
    destruct (build_session_prepared env a _ s Hb)
      as (_ & _ & spec & Hspec & Etrain & _).
    destruct (train_ds (p_datasets (se_prepared s))) as [train |].
    + exists spec, train. split; [| exact Etrain].
      exact (in_main_of_session env argv _ _ Hsu Hspec).
    + destruct Htrain as [Htrain _]. rewrite (Htrain eq_refl) in Hin. discriminate.
Qed.

Lemma train_and_evaluate_have_datasets_witness :
  (exists dev,
     In (EvEvaluate (Some dev))
       (trace_of (main (Sample.plain_env Scenario.qat_eval) Sample.argv_json))) /\
  (exists spec train,
     In (EvCreateTrainer spec)
       (trace_of (main (Sample.plain_env Scenario.qat_eval) Sample.argv_json)) /\
     tr_train_dataset spec = Some train).
Proof.
  destruct (train_and_evaluate_have_datasets
              (Sample.plain_env Scenario.qat_eval) Sample.argv_json) as [He Ht].
  split.
  - assert (Hin : In (EvEvaluate
                        (Some (Mapped (mkMapCall GetConvertExample false (Some false)
                                         (Some false))
                                 (Sample.raw "./data/dev.json"))))
                    (trace_of (main (Sample.plain_env Scenario.qat_eval)
                                 Sample.argv_json))).
    { vm_compute. repeat (first [left; reflexivity | right]). }
    destruct (He _ Hin) as [dev E]. exists dev. rewrite <- E. exact Hin.
  - apply (Ht None). vm_compute. repeat (first [left; reflexivity | right]).
Defined.

Lemma main_closing_origin (env : Env) (argv : list string) (e : Event) :
  let a := parsed_args env argv in
  In e (trace_of (main env argv)) ->
  parser_event e = false -> startup_event e = false -> session_event e = false ->
  exists s, outcome (setup env a) = Ok s /\ closing_origin a s e.
Proof.
  intros a Hin Hp Hs Hb.
  destruct (in_trace_main_closing env argv e Hin Hp Hs Hb) as (s & Hsetup & Hq).
  exists s. split; [exact Hsetup | exact (quantize_and_evaluate_origin _ s e Hq)].
Qed.

(** X3.  One run of [main] applies at most one quantization strategy:
    [create_qat_model], [apply_ptq] and [apply_gptq] are each called only
    under their own flag and never two of them in the same run; and
    [load_quant_model] is never called in a run that applies PTQ. *)
Theorem one_quantization_strategy_per_run (env : Env) (argv : list string) :
  let q := quant_args (parsed_args env argv) in
  let tr := trace_of (main env argv) in
  (forall dtype, In (EvCreateQatModel dtype) tr ->
     do_qat q = true /\ ~ In EvApplyPtq tr /\ ~ In EvApplyGptq tr) /\
  (In EvApplyPtq tr ->
     do_ptq q = true /\ ~ In EvApplyGptq tr /\
     forall out, ~ In (EvLoadQuantModel out) tr) /\
  (In EvApplyGptq tr -> do_gptq q = true).
Proof.
  intros q tr. set (a := parsed_args env argv).
  assert (Hqat : forall dtype, In (EvCreateQatModel dtype) tr ->
                 do_qat q = true /\ py_sum [do_ptq q; do_qat q; do_gptq q] <= 1).
  { intros dtype H. apply main_closing_origin in H as (s & Hs & H); try reflexivity.
    split; [exact H | exact (setup_returns env a s Hs)]. }
  assert (Hptq : In EvApplyPtq tr ->
                 do_ptq q = true /\ py_sum [do_ptq q; do_qat q; do_gptq q] <= 1).
  { intros H. apply main_closing_origin in H as (s & Hs & H); try reflexivity.
    split; [exact H | exact (setup_returns env a s Hs)]. }
  assert (Hgptq : In EvApplyGptq tr ->
                  do_gptq q = true /\ py_sum [do_ptq q; do_qat q; do_gptq q] <= 1).
  { intros H. apply main_closing_origin in H as (s & Hs & H); try reflexivity.
    split; [exact H | exact (setup_returns env a s Hs)]. }
  assert (Hload : forall out, In (EvLoadQuantModel out) tr -> do_ptq q = false).
  { intros out H. apply main_closing_origin in H as (s & Hs & H); try reflexivity.
    apply H. }
  unfold py_sum in *. split; [| split].
  - intros dtype H. destruct (Hqat dtype H) as [E Hsum]. split; [exact E |].
    split; intros H'.
    + destruct (Hptq H') as [E' _]. rewrite E, E' in Hsum.
      destruct (do_gptq q); simpl in Hsum; lia.
    + destruct (Hgptq H') as [E' _]. rewrite E, E' in Hsum.
      destruct (do_ptq q); simpl in Hsum; lia.
  - intros H. destruct (Hptq H) as [E Hsum]. split; [exact E |]. split.
    + intros H'. destruct (Hgptq H') as [E' _]. rewrite E, E' in Hsum.
      destruct (do_qat q); simpl in Hsum; lia.
    + intros out H'. rewrite (Hload out H') in E. discriminate.
  - intros H. apply Hgptq. exact H.
Qed.

Lemma one_quantization_strategy_per_run_witness :
  let tr := trace_of (main (Sample.plain_env Sample.ptq_only) Sample.argv_json) in
  In EvApplyPtq tr /\ ~ In EvApplyGptq tr /\
  let tr' := trace_of (main (Sample.plain_env Scenario.qat_eval) Sample.argv_json) in
  In (EvCreateQatModel "float32") tr' /\ ~ In EvApplyPtq tr'.
Proof.
  cbv zeta.
  assert (H1 : In EvApplyPtq
                 (trace_of (main (Sample.plain_env Sample.ptq_only) Sample.argv_json))).
  { vm_compute. repeat (first [left; reflexivity | right]). }
  assert (H2 : In (EvCreateQatModel "float32")
                 (trace_of (main (Sample.plain_env Scenario.qat_eval) Sample.argv_json))).
  { vm_compute. repeat (first [left; reflexivity | right]). }
  destruct (one_quantization_strategy_per_run
              (Sample.plain_env Sample.ptq_only) Sample.argv_json) as (_ & Hp & _).
  destruct (one_quantization_strategy_per_run
              (Sample.plain_env Scenario.qat_eval) Sample.argv_json) as (Hq & _).
  cbv zeta in Hp, Hq.
  split; [exact H1 |]. split; [apply (Hp H1) |].
  split; [exact H2 | apply (Hq _ H2)].
Defined.

(** What lines 75-185 change in the data arguments: [zero_padding] is
    forced by [flash_mask], [eval_with_do_generation] is cleared by a chat
    template, and nothing else. *)
Lemma startup_frame (env : Env) (a : Args) (su : Startup) :
  outcome (startup env a) = Ok su ->
  let d := data_args a in
  let d' := su_data_args su in
  dataset_name_or_path d' = dataset_name_or_path d /\
  max_length d' = max_length d /\
  lazy_ d' = lazy_ d /\
  greedy_zero_padding d' = greedy_zero_padding d /\
  pad_to_max_length d' = pad_to_max_length d /\
  pad_to_multiple_of d' = pad_to_multiple_of d /\
  zero_padding d' = flash_mask (model_args a) || zero_padding d /\
  eval_with_do_generation d' =
    match tok_chat_template (loaded_tokenizer env a) with
    | Some _ => false
    | None => eval_with_do_generation d
    end.
Proof.
  unfold startup, construct, loaded_tokenizer. intros Hsu.
  repeat (apply bind_returns in Hsu; destruct Hsu as [? [? Hsu]]).
  injection Hsu as <-. cbn [su_data_args].
  match goal with
  | Hf : outcome (force_flash_mask ?m ?d ?mo) = Ok ?r,
    Ht : outcome (load_tokenizer _ _ _) = Ok ?k |- _ =>
      unfold force_flash_mask in Hf; unfold load_tokenizer in Ht;
      simpl in Ht; injection Ht as <-;
      destruct (flash_mask m), (zero_padding d) eqn:Ez,
        (cfg_use_flash_attention (model_config mo));
      simpl in Hf; injection Hf as <-;
      simpl; destruct (tok_chat_template _); simpl; rewrite ?Ez; repeat split
  end.
Qed.

(** X4.  Prediction (lines 520-535) always reads the test set with the JSON
    loader from test.json under [dataset_name_or_path], whatever layout the
    other datasets were resolved from, registered dataset names included. *)
Theorem predict_reads_test_json (env : Env) (argv : list string) (ds : Dataset) :
  let a := parsed_args env argv in
  In (EvPredict ds) (trace_of (main env argv)) ->
  do_predict (training_args a) = true /\
  exists path,
    dataset_name_or_path (data_args a) = Some path /\
    loaded_from ds = (JsonFile (os_path_join path ["test.json"]),
                      Some (lazy_ (data_args a))).
Proof.
  intros a Hin.
  apply main_closing_origin in Hin as (s & Hs & H); try reflexivity. fold a in Hs, H.
  destruct H as (Hp & path & Hpath & Hsrc).
  destruct (session_presence env a s Hs) as (_ & _ & _ & Hframe).
  destruct (setup_session env a s Hs) as [Hsu _].
  destruct (startup_frame env a _ Hsu) as (Hd & _ & Hl & _).
  cbv zeta in Hd, Hl. rewrite Hd, Hl in *.
  split.
  - destruct Hframe as [E | E]; rewrite E in Hp; exact Hp.
  - exists path. auto.
Qed.

Lemma predict_reads_test_json_witness :
  exists ds,
    In (EvPredict ds)
      (trace_of (main (Scenario.no_files_env Scenario.predict_registered)
                   Sample.argv_json)) /\
    loaded_from ds = (JsonFile "squad/test.json", Some false) /\
    In (EvLoadDataset (Registered "squad" "train") None)
      (trace_of (main (Scenario.no_files_env Scenario.predict_registered)
                   Sample.argv_json)).
Proof.
  assert (Hin : In (EvPredict
                      (Mapped (mkMapCall GetConvertExample false None None)
                         (Loaded (JsonFile "squad/test.json") (Some false))))
                  (trace_of (main (Scenario.no_files_env Scenario.predict_registered)
                               Sample.argv_json))).
  { vm_compute. repeat (first [left; reflexivity | right]). }
  eexists. split; [exact Hin |]. split.
  - destruct (predict_reads_test_json _ _ _ Hin) as (_ & path & Hpath & Hsrc).
    injection Hpath as <-. exact Hsrc.
  - vm_compute. repeat (first [left; reflexivity | right]).
Defined.

(** ** The trainer (lines 413-458) *)

Lemma create_trainer_spec (m : ModelArgument) (d : DataArgument)
    (t : TrainingArguments) (dss : Datasets) (spec : TrainerSpec) :
  In (EvCreateTrainer spec) (trace_of (create_trainer m d t dss)) ->
  spec =
  mkTrainerSpec (train_ds dss) (dev_ds dss)
    (if 1 <? pipeline_parallel_degree t then NoMetrics
     else if eval_with_do_generation d then ComputeMetricsDoGeneration
     else ComputeMetrics)
    (if pads_to_max_length d t then Some (max_length d) else None)
    (if pads_to_max_length d t then PadMaxLength else PadTrue)
    (if pads_to_max_length d t then Some (max_length d) else None)
    (negb (flash_mask m)) (pad_to_multiple_of d) (eval_with_do_generation d)
    (is_zero_padding_iterable (train_ds dss)).
Proof.
  unfold create_trainer, pads_to_max_length.
  destruct ((1 <? pipeline_parallel_degree t) || sequence_parallel t
            || autotuner_benchmark t || zero_padding d || pad_to_max_length d);
    simpl; intros [H | [H | []]]; try discriminate; injection H as <-; reflexivity.
Qed.

Lemma before_trainer_events (env : Env) (a : Args) (su : Startup) :
  forallb not_create_trainer
    (trace_of (resolve_datasets env (quant_args a) (training_args a)
                 (su_data_args su))) = true /\
  (forall train,
     forallb not_create_trainer
       (trace_of (skip_consumed env (training_args a) (su_data_args su) train))
     = true) /\
  (forall t dss,
     forallb not_create_trainer
       (trace_of (prepare_datasets (model_args a) (su_data_args su) t dss)) = true).
Proof.
  split; [| split]; intros;
    unfold resolve_datasets, load_single_files, load_directories, load_registered,
      load_dataset_if, skip_consumed, prepare_datasets;
    by_cases_on_tests.
Qed.

(** A trainer is only created in a run that gets past line 458, from that
    run's data arguments, training arguments and prepared datasets. *)
Lemma main_trainer_spec (env : Env) (argv : list string) (spec : TrainerSpec) :
  let a := parsed_args env argv in
  In (EvCreateTrainer spec) (trace_of (main env argv)) ->
  exists s,
    outcome (setup env a) = Ok s /\
    In (EvCreateTrainer spec)
      (trace_of (create_trainer (model_args a) (su_data_args (se_startup s))
                   (se_training_args s) (p_datasets (se_prepared s)))).
Proof.
  intros a Hin.
  apply in_trace_main_session in Hin as (su & Hsu & Hin); try reflexivity.
  fold a in Hsu, Hin.
  destruct (before_trainer_events env a su) as (Hr & Hk & Hp).
  assert (Hno : forall tr, forallb not_create_trainer tr = true ->
                           ~ In (EvCreateTrainer spec) tr).
  { intros tr Hq H. pose proof (forallb_in _ _ _ Hq H). discriminate. }
  unfold build_session in Hin.
  apply in_trace_bind_inv in Hin as [Hin | (dss & Hdss & Hin)];
    [exfalso; exact (Hno _ Hr Hin) |].
  apply in_trace_bind_inv in Hin as [Hin | (sk & Hsk & Hin)];
    [exfalso; exact (Hno _ (Hk _) Hin) |].
  apply in_trace_bind_inv in Hin as [Hin | (p & Hp' & Hin)];
    [exfalso; exact (Hno _ (Hp _ _) Hin) |].
  apply in_trace_bind_inv in Hin as [Hin | (u & _ & Hin)];
    [| destruct Hin].
  exists (mkSession su (fst sk) p). split; [| exact Hin].
  unfold setup, build_session.
  rewrite outcome_bind, Hsu, outcome_bind, Hdss, outcome_bind, Hsk, outcome_bind, Hp'.
  rewrite outcome_bind, create_trainer_returns. reflexivity.
Qed.

(** X5.  When the tokenizer comes out of [init_chat_template] with a chat
    template, line 182 switches generation off for the whole run, whatever
    [eval_with_do_generation] was set to: any trainer [main] creates has
    [do_generation=False], never gets [compute_metrics_do_generation], and
    its evaluation dataset is not mapped as a test set. *)
Theorem chat_template_disables_generation (env : Env) (argv : list string)
    (spec : TrainerSpec) :
  let a := parsed_args env argv in
  tok_chat_template (loaded_tokenizer env a) <> None ->
  In (EvCreateTrainer spec) (trace_of (main env argv)) ->
  tr_do_generation spec = false /\
  tr_compute_metrics spec <> ComputeMetricsDoGeneration /\
  (forall ds, tr_eval_dataset spec = Some ds -> mapped_is_test ds = Some false).
Proof.
  intros a Htpl Hin.
  apply main_trainer_spec in Hin as (s & Hs & Hin). fold a in Hs, Hin.
  apply create_trainer_spec in Hin.
  destruct (setup_session env a s Hs) as [Hsu Hb].
  destruct (startup_frame env a _ Hsu) as (_ & _ & _ & _ & _ & _ & _ & Hgen).
  cbv zeta in Hgen.
  destruct (tok_chat_template (loaded_tokenizer env a)); [| congruence].
  rewrite Hgen in Hin.
  apply build_session_returns in Hb as (_ & dss & sk & _ & _ & _ & Hp).
  subst spec. cbn [tr_do_generation tr_compute_metrics tr_eval_dataset].
  split; [reflexivity |]. split.
  - destruct (1 <? pipeline_parallel_degree (se_training_args s)); discriminate.
  - intros ds Hds. revert Hp Hds. unfold prepare_datasets, map_dataset.
    rewrite Hgen.
    destruct (zero_padding (su_data_args (se_startup s))),
      (lazy_ (su_data_args (se_startup s))), (dev_ds dss);
      simpl; intros Hp; injection Hp as <-; simpl; intros Hds;
      try discriminate; injection Hds as <-; reflexivity.
Qed.

Lemma chat_template_disables_generation_witness :
  eval_with_do_generation (data_args Scenario.generation_eval) = true /\
  exists spec,
    In (EvCreateTrainer spec)
      (trace_of (main (Scenario.chat_env Scenario.generation_eval) Sample.argv_json)) /\
    tr_do_generation spec = false /\
    tr_compute_metrics spec = ComputeMetrics.
Proof.
  split; [reflexivity |].
  eexists. split; [vm_compute; repeat (first [left; reflexivity | right]) |].
  split; [| reflexivity].
  refine (proj1 (chat_template_disables_generation
                   (Scenario.chat_env Scenario.generation_eval) Sample.argv_json _
                   _ _)).
  - vm_compute. discriminate.
  - vm_compute. repeat (first [left; reflexivity | right]).
Defined.

Lemma training_args_frame (t t' : TrainingArguments) :
  t' = t \/ t' = set_ignore_data_skip t true ->
  pipeline_parallel_degree t' = pipeline_parallel_degree t /\
  sequence_parallel t' = sequence_parallel t /\
  autotuner_benchmark t' = autotuner_benchmark t /\
  tensor_parallel_degree t' = tensor_parallel_degree t /\
  do_predict t' = do_predict t /\
  output_dir t' = output_dir t /\
  resume_from_checkpoint t' = resume_from_checkpoint t.
Proof. intros [-> | ->]; repeat split. Qed.

(** X6.  The data collator of every trainer [main] creates: labels are
    padded like inputs ([max_label_length] equals [max_length]); the
    attention mask is returned exactly when [flash_mask] is off; padding is
    either to [data_args.max_length] or dynamic with no maximum; and padding
    to [max_length] is used whenever pipeline or sequence parallelism, the
    autotuner benchmark, zero padding, [pad_to_max_length] or [flash_mask]
    (which forces zero padding) is on. *)
Theorem collator_padding (env : Env) (argv : list string) (spec : TrainerSpec) :
  let a := parsed_args env argv in
  let t := training_args a in
  let d := data_args a in
  In (EvCreateTrainer spec) (trace_of (main env argv)) ->
  dc_max_label_length spec = dc_max_length spec /\
  dc_return_attention_mask spec = negb (flash_mask (model_args a)) /\
  dc_pad_to_multiple_of spec = pad_to_multiple_of d /\
  (pads_to_max_length d t || flash_mask (model_args a) = true ->
   dc_padding spec = PadMaxLength /\ dc_max_length spec = Some (max_length d)) /\
  (pads_to_max_length d t || flash_mask (model_args a) = false ->
   dc_padding spec = PadTrue /\ dc_max_length spec = None).
Proof.
  intros a t d Hin.
  apply main_trainer_spec in Hin as (s & Hs & Hin). fold a in Hs, Hin.
  apply create_trainer_spec in Hin.
  destruct (setup_session env a s Hs) as [Hsu _].
  destruct (session_presence env a s Hs) as (_ & _ & _ & Hframe).
  destruct (training_args_frame _ _ Hframe) as (Hpp & Hsp & Hab & _).
  destruct (startup_frame env a _ Hsu) as (_ & Hml & _ & _ & Hpm & Hmult & Hzp & _).
  cbv zeta in Hml, Hpm, Hmult, Hzp.
  assert (Hpad : pads_to_max_length (su_data_args (se_startup s)) (se_training_args s)
                 = pads_to_max_length d t || flash_mask (model_args a)).
  { unfold pads_to_max_length. rewrite Hpp, Hsp, Hab, Hzp, Hpm. fold t d.
    destruct (1 <? pipeline_parallel_degree t), (sequence_parallel t),
      (autotuner_benchmark t), (flash_mask (model_args a)), (zero_padding d),
      (pad_to_max_length d); reflexivity. }
  rewrite Hpad, Hml, Hmult in Hin. fold d in Hin. subst spec.
  cbn [dc_max_label_length dc_max_length dc_return_attention_mask dc_padding
       dc_pad_to_multiple_of].
  split; [destruct (_ || _); reflexivity |].
  split; [reflexivity |]. split; [reflexivity |].
  split; intros ->; split; reflexivity.
Qed.

Lemma collator_padding_witness :
  exists spec,
    In (EvCreateTrainer spec)
      (trace_of (main (Sample.plain_env Sample.flash_mask_alone) Sample.argv_json)) /\
    dc_padding spec = PadMaxLength /\ dc_max_length spec = Some 2048 /\
    dc_return_attention_mask spec = false.
Proof.
  eexists. split; [vm_compute; repeat (first [left; reflexivity | right]) |].
  match goal with
  | |- dc_padding ?sp = _ /\ _ =>
      assert (Hin : In (EvCreateTrainer sp)
                      (trace_of (main (Sample.plain_env Sample.flash_mask_alone)
                                   Sample.argv_json)))
        by (vm_compute; repeat (first [left; reflexivity | right]));
      destruct (collator_padding _ _ _ Hin) as (_ & Hmask & _ & Hmax & _)
  end.
  destruct (Hmax eq_refl) as [Hp Hl].
  split; [exact Hp |]. split; [exact Hl | exact Hmask].
Defined.

Lemma prepare_datasets_callback (m : ModelArgument) (d : DataArgument)
    (t : TrainingArguments) (dss : Datasets) (p : Prepared) :
  outcome (prepare_datasets m d t dss) = Ok p ->
  is_zero_padding_iterable (train_ds (p_datasets p)) =
  match train_ds dss with
  | Some _ => zero_padding d && lazy_ d
  | None => false
  end.
Proof.
  unfold prepare_datasets, map_dataset.
  destruct (zero_padding d), (eval_with_do_generation d), (lazy_ d),
    (train_ds dss); simpl; intros H; injection H as <-; reflexivity.
Qed.

(** X7.  The trainer gets the [ZeroPaddingIterDatasetCallback] (line 453)
    exactly when QAT is requested, zero padding is on (set, or forced by
    [flash_mask]) and the datasets are lazy. *)
Theorem zero_padding_callback_iff (env : Env) (argv : list string)
    (spec : TrainerSpec) :
  let a := parsed_args env argv in
  In (EvCreateTrainer spec) (trace_of (main env argv)) ->
  tr_zero_padding_callback spec =
  do_qat (quant_args a)
  && (flash_mask (model_args a) || zero_padding (data_args a))
  && lazy_ (data_args a).
Proof.
  intros a Hin.
  apply main_trainer_spec in Hin as (s & Hs & Hin). fold a in Hs, Hin.
  apply create_trainer_spec in Hin.
  destruct (setup_session env a s Hs) as [Hsu Hb].
  destruct (startup_frame env a _ Hsu) as (_ & _ & Hlz & _ & _ & _ & Hzp & _).
  cbv zeta in Hlz, Hzp.
  apply build_session_returns in Hb as (_ & dss & sk & Hr & Hsk & _ & Hp).
  apply prepare_datasets_callback in Hp. cbn [train_ds] in Hp.
  apply resolve_datasets_presence in Hr as (Htr & _).
  apply skip_consumed_cases in Hsk.
  subst spec. cbn [tr_zero_padding_callback]. rewrite Hp, Hzp, Hlz.
  destruct Hsk as [[-> _] | (ckpt & ds & _ & _ & E & ->)]; simpl.
  - destruct (train_ds dss) as [ds |].
    + destruct (do_qat (quant_args a)); [reflexivity |].
      destruct Htr as [_ Htr]. discriminate (Htr eq_refl).
    + destruct Htr as [Htr _]. rewrite (Htr eq_refl). reflexivity.
  - destruct (do_qat (quant_args a)); [reflexivity |].
    destruct Htr as [_ Htr]. rewrite (Htr eq_refl) in E. discriminate.
Qed.

Lemma zero_padding_callback_iff_witness :
  exists spec,
    In (EvCreateTrainer spec)
      (trace_of (main (Sample.plain_env Scenario.qat_lazy_padded) Sample.argv_json)) /\
    tr_zero_padding_callback spec = true.
Proof.
  eexists. split; [vm_compute; repeat (first [left; reflexivity | right]) |].
  match goal with
  | |- tr_zero_padding_callback ?sp = _ =>
      assert (Hin : In (EvCreateTrainer sp)
                      (trace_of (main (Sample.plain_env Scenario.qat_lazy_padded)
                                   Sample.argv_json)))
        by (vm_compute; repeat (first [left; reflexivity | right]));
      rewrite (zero_padding_callback_iff _ _ _ Hin)
  end.
  reflexivity.
Defined.

(** ** Resuming from a checkpoint (lines 286-304) *)

Lemma build_session_skip_raises (env : Env) (a : Args) (su : Startup)
    (dss : Datasets) (ckpt : string) :
  outcome (resolve_datasets env (quant_args a) (training_args a) (su_data_args su))
  = Ok dss ->
  train_ds dss = None ->
  resume_from_checkpoint (training_args a) = Some ckpt ->
  lazy_ (su_data_args su) = true ->
  outcome (build_session env a su) = Raise (AttributeError none_skip_msg) /\
  In (EvLoadTrainerState (os_path_join ckpt ["trainer_state.json"]))
    (trace_of (build_session env a su)) /\
  forallb not_create_trainer (trace_of (build_session env a su)) = true.
Proof.
  intros Hr Htrain Hres Hlazy.
  assert (Hsk : skip_consumed env (training_args a) (su_data_args su) (train_ds dss)
                = ([EvLog Info LogLoadingFromCheckpoint;
                    EvLoadTrainerState (os_path_join ckpt ["trainer_state.json"]);
                    EvLog Info LogSkippingSamples],
                   Raise (AttributeError none_skip_msg))).
  { unfold skip_consumed. rewrite Hres, Hlazy, Htrain. reflexivity. }
  destruct (before_trainer_events env a su) as (Hq & _).
  unfold build_session. rewrite outcome_bind, Hr, outcome_bind, Hsk.
  split; [reflexivity |]. split.
  - eapply in_trace_bind_r; [exact Hr |]. apply in_trace_bind_l.
    rewrite Hsk. simpl. auto.
  - rewrite trace_bind, Hr, forallb_app, Hq, trace_bind, Hsk. reflexivity.
Qed.

(** X8.  Resuming from a checkpoint with lazy datasets only works together
    with QAT.  When [resume_from_checkpoint] is set, [lazy] is on and
    [do_qat] is off, a run that gets through the validations and dataset
    resolution loads the trainer state and then ends with the AttributeError
    of calling [skip] on [None] (line 304), before any trainer is created. *)
Theorem resume_without_train_dataset (env : Env) (argv : list string)
    (su : Startup) (dss : Datasets) (ckpt : string) :
  let a := parsed_args env argv in
  outcome (startup env a) = Ok su ->
  outcome (resolve_datasets env (quant_args a) (training_args a) (su_data_args su))
  = Ok dss ->
  do_qat (quant_args a) = false ->
  resume_from_checkpoint (training_args a) = Some ckpt ->
  lazy_ (data_args a) = true ->
  outcome (main env argv) = Raise (AttributeError none_skip_msg) /\
  In (EvLoadTrainerState (os_path_join ckpt ["trainer_state.json"]))
    (trace_of (main env argv)) /\
  forall spec, ~ In (EvCreateTrainer spec) (trace_of (main env argv)).
Proof.
  intros a Hsu Hr Hqat Hres Hlazy.
  destruct (startup_frame env a su Hsu) as (_ & _ & Hlz & _). cbv zeta in Hlz.
  destruct (resolve_datasets_presence _ _ _ _ _ Hr) as ((_ & Htrain) & _).
  destruct (build_session_skip_raises env a su dss ckpt Hr (Htrain Hqat) Hres)
    as (Ho & Hin & Hno); [congruence |].
  split; [| split].
  - rewrite outcome_main. fold a. unfold run, setup.
    rewrite outcome_bind, outcome_bind, Hsu, Ho. reflexivity.
  - exact (in_main_of_session env argv su _ Hsu Hin).
  - intros spec H.
    apply in_trace_main_session in H as (su' & Hsu' & H); try reflexivity.
    fold a in Hsu', H. rewrite Hsu in Hsu'. injection Hsu' as <-.
    pose proof (forallb_in _ _ _ Hno H). discriminate.
Qed.

Lemma resume_without_train_dataset_witness :
  outcome (main (Sample.plain_env Scenario.resume_lazy_ptq) Sample.argv_json)
  = Raise (AttributeError none_skip_msg) /\
  In (EvLoadTrainerState "./checkpoints/checkpoint-100/trainer_state.json")
    (trace_of (main (Sample.plain_env Scenario.resume_lazy_ptq) Sample.argv_json)).
Proof.
  assert (Hsu : exists su,
             outcome (startup (Sample.plain_env Scenario.resume_lazy_ptq)
                        (parsed_args (Sample.plain_env Scenario.resume_lazy_ptq)
                           Sample.argv_json)) = Ok su).
  { eexists. vm_compute. reflexivity. }
  destruct Hsu as [su Hsu].
  assert (Hsu' := Hsu). vm_compute in Hsu'. injection Hsu' as <-.
  destruct (resume_without_train_dataset
              (Sample.plain_env Scenario.resume_lazy_ptq) Sample.argv_json _
              (mkDatasets None None
                 (Some (Loaded (JsonFile "./data/train.json") (Some true))))
              "./checkpoints/checkpoint-100" Hsu)
    as (Ho & Hin & _); try reflexivity.
  split; [exact Ho | exact Hin].
Defined.

(** X9.  In a run that gets past line 458: when resuming from a checkpoint
    with lazy datasets, [ignore_data_skip] is set and the training dataset is
    built on the raw train set with the consumed samples skipped; otherwise
    the training arguments are the parsed ones and nothing is skipped. *)
Theorem resume_skips_consumed_samples (env : Env) (argv : list string)
    (s : Session) :
  let a := parsed_args env argv in
  let t := training_args a in
  outcome (setup env a) = Ok s ->
  (forall ckpt,
     resume_from_checkpoint t = Some ckpt -> lazy_ (data_args a) = true ->
     se_training_args s = set_ignore_data_skip t true /\
     exists train,
       train_ds (p_datasets (se_prepared s)) = Some train /\
       skipped_samples train =
       Some (consumed_samples t
               (load_from_json env (os_path_join ckpt ["trainer_state.json"])))) /\
  (resume_from_checkpoint t = None \/ lazy_ (data_args a) = false ->
   se_training_args s = t /\
   forall train, train_ds (p_datasets (se_prepared s)) = Some train ->
                 skipped_samples train = None).
Proof.
  intros a t Hs.
  destruct (setup_session env a s Hs) as [Hsu Hb].
  destruct (startup_frame env a _ Hsu) as (_ & _ & Hlz & _). cbv zeta in Hlz.
  apply build_session_returns in Hb as (_ & dss & sk & Hr & Hsk & Ht & Hp).
  fold t in Hr, Hsk.
  assert (Hraw : forall ds, train_ds dss = Some ds -> skipped_samples ds = None).
  { revert Hr. unfold resolve_datasets, load_single_files, load_directories,
      load_registered, load_dataset_if.
    destruct (dataset_name_or_path _) as [path |]; [| discriminate].
    destruct (single_file_layout env path); [| destruct (directory_layout env path)];
      destruct (do_qat (quant_args a)), (do_eval t);
      repeat match goal with
             | |- context [if ?b then _ else _] => destruct b
             end;
      simpl; intros H; try discriminate; injection H as <-; simpl;
      intros ds Hds; try discriminate; injection Hds as <-; reflexivity. }
  assert (Hprep : forall raw,
             snd sk = Some raw ->
             exists train, train_ds (p_datasets (se_prepared s)) = Some train /\
                           skipped_samples train = skipped_samples raw).
  { intros raw Hraw'. revert Hp. unfold prepare_datasets, map_dataset.
    rewrite Hraw'. cbn [train_ds].
    destruct (zero_padding _), (eval_with_do_generation _), (lazy_ _);
      simpl; intros H; injection H as <-; simpl; eexists; split; reflexivity. }
  assert (Hprep' : forall train,
             train_ds (p_datasets (se_prepared s)) = Some train ->
             exists raw, snd sk = Some raw /\
                         skipped_samples train = skipped_samples raw).
  { intros train Htrain. destruct (snd sk) as [raw |] eqn:E.
    - destruct (Hprep raw eq_refl) as (train' & E' & Hs').
      rewrite E' in Htrain. injection Htrain as <-. eauto.
    - apply prepare_datasets_presence in Hp as ((_ & Hnone) & _).
      cbn [train_ds] in Hnone. rewrite (Hnone eq_refl) in Htrain. discriminate. }
  apply skip_consumed_cases in Hsk. rewrite Hlz in Hsk. split.
  - intros ckpt Hres Hlazy.
    destruct Hsk as [[_ [E | E]] | (ckpt' & ds & E1 & _ & _ & ->)]; try congruence.
    rewrite Hres in E1. injection E1 as <-.
    split; [exact Ht |].
    destruct (Hprep _ eq_refl) as (train & Htrain & Hskip).
    exists train. split; [exact Htrain | exact Hskip].
  - intros Hnot.
    destruct Hsk as [[-> _] | (ckpt' & ds & E1 & E2 & _ & _)];
      [| destruct Hnot; congruence].
    split; [exact Ht |].
    intros train Htrain. destruct (Hprep' train Htrain) as (raw & Hraw' & ->).
    apply Hraw. exact Hraw'.
Qed.

Lemma resume_skips_consumed_samples_witness :
  exists s train,
    outcome (setup (Scenario.resume_env Scenario.resume_lazy_qat)
               Scenario.resume_lazy_qat) = Ok s /\
    ignore_data_skip (se_training_args s) = true /\
    train_ds (p_datasets (se_prepared s)) = Some train /\
    skipped_samples train = Some 6400.
Proof.
  assert (Hs : exists s,
             outcome (setup (Scenario.resume_env Scenario.resume_lazy_qat)
                        (parsed_args (Scenario.resume_env Scenario.resume_lazy_qat)
                           Sample.argv_json)) = Ok s).
  { eexists. vm_compute. reflexivity. }
  destruct Hs as [s Hs].
  destruct (resume_skips_consumed_samples _ _ s Hs) as [Hres _].
  destruct (Hres "./checkpoints/checkpoint-100" eq_refl eq_refl)
    as (Ht & train & Htrain & Hskip).
  exists s, train. split; [exact Hs |]. split; [rewrite Ht; reflexivity |].
  split; [exact Htrain |]. rewrite Hskip. reflexivity.
Defined.

(** ** Which datasets are zero-padded (lines 313-381) *)

Lemma prepare_datasets_shapes (m : ModelArgument) (d : DataArgument)
    (t : TrainingArguments) (dss : Datasets) (p : Prepared) :
  outcome (prepare_datasets m d t dss) = Ok p ->
  (forall ds, train_ds (p_datasets p) = Some ds ->
     is_zero_padded ds = zero_padding d /\ mapped_is_test ds = Some false) /\
  (forall ds, ptq_ds (p_datasets p) = Some ds ->
     is_zero_padded ds = zero_padding d /\ mapped_is_test ds = Some false) /\
  (forall ds, dev_ds (p_datasets p) = Some ds ->
     is_zero_padded ds = zero_padding d && negb (eval_with_do_generation d) /\
     mapped_is_test ds = Some (eval_with_do_generation d)).
Proof.
  unfold prepare_datasets, map_dataset.
  destruct (zero_padding d), (eval_with_do_generation d), (lazy_ d),
    (train_ds dss), (dev_ds dss), (ptq_ds dss);
    simpl; intros H; injection H as <-; simpl;
    (split; [| split]); intros x Hx; try discriminate; injection Hx as <-;
    split; reflexivity.
Qed.

(** X10.  Which datasets end up inside a zero-padding wrapper.  With [zp]
    the effective zero-padding switch ([zero_padding], or [flash_mask] which
    forces it) and [gen] the effective generation switch
    ([eval_with_do_generation] unless a chat template cleared it): the
    trainer's train dataset and the calibration dataset given to
    [get_ptq_dataloader] are wrapped exactly when [zp]; the trainer's
    evaluation dataset is wrapped exactly when [zp] and not [gen], and is
    mapped as a test set exactly when [gen]. *)
Theorem datasets_zero_padded_iff (env : Env) (argv : list string) :
  let a := parsed_args env argv in
  let zp := flash_mask (model_args a) || zero_padding (data_args a) in
  let gen := match tok_chat_template (loaded_tokenizer env a) with
             | Some _ => false
             | None => eval_with_do_generation (data_args a)
             end in
  (forall spec,
     In (EvCreateTrainer spec) (trace_of (main env argv)) ->
     (forall ds, tr_train_dataset spec = Some ds -> is_zero_padded ds = zp) /\
     (forall ds, tr_eval_dataset spec = Some ds ->
        is_zero_padded ds = zp && negb gen /\ mapped_is_test ds = Some gen)) /\
  (forall ds,
     In (EvGetPtqDataloader (Some ds)) (trace_of (main env argv)) ->
     is_zero_padded ds = zp).
Proof.
  intros a zp gen.
  assert (Hshape : forall s,
             outcome (setup env a) = Ok s ->
             let dss := p_datasets (se_prepared s) in
             (forall ds, train_ds dss = Some ds -> is_zero_padded ds = zp) /\
             (forall ds, ptq_ds dss = Some ds -> is_zero_padded ds = zp) /\
             (forall ds, dev_ds dss = Some ds ->
                is_zero_padded ds = zp && negb gen /\ mapped_is_test ds = Some gen)).
  { intros s Hs. destruct (setup_session env a s Hs) as [Hsu Hb].
    destruct (startup_frame env a _ Hsu) as (_ & _ & _ & _ & _ & _ & Hzp & Hgen).
    cbv zeta in Hzp, Hgen. fold zp in Hzp. fold gen in Hgen.
    apply build_session_returns in Hb as (_ & dss & sk & _ & _ & _ & Hp).
    apply prepare_datasets_shapes in Hp. rewrite Hzp, Hgen in Hp.
    destruct Hp as (Htr & Hptq & Hdev). cbv zeta.
    split; [intros ds Hds; apply (Htr ds Hds) |].
    split; [intros ds Hds; apply (Hptq ds Hds) | exact Hdev]. }
  split.
  - intros spec Hin.
    apply main_trainer_spec in Hin as (s & Hs & Hin). fold a in Hs, Hin.
    apply create_trainer_spec in Hin. subst spec.
    cbn [tr_train_dataset tr_eval_dataset].
    destruct (Hshape s Hs) as (Htr & _ & Hdev). split; assumption.
  - intros ds Hin.
    apply main_closing_origin in Hin as (s & Hs & H); try reflexivity.
    fold a in Hs, H. destruct H as [E _].
    destruct (Hshape s Hs) as (_ & Hptq & _). apply Hptq. symmetry. exact E.
Qed.

Lemma datasets_zero_padded_iff_witness :
  exists spec train,
    In (EvCreateTrainer spec)
      (trace_of (main (Sample.plain_env Scenario.qat_lazy_padded) Sample.argv_json)) /\
    tr_train_dataset spec = Some train /\ is_zero_padded train = true.
Proof.
  destruct (datasets_zero_padded_iff (Sample.plain_env Scenario.qat_lazy_padded)
              Sample.argv_json) as [Ht _].
  eexists. eexists.
  split; [vm_compute; repeat (first [left; reflexivity | right]) |].
  match goal with
  | |- tr_train_dataset ?sp = _ /\ _ =>
      assert (Hin : In (EvCreateTrainer sp)
                      (trace_of (main (Sample.plain_env Scenario.qat_lazy_padded)
                                   Sample.argv_json)))
        by (vm_compute; repeat (first [left; reflexivity | right]));
      destruct (Ht sp Hin) as [Htr _]
  end.
  split; [reflexivity | apply Htr; reflexivity].
Defined.

(** ** Order of the calibration calls (lines 485-505, 515-516, 551-566) *)

Lemma preceded_by_mono (provides needs : Event -> bool) (tr : list Event)
    (seen : bool) :
  preceded_by provides needs false tr = true ->
  preceded_by provides needs seen tr = true.
Proof.
  destruct seen; [| auto].
  generalize false. induction tr as [| e tr IH]; intros seen H; [reflexivity |].
  simpl in *. apply andb_true_iff in H as [H1 H2].
  apply andb_true_iff. split.
  - destruct (needs e); reflexivity.
  - apply (IH _ H2).
Qed.

Lemma preceded_by_app (provides needs : Event -> bool) (l1 l2 : list Event)
    (seen : bool) :
  preceded_by provides needs seen (l1 ++ l2) =
  preceded_by provides needs seen l1
  && preceded_by provides needs (seen || existsb provides l1) l2.
Proof.
  revert seen. induction l1 as [| e l1 IH]; intros seen; simpl.
  - rewrite orb_false_r. reflexivity.
  - rewrite IH, andb_assoc, orb_assoc. reflexivity.
Qed.

Lemma preceded_by_bind {A B : Type} (provides needs : Event -> bool)
    (m : M A) (k : A -> M B) :
  preceded_by provides needs false (trace_of m) = true ->
  (forall a, preceded_by provides needs false (trace_of (k a)) = true) ->
  preceded_by provides needs false (trace_of (bind m k)) = true.
Proof.
  intros Hm Hk. rewrite trace_bind.
  destruct (outcome m) as [a |]; [| exact Hm].
  rewrite preceded_by_app, Hm. simpl. apply preceded_by_mono, Hk.
Qed.

Lemma preceded_by_quiet (provides needs : Event -> bool) (tr : list Event)
    (seen : bool) :
  existsb needs tr = false -> preceded_by provides needs seen tr = true.
Proof.
  revert seen. induction tr as [| e tr IH]; intros seen H; [reflexivity |].
  simpl in *. apply orb_false_iff in H as [H1 H2].
  rewrite H1, (IH _ H2). reflexivity.
Qed.

(** What [preceded_by] says about the positions in the trace. *)
Lemma preceded_by_spec (provides needs : Event -> bool) (tr : list Event) :
  preceded_by provides needs false tr = true ->
  forall pre e post,
    tr = (pre ++ e :: post)%list -> needs e = true ->
    existsb provides pre = true.
Proof.
  intros H pre e post -> He.
  rewrite preceded_by_app in H. apply andb_true_iff in H as [_ H].
  simpl in H. rewrite He in H. apply andb_true_iff in H as [H _]. exact H.
Qed.

(** As [by_cases_on_tests], normalising closed tests before splitting. *)
Ltac by_cases_normal :=
  repeat first
    [ reflexivity
    | progress cbn [orb andb negb]
    | match goal with
      | |- context [if ?b then _ else _] => destruct b
      | |- context [match ?o with Some _ => _ | None => _ end] => destruct o
      end ].

Ltac blocks_in_order :=
  unfold quantize_and_evaluate;
  repeat (apply preceded_by_bind; [| intros ?]);
  unfold run_qat, run_ptq, run_gptq, run_predict, run_load_quant_model,
    run_evaluate, calibrate, check_not_lora, save_model, when;
  repeat match goal with
         | |- context [shift ?q] => destruct (shift q)
         | |- context [smooth ?q] => destruct (smooth q)
         end;
  by_cases_normal.

Lemma quantize_and_evaluate_order (a : Args) (s : Session) :
  preceded_by is_get_ptq_dataloader uses_ptq_dataloader false
    (trace_of (quantize_and_evaluate a s)) = true /\
  preceded_by is_get_ptq_model_config is_shift_or_smooth false
    (trace_of (quantize_and_evaluate a s)) = true.
Proof. split; blocks_in_order. Qed.

Lemma main_order (env : Env) (argv : list string)
    (provides needs : Event -> bool) :
  (forall e, parser_event e || startup_event e || session_event e = true ->
             needs e = false) ->
  (forall s, preceded_by provides needs false
               (trace_of (quantize_and_evaluate (parsed_args env argv) s)) = true) ->
  preceded_by provides needs false (trace_of (main env argv)) = true.
Proof.
  intros Hearly Hq. rewrite trace_main, preceded_by_app.
  apply andb_true_iff. split.
  - apply preceded_by_quiet. apply (forallb_excludes parser_event).
    + unfold parse_trace. destruct (config_file_given argv); reflexivity.
    + intros e He. apply Hearly. rewrite He. reflexivity.
  - apply preceded_by_mono. unfold run. apply preceded_by_bind; [| exact Hq].
    apply preceded_by_quiet.
    apply (forallb_excludes _ _ _ (setup_events env (parsed_args env argv))).
    intros e He. apply Hearly. rewrite <- orb_assoc, He. apply orb_true_r.
Qed.

(** X11.  The calibration calls come in a safe order in every run of
    [main]: before any of [apply_shift], [apply_smooth], [apply_autoclip],
    [apply_ptq] and [apply_gptq] the calibration dataloader has been built,
    and before [apply_shift] or [apply_smooth] the PTQ model config has been
    fetched (so [ptq_dataloader] and [ptq_model_config] are bound when they
    are used). *)
Theorem calibration_calls_in_order (env : Env) (argv : list string)
    (pre post : list Event) (e : Event) :
  trace_of (main env argv) = (pre ++ e :: post)%list ->
  (uses_ptq_dataloader e = true -> existsb is_get_ptq_dataloader pre = true) /\
  (is_shift_or_smooth e = true -> existsb is_get_ptq_model_config pre = true).
Proof.
  intros Htr.
  assert (H1 : preceded_by is_get_ptq_dataloader uses_ptq_dataloader false
                 (trace_of (main env argv)) = true).
  { apply main_order.
    - intros [] H; try reflexivity; simpl in H; discriminate H.
    - intros s. apply quantize_and_evaluate_order. }
  assert (H2 : preceded_by is_get_ptq_model_config is_shift_or_smooth false
                 (trace_of (main env argv)) = true).
  { apply main_order.
    - intros [] H; try reflexivity; simpl in H; discriminate H.
    - intros s. apply quantize_and_evaluate_order. }
  split; intros He.
  - exact (preceded_by_spec _ _ _ H1 pre e post Htr He).
  - exact (preceded_by_spec _ _ _ H2 pre e post Htr He).
Qed.

Lemma calibration_calls_in_order_witness :
  exists pre post,
    trace_of (main (Sample.plain_env Sample.ptq_only) Sample.argv_json)
    = (pre ++ EvApplyPtq :: post)%list /\
    existsb is_get_ptq_dataloader pre = true.
Proof.
  assert (Hsplit : exists pre post,
             trace_of (main (Sample.plain_env Sample.ptq_only) Sample.argv_json)
             = (pre ++ EvApplyPtq :: post)%list).
  { apply in_split. vm_compute. repeat (first [left; reflexivity | right]). }
  destruct Hsplit as (pre & post & Htr).
  exists pre, post. split; [exact Htr |].
  apply (calibration_calls_in_order _ _ pre post EvApplyPtq Htr). reflexivity.
Defined.

(** ** Every way [main] can fail *)

(** X12.  [main] ends normally or with one of nine exceptions of its own:
    the ValueErrors of lines 81, 109, 149, 188, 227 and 269, the
    NotImplementedErrors of line 169 and of lines 474/510/539, and the
    AttributeError of line 304.  In particular the names [intoken_dataset]
    (line 529) and [dataset_name_or_path] (line 523) are always bound to a
    usable value when the prediction block reads them: [main] never ends with
    an UnboundLocalError or a TypeError. *)
Theorem main_exceptions (env : Env) (argv : list string) (e : PyExn) :
  outcome (main env argv) = Raise e ->
  (e = ValueError quant_conflict_msg
   \/ e = ValueError dtype_msg
   \/ e = ValueError pipeline_generation_msg
   \/ (exists model, e = NotImplementedError (flash_mask_msg model))
   \/ e = ValueError dataset_none_msg
   \/ (exists path, e = ValueError (quant_json_msg path))
   \/ (exists path, e = ValueError (quant_folder_msg path))
   \/ e = AttributeError none_skip_msg
   \/ e = NotImplementedError lora_msg) /\
  (forall msg, e <> UnboundLocalError msg /\ e <> TypeError msg).
Proof.
  rewrite outcome_main. intros H.
  assert (Hcases :
            e = ValueError quant_conflict_msg
            \/ e = ValueError dtype_msg
            \/ e = ValueError pipeline_generation_msg
            \/ (exists model, e = NotImplementedError (flash_mask_msg model))
            \/ e = ValueError dataset_none_msg
            \/ (exists path, e = ValueError (quant_json_msg path))
            \/ (exists path, e = ValueError (quant_folder_msg path))
            \/ e = AttributeError none_skip_msg
            \/ e = NotImplementedError lora_msg).
  { apply run_raises in H.
    destruct H as [H | [H | [H | [H | [H | [H _]]]]]]; try tauto.
    apply startup_raises in H.
    destruct H as [[H _] | [[H _] | [[H _] | [model [H _]]]]]; eauto 6. }
  split; [exact Hcases |].
  intros msg.
  destruct Hcases as [-> | [-> | [-> | [[model ->] | [-> | [[path ->] | [[path ->]
                     | [-> | ->]]]]]]]]; split; discriminate.
Qed.

Lemma main_exceptions_witness :
  ValueError dataset_none_msg <> UnboundLocalError "" /\
  outcome (main (Sample.plain_env Sample.no_path) Sample.argv_json)
  = Raise (ValueError dataset_none_msg).
Proof.
  assert (H : outcome (main (Sample.plain_env Sample.no_path) Sample.argv_json)
              = Raise (ValueError dataset_none_msg)) by reflexivity.
  split; [apply (main_exceptions _ _ _ H) | exact H].
Defined.

(** ** The XPU accumulate-steps optimisation (lines 92-100) *)

Lemma setup_device_xpu (env : Env) (t : TrainingArguments) (e : Event) :
  In e (trace_of (setup_device env t)) ->
  match e with
  | EvXpuAccumulateSteps steps =>
      get_env_device env = "xpu" /\ 1 < gradient_accumulation_steps t /\
      paddle_xpu_importable env = true /\ steps = gradient_accumulation_steps t
  | _ => True
  end.
Proof.
  unfold setup_device, when.
  destruct (String.eqb_spec (get_env_device env) "xpu") as [Ed | Ed];
    destruct (1 <? gradient_accumulation_steps t) eqn:Eg;
    destruct (paddle_xpu_importable env) eqn:Ei;
    simpl; intros H;
    repeat (destruct H as [<- | H]; [exact I |]); try (exfalso; exact H).
  destruct H as [<- | []]. apply Z.ltb_lt in Eg. auto.
Qed.

Lemma startup_xpu (env : Env) (a : Args) (steps : Z) :
  In (EvXpuAccumulateSteps steps) (trace_of (startup env a)) ->
  In (EvXpuAccumulateSteps steps) (trace_of (setup_device env (training_args a))).
Proof.
  assert (Hno : forall tr, forallb (fun e => match e with
                                             | EvXpuAccumulateSteps _ => false
                                             | _ => true
                                             end) tr = true ->
                           ~ In (EvXpuAccumulateSteps steps) tr).
  { intros tr Hq H. pose proof (forallb_in _ _ _ Hq H). discriminate. }
  unfold startup. intros H.
  apply in_trace_bind_inv in H as [H | (? & _ & H)].
  { exfalso. refine (Hno _ _ H). reflexivity. }
  apply in_trace_bind_inv in H as [H | (? & _ & H)].
  { exfalso. refine (Hno _ _ H). unfold check_quant_strategy. by_cases_on_tests. }
  apply in_trace_bind_inv in H as [H | (? & _ & H)]; [exact H |].
  exfalso. refine (Hno _ _ H).
  unfold construct.
  repeat (apply forallb_trace_bind; [| intros ? _]);
    unfold select_dtype, select_model_class, build_model, force_flash_mask,
      check_flash_mask_support, register_hooks, when;
    by_cases_on_tests.
Qed.

(** X13.  The XPU accumulate-steps optimisation (lines 92-97) is requested
    only on an "xpu" device with more than one gradient accumulation step
    and an importable [paddle_xpu], and then with exactly that number of
    steps; once the flag check of line 80 has passed, it is requested
    whenever these three hold. *)
Theorem xpu_accumulate_steps (env : Env) (argv : list string) :
  let t := training_args (parsed_args env argv) in
  let q := quant_args (parsed_args env argv) in
  (forall steps,
     In (EvXpuAccumulateSteps steps) (trace_of (main env argv)) ->
     get_env_device env = "xpu" /\ 1 < gradient_accumulation_steps t /\
     paddle_xpu_importable env = true /\ steps = gradient_accumulation_steps t) /\
  (py_sum [do_ptq q; do_qat q; do_gptq q] <= 1 ->
   get_env_device env = "xpu" -> 1 < gradient_accumulation_steps t ->
   paddle_xpu_importable env = true ->
   In (EvXpuAccumulateSteps (gradient_accumulation_steps t))
     (trace_of (main env argv))).
Proof.
  cbv zeta. set (a := parsed_args env argv). split.
  - intros steps Hin. apply in_trace_main in Hin. fold a in Hin.
    destruct Hin as [Hin | [Hin | (s & _ & Hin)]].
    + apply in_parse_trace in Hin. discriminate.
    + apply in_trace_setup in Hin. destruct Hin as [Hin | (su & _ & Hin)].
      * apply startup_xpu in Hin.
        exact (setup_device_xpu env _ _ Hin).
      * pose proof (forallb_in _ _ _ (build_session_events env a su) Hin).
        discriminate.
    + pose proof (forallb_in _ _ _ (quantize_and_evaluate_events a s) Hin).
      discriminate.
  - intros Hsum Hdev Hgas Himp.
    rewrite trace_main. apply in_or_app. right. apply in_trace_run.
    unfold startup. fold a.
    eapply in_trace_bind_r; [reflexivity |].
    eapply in_trace_bind_r;
      [exact (f_equal outcome (check_quant_strategy_pass _ Hsum)) |].
    apply in_trace_bind_l.
    unfold setup_device, when. rewrite Hdev, Himp.
    apply Z.ltb_lt in Hgas. rewrite Hgas. simpl. auto.
Qed.

Lemma xpu_accumulate_steps_witness :
  In (EvXpuAccumulateSteps 4)
    (trace_of (main (Scenario.xpu_env Scenario.resume_lazy_qat) Sample.argv_json)).
Proof.
  apply (proj2 (xpu_accumulate_steps (Scenario.xpu_env Scenario.resume_lazy_qat)
                  Sample.argv_json)); try reflexivity.
Defined.

(** * [compute_metrics_do_generation] (lines 383-411) *)






(** X15.  What one call writes and accumulates.  Without
    [save_generation_output] no file is opened.  With it, the file is
    generated_output.json under [output_dir] and holds one newline-ended
    record per (prediction, reference) pair, in order; pairs are formed by
    [zip], so there are as many as the shorter of the two decoded lists and
    surplus entries of the longer one are dropped.  RougeL and BLEU-4 get
    the same [add_inst] calls, one per pair, each with a single reference,
    and the returned dict has the keys rouge1, rouge2, rougel, bleu4. *)
Theorem generated_output (lib : MetricLibrary) (save : bool) (out_dir : string)
    (eval_preds : EvalPrediction) :
  let preds := batch_decode lib (map drop_ignored (predictions eval_preds)) in
  let refs := batch_decode lib (map drop_ignored (label_ids eval_preds)) in
  let run := compute_metrics_do_generation lib save out_dir eval_preds in
  (save = false -> mr_written run = None) /\
  (save = true ->
   exists lines,
     mr_written run = Some (os_path_join out_dir ["generated_output.json"], lines) /\
     length lines = Nat.min (length preds) (length refs) /\
     (forall i pred ref,
        nth_error preds i = Some pred -> nth_error refs i = Some ref ->
        nth_error lines i = Some (json_dumps lib pred ref ++ newline)) /\
     Forall (fun line => endswith line newline = true) lines) /\
  mr_rougel_insts run = mr_bleu4_insts run /\
  length (mr_rougel_insts run) = Nat.min (length preds) (length refs) /\
  (forall i pred ref,
     nth_error preds i = Some pred -> nth_error refs i = Some ref ->
     nth_error (mr_rougel_insts run) i = Some (pred, [ref])) /\
  map fst (mr_result run) = ["rouge1"; "rouge2"; "rougel"; "bleu4"].
Proof.
  intros preds refs run.
  assert (Hnth : forall (A : Type) (f : string * string -> A) i pred ref,
             nth_error preds i = Some pred -> nth_error refs i = Some ref ->
             nth_error (map f (combine preds refs)) i = Some (f (pred, ref))).
  { intros A f. generalize refs. induction preds as [| p ps IH];
      intros rs i pred ref Hp Hr.
    - destruct i; discriminate.
    - destruct rs as [| r rs']; [destruct i; discriminate |].
      destruct i as [| i]; simpl in *.
      + injection Hp as <-. injection Hr as <-. reflexivity.
      + apply IH; assumption. }
  unfold run, compute_metrics_do_generation. fold preds refs.
  cbn [mr_written mr_rougel_insts mr_bleu4_insts mr_result].
  split; [intros ->; reflexivity |].
  split.
  - intros ->. eexists. split; [reflexivity |].
    split; [rewrite length_map; apply length_combine |].
    split.
    + intros i pred ref Hp Hr.
      exact (Hnth _ (fun pr => json_dumps lib (fst pr) (snd pr) ++ newline)
               i pred ref Hp Hr).
    + apply Forall_forall. intros line Hin.
      apply in_map_iff in Hin as (pr & <- & _).
      apply endswith_spec. eexists. reflexivity.
  - split; [reflexivity |].
    split; [rewrite length_map; apply length_combine |].
    split; [| reflexivity].
    intros i pred ref Hp Hr.
    exact (Hnth _ (fun pr => (fst pr, [snd pr])) i pred ref Hp Hr).
Qed.

Lemma generated_output_witness :
  exists lines,
    mr_written (compute_metrics_do_generation Scenario.toy_metrics true "./out"
                  Scenario.unbalanced_preds)
    = Some ("./out/generated_output.json", lines) /\
    length lines = 1%nat.
Proof.
  destruct (generated_output Scenario.toy_metrics true "./out"
              Scenario.unbalanced_preds) as (_ & Hsave & _).
  destruct (Hsave eq_refl) as (lines & Hw & Hlen & _).
  exists lines. split; [exact Hw | exact Hlen].
Defined.

(** * What a run does, block by block *)






(** ** Evaluation comes last (lines 571-575) *)

Lemma before_evaluate_events (a : Args) (s : Session) :
  let q := quant_args a in
  let t := se_training_args s in
  let model := su_model (se_startup s) in
  let dss := p_datasets (se_prepared s) in
  forallb not_evaluate (trace_of (run_qat q t (su_dtype (se_startup s)))) = true /\
  forallb not_evaluate (trace_of (run_ptq q t model (ptq_ds dss))) = true /\
  forallb not_evaluate (trace_of (run_gptq q t model (ptq_ds dss))) = true /\
  forallb not_evaluate
    (trace_of (run_predict (su_data_args (se_startup s)) t (se_prepared s))) = true /\
  forallb not_evaluate (trace_of (run_load_quant_model q t model (ptq_ds dss))) = true.
Proof.
  cbv zeta.
  repeat split;
    unfold run_qat, run_ptq, run_gptq, run_predict, run_load_quant_model,
      calibrate, check_not_lora, save_model, when;
    repeat match goal with
           | |- context [shift ?q] => destruct (shift q)
           | |- context [smooth ?q] => destruct (smooth q)
           end;
    by_cases_normal.
Qed.

(** X17.  Evaluation is the last thing [main] does: if [trainer.evaluate]
    is called at all, [main] returns normally and its trace ends with the
    evaluation log line, that call and [log_metrics("eval", ...)]; no
    quantization, saving or prediction follows it. *)
Theorem evaluation_comes_last (env : Env) (argv : list string)
    (ds : option Dataset) :
  In (EvEvaluate ds) (trace_of (main env argv)) ->
  outcome (main env argv) = Ok tt /\
  exists pre,
    trace_of (main env argv) =
    (pre ++ [EvLog Info LogEvaluateResult; EvEvaluate ds; EvLogMetrics "eval"])%list.
Proof.
  intros Hin. set (a := parsed_args env argv).
  apply in_trace_main_closing in Hin as (s & Hs & Hin); try reflexivity.
  fold a in Hs, Hin.
  destruct (before_evaluate_events a s) as (H1 & H2 & H3 & H4 & H5).
  cbv zeta in H1, H2, H3, H4, H5.
  assert (Hno : forall tr, forallb not_evaluate tr = true -> ~ In (EvEvaluate ds) tr).
  { intros tr Hq H. pose proof (forallb_in _ _ _ Hq H). discriminate. }
  assert (Hq : exists pre,
             quantize_and_evaluate a s =
             ((pre ++ [EvLog Info LogEvaluateResult; EvEvaluate ds;
                       EvLogMetrics "eval"])%list, Ok tt)).
  { revert Hin. unfold quantize_and_evaluate.
    generalize (Hno _ H1) (Hno _ H2) (Hno _ H3) (Hno _ H4) (Hno _ H5).
    clear H1 H2 H3 H4 H5.
    destruct (run_qat _ _ _) as [t1 [[] | e1]];
      [| intros N _ _ _ _ H; destruct (N H)].
    destruct (run_ptq _ _ _ _) as [t2 [[] | e2]].
    2:{ intros N1 N2 _ _ _ H. simpl in H. apply in_app_or in H as [H | H];
          [destruct (N1 H) | destruct (N2 H)]. }
    destruct (run_gptq _ _ _ _) as [t3 [[] | e3]].
    2:{ intros N1 N2 N3 _ _ H. simpl in H.
        apply in_app_or in H as [H | H]; [destruct (N1 H) |].
        apply in_app_or in H as [H | H]; [destruct (N2 H) | destruct (N3 H)]. }
    destruct (run_predict _ _ _) as [t4 [[] | e4]].
    2:{ intros N1 N2 N3 N4 _ H. simpl in H.
        apply in_app_or in H as [H | H]; [destruct (N1 H) |].
        apply in_app_or in H as [H | H]; [destruct (N2 H) |].
        apply in_app_or in H as [H | H]; [destruct (N3 H) | destruct (N4 H)]. }
    destruct (run_load_quant_model _ _ _ _) as [t5 [[] | e5]].
    2:{ intros N1 N2 N3 N4 N5 H. simpl in H.
        apply in_app_or in H as [H | H]; [destruct (N1 H) |].
        apply in_app_or in H as [H | H]; [destruct (N2 H) |].
        apply in_app_or in H as [H | H]; [destruct (N3 H) |].
        apply in_app_or in H as [H | H]; [destruct (N4 H) | destruct (N5 H)]. }
    intros N1 N2 N3 N4 N5. unfold run_evaluate, when.
    destruct (do_eval (se_training_args s)); simpl.
    - intros H.
      apply in_app_or in H as [H | H]; [destruct (N1 H) |].
      apply in_app_or in H as [H | H]; [destruct (N2 H) |].
      apply in_app_or in H as [H | H]; [destruct (N3 H) |].
      apply in_app_or in H as [H | H]; [destruct (N4 H) |].
      apply in_app_or in H as [H | H]; [destruct (N5 H) |].
      simpl in H. destruct H as [H | [H | [H | []]]]; try discriminate.
      injection H as <-.
      exists (t1 ++ t2 ++ t3 ++ t4 ++ t5)%list.
      rewrite <- !app_assoc. reflexivity.
    - intros H.
      apply in_app_or in H as [H | H]; [destruct (N1 H) |].
      apply in_app_or in H as [H | H]; [destruct (N2 H) |].
      apply in_app_or in H as [H | H]; [destruct (N3 H) |].
      apply in_app_or in H as [H | H]; [destruct (N4 H) |].
      apply in_app_or in H as [H | H]; [destruct (N5 H) | destruct H]. }
  destruct Hq as (pre & Hq).
  split.
  - rewrite outcome_main. fold a. unfold run.
    rewrite outcome_bind, Hs, Hq. reflexivity.
  - exists (parse_trace argv ++ trace_of (setup env a) ++ pre)%list.
    rewrite trace_main. fold a. unfold run.
    rewrite trace_bind, Hs, Hq. unfold trace_of at 2. simpl fst.
    rewrite <- !app_assoc. reflexivity.
Qed.

Lemma evaluation_comes_last_witness :
  outcome (main (Sample.plain_env Scenario.ptq_eval) Sample.argv_json) = Ok tt /\
  exists pre dev,
    trace_of (main (Sample.plain_env Scenario.ptq_eval) Sample.argv_json) =
    (pre ++ [EvLog Info LogEvaluateResult; EvEvaluate (Some dev);
             EvLogMetrics "eval"])%list.
Proof.
  assert (Hin : In (EvEvaluate
                      (Some (Mapped (mkMapCall GetConvertExample false (Some false)
                                       (Some false))
                               (Sample.raw "./data/dev.json"))))
                  (trace_of (main (Sample.plain_env Scenario.ptq_eval)
                               Sample.argv_json))).
  { vm_compute. repeat (first [left; reflexivity | right]). }
  destruct (evaluation_comes_last _ _ _ Hin) as (Ho & pre & Htr).
  split; [exact Ho |]. exists pre. eexists. exact Htr.
Defined.

(** ** Building the model (lines 146-161) *)

Lemma startup_construct_origin (env : Env) (a : Args) (e : Event) :
  In e (trace_of (startup env a)) -> constructed_with e <> None ->
  exists dtype model_config model_class,
    outcome (select_dtype (training_args a)) = Ok dtype /\
    outcome (select_model_class (training_args a) (data_args a)) = Ok model_class /\
    In e (trace_of (build_model env (model_args a) (training_args a) model_class
                      model_config dtype)).
Proof.
  intros H Hc.
  assert (Hno : forall tr,
            forallb (fun e => match constructed_with e with
                              | Some _ => false
                              | None => true
                              end) tr = true -> ~ In e tr).
  { intros tr Hq Hin. pose proof (forallb_in _ _ _ Hq Hin) as Hk.
    cbv beta in Hk. destruct (constructed_with e); [discriminate | apply Hc; reflexivity]. }
  unfold startup in H.
  apply in_trace_bind_inv in H as [H | (? & _ & H)].
  { exfalso. refine (Hno _ _ H). reflexivity. }
  apply in_trace_bind_inv in H as [H | (? & _ & H)].
  { exfalso. refine (Hno _ _ H). unfold check_quant_strategy. by_cases_on_tests. }
  apply in_trace_bind_inv in H as [H | (? & _ & H)].
  { exfalso. refine (Hno _ _ H). unfold setup_device, when. by_cases_on_tests. }
  apply in_trace_bind_inv in H as [H | (dtype & Hdt & H)].
  { exfalso. refine (Hno _ _ H). unfold select_dtype. by_cases_on_tests. }
  apply in_trace_bind_inv in H as [H | (model_config & _ & H)].
  { exfalso. refine (Hno _ _ H). unfold build_model_config. by_cases_on_tests. }
  unfold construct in H.
  apply in_trace_bind_inv in H as [H | (model_class & Hcls & H)].
  { exfalso. refine (Hno _ _ H). unfold select_model_class. by_cases_on_tests. }
  apply in_trace_bind_inv in H as [H | (model & _ & H)].
  { exists dtype, model_config, model_class. auto. }
  exfalso. refine (Hno _ _ H).
  repeat (apply forallb_trace_bind; [| intros ? _]);
    unfold force_flash_mask, check_flash_mask_support, register_hooks,
      load_tokenizer, when;
    by_cases_on_tests.
Qed.

Lemma main_construct_origin (env : Env) (argv : list string) (e : Event) :
  In e (trace_of (main env argv)) -> constructed_with e <> None ->
  In e (trace_of (startup env (parsed_args env argv))).
Proof.
  intros Hin Hc. set (a := parsed_args env argv).
  assert (Hk : forall k : Event -> bool,
            (forall x, k x = true -> constructed_with x = None) ->
            k e = true -> False).
  { intros k Hk He. apply Hc, Hk, He. }
  apply in_trace_main in Hin. fold a in Hin.
  destruct Hin as [Hin | [Hin | (s & _ & Hin)]].
  - exfalso. apply in_parse_trace in Hin. revert Hin. apply Hk.
    intros []; simpl; intros; first [reflexivity | discriminate].
  - apply in_trace_setup in Hin. destruct Hin as [Hin | (su & _ & Hin)];
      [exact Hin |].
    exfalso. pose proof (forallb_in _ _ _ (build_session_events env a su) Hin) as H.
    revert H. apply Hk.
    intros []; simpl; intros; first [reflexivity | discriminate].
  - exfalso.
    pose proof (forallb_in _ _ _ (quantize_and_evaluate_events a s) Hin) as H.
    revert H. apply Hk.
    intros []; simpl; intros; first [reflexivity | discriminate].
Qed.

(** X18.  How the model is built (lines 146-161).  Pretrained weights are
    loaded only when [continue_training] is set and [autotuner_benchmark] is
    not, and then from [model_name_or_path] with the [from_aistudio] flag;
    otherwise the model is created from the configuration with the dtype
    chosen at lines 103-111.  Either way the class is the pipeline class
    exactly when [pipeline_parallel_degree] exceeds 1. *)
Theorem model_construction (env : Env) (argv : list string) :
  let a := parsed_args env argv in
  let m := model_args a in
  let t := training_args a in
  let cls := if 1 <? pipeline_parallel_degree t
             then AutoModelForCausalLMPipe else AutoModelForCausalLM in
  (forall c name ais,
     In (EvModelFromPretrained c name ais) (trace_of (main env argv)) ->
     continue_training m = true /\ autotuner_benchmark t = false /\
     c = cls /\ name = model_name_or_path m /\ ais = from_aistudio m) /\
  (forall c dtype,
     In (EvModelFromConfig c dtype) (trace_of (main env argv)) ->
     (continue_training m = false \/ autotuner_benchmark t = true) /\
     c = cls /\ outcome (select_dtype t) = Ok dtype).
Proof.
  cbv zeta. set (a := parsed_args env argv).
  assert (Hcls : forall c,
            outcome (select_model_class (training_args a) (data_args a)) = Ok c ->
            c = if 1 <? pipeline_parallel_degree (training_args a)
                then AutoModelForCausalLMPipe else AutoModelForCausalLM).
  { intros c. unfold select_model_class.
    destruct (1 <? _); [destruct (_ && _) |]; simpl; intros H;
      first [discriminate H | injection H as <-; reflexivity]. }
  split.
  - intros c name ais Hin.
    apply main_construct_origin in Hin; [| discriminate]. fold a in Hin.
    apply startup_construct_origin in Hin as (dt & cfg & mc & Hdt & Hmc & Hin);
      [| discriminate].
    apply Hcls in Hmc. subst mc. revert Hin. unfold build_model.
    destruct (continue_training (model_args a)),
      (autotuner_benchmark (training_args a)); simpl;
      intros [H | []]; try discriminate H.
    injection H as <- <- <-. auto.
  - intros c dtype Hin.
    apply main_construct_origin in Hin; [| discriminate]. fold a in Hin.
    apply startup_construct_origin in Hin as (dt & cfg & mc & Hdt & Hmc & Hin);
      [| discriminate].
    apply Hcls in Hmc. subst mc. revert Hin. unfold build_model.
    destruct (continue_training (model_args a)),
      (autotuner_benchmark (training_args a)); simpl;
      intros [H | []]; try discriminate H;
      injection H as <- <-; auto.
Qed.

Lemma model_construction_witness :
  let a := parsed_args (Sample.plain_env Scenario.ptq_eval) Sample.argv_json in
  continue_training (model_args a) = true /\
  autotuner_benchmark (training_args a) = false.
Proof.
  cbv zeta.
  assert (Hin : In (EvModelFromPretrained AutoModelForCausalLM
                      "meta-llama/Llama-2-7b" false)
                  (trace_of (main (Sample.plain_env Scenario.ptq_eval)
                               Sample.argv_json))).
  { vm_compute. repeat (first [left; reflexivity | right]). }
  destruct (proj1 (model_construction _ _) _ _ _ Hin) as (H1 & H2 & _).
  split; [exact H1 | exact H2].
Defined.
